(** * The Ubuntu network manager of bosh-agent

    A shallow embedding of
    [bosh-agent/platform/net/ubuntu_net_manager.go]: the two entry points
    [SetupDhcp] and [SetupManualNetworking], the helpers they call, and the
    three configuration templates they render.

    The manager talks to four collaborators (file system, command runner,
    logger, address broadcaster).  Every call to one of them is an event of
    the program; a program is a finite tree of such events, and running it
    against a handler yields the value returned, the final state of the
    world, and the trace of calls with their answers. *)

From Stdlib Require Import Ascii.
From stdpp Require Import gmap strings list fin_maps.

(** ** Characters the Go source spells inside raw string literals *)

Definition nl : string := String "010"%char "".
Definition tab : string := String "009"%char "".
Definition dquote : string := String "034"%char "".

(** ** Errors ([bosherr]) *)

(** An error is either raised by a collaborator or wraps a cause with a
    message, as [bosherr.WrapError(cause, msg)] does. *)
Inductive error : Type :=
| NewError (msg : string)
| WrapError (cause : error) (msg : string).

#[global] Instance error_eq_dec : EqDecision error.
Proof. solve_decision. Defined.

(** [err.Error()]: a wrapped error prints its message, then its cause. *)
Fixpoint Error (e : error) : string :=
  match e with
  | NewError msg => msg
  | WrapError cause msg => msg +:+ ": " +:+ Error cause
  end.

(** [bosherr.WrapErrorf(err, "Writing to %s", file)] *)
Definition WrapErrorf_Writing_to (err : error) (file : string) : error :=
  WrapError err ("Writing to " +:+ file).

(** ** Go standard library: [strings] *)

(** [strings.Join(elems, sep)] *)
Fixpoint strings_Join (elems : list string) (sep : string) : string :=
  match elems with
  | [] => ""
  | e :: rest =>
      match rest with
      | [] => e
      | _ :: _ => e +:+ sep +:+ strings_Join rest sep
      end
  end.

Fixpoint in_cutset (c : ascii) (cutset : string) : bool :=
  match cutset with
  | "" => false
  | String d cutset' => if decide (c = d) then true else in_cutset c cutset'
  end.

Fixpoint strings_TrimLeft (s cutset : string) : string :=
  match s with
  | "" => ""
  | String c s' => if in_cutset c cutset then strings_TrimLeft s' cutset else s
  end.

Fixpoint strings_TrimRight (s cutset : string) : string :=
  match s with
  | "" => ""
  | String c s' =>
      match strings_TrimRight s' cutset with
      | "" => if in_cutset c cutset then "" else String c ""
      | t => String c t
      end
  end.

(** [strings.Trim(s, cutset)]: all leading and trailing bytes of [cutset]
    removed. *)
Definition strings_Trim (s cutset : string) : string :=
  strings_TrimRight (strings_TrimLeft s cutset) cutset.

(** ** Settings ([boshsettings]) *)

(** The fields of [boshsettings.Network] this file reads. *)
Record Network : Type := mkNetwork {
  IP : string;
  Netmask : string;
  Gateway : string;
  Default : list string;
  DNS : list string;
  Mac : string
}.

(** The zero value [Network{}]. *)
Definition zeroNetwork : Network := mkNetwork "" "" "" [] [] "".

(** [boshsettings.Networks] is a Go map from network name to [Network].
    Iterating a Go map visits its entries in an unspecified order; the list
    gives the entries in the order the iteration of this run visits them. *)
Definition Networks : Type := list (string * Network).

(** ** Data handed to the templates *)

(** [customNetwork]: the positional literal in [writeNetworkInterfaces]
    gives the order of the fields, the template gives their names. *)
Record customNetwork : Type := mkCustomNetwork {
  cnNetwork : Network;
  Interface : string;
  NetworkIP : string;
  Broadcast : string;
  HasDefaultGateway : bool
}.

Record networkInterfaceConfigArg : Type := mkNetworkInterfaceConfigArg {
  argNetworks : list customNetwork;
  HasDNSNameServers : bool;
  DNSServers : list string
}.

Record dnsConfigArg : Type := mkDnsConfigArg {
  dnsArgDNSServers : list string
}.

(** ** Addresses to announce ([boship]) *)

Inductive InterfaceAddress : Type :=
| NewResolvingInterfaceAddress (interfaceName : string)
| NewSimpleInterfaceAddress (interfaceName ip : string).

(** ** Pure helpers that live outside this file

    [path/filepath] of the Go library, [Networks.DefaultNetworkFor] of the
    settings package, [CalculateNetworkAndBroadcast] of the system package
    and [toInterfaceAddresses] of a sibling file.  The manager is
    parametric in them. *)
Class Externals : Type := {
  filepath_Join : string → string → string;
  filepath_Base : string → string;
  DefaultNetworkFor : Networks → string → Network * bool;
  CalculateNetworkAndBroadcast : string → string → string * string * option error;
  toInterfaceAddresses : list customNetwork → list InterfaceAddress
}.

(** ** Templates ([text/template])

    The three templates use only text, the actions [{{ . }}] and
    [{{ .Field }}], [{{ if pipeline }}] without an else branch and
    [{{ range pipeline }}]; none uses a trim marker, so the text between
    actions is copied verbatim. *)

(** The data a template is executed on. *)
#[warnings="-register-all"] Inductive value : Type :=
| VString (s : string)
| VBool (b : bool)
| VSlice (elems : list value)
| VStruct (fields : list (string * value)).

(** A pipeline is the cursor [.] or one field of it. *)
Inductive pipeline : Type :=
| Dot
| Field (name : string).

#[warnings="-register-all"] Inductive node : Type :=
| TextNode (text : string)
| ActionNode (pipe : pipeline)
| IfNode (pipe : pipeline) (body : list node)
| RangeNode (pipe : pipeline) (body : list node).

Fixpoint lookupField (fields : list (string * value)) (name : string)
  : option value :=
  match fields with
  | [] => None
  | (f, v) :: fields' =>
      if String.eqb f name then Some v else lookupField fields' name
  end.

(** Evaluating a field of something that has no such field is an execution
    error. *)
Definition evalPipeline (dot : value) (pipe : pipeline) : value + error :=
  match pipe with
  | Dot => inl dot
  | Field name =>
      match dot with
      | VStruct fields =>
          match lookupField fields name with
          | Some v => inl v
          | None => inr (NewError ("can't evaluate field " +:+ name))
          end
      | _ => inr (NewError ("can't evaluate field " +:+ name))
      end
  end.

(** The truth of a value: a false boolean, an empty string and an empty
    slice are false. *)
Definition truth (v : value) : bool :=
  match v with
  | VString s => if s is "" then false else true
  | VBool b => b
  | VSlice elems => if elems is [] then false else true
  | VStruct _ => true
  end.

(** What an action prints.  The templates of this file print strings only;
    printing a composite value is outside this model and reported as an
    error. *)
Definition printValue (v : value) : string + error :=
  match v with
  | VString s => inl s
  | VBool b => inl (if b then "true" else "false")
  | VSlice _ | VStruct _ => inr (NewError "unsupported print")
  end.

(** Execution appends to the buffer as it goes and stops at the first
    error; the pair is the text written so far and the error, if any. *)
Definition execSeq (step : node → value → string * option error)
  : list node → value → string * option error :=
  fix walk (body : list node) (dot : value) : string * option error :=
    match body with
    | [] => ("", None)
    | n :: body' =>
        match step n dot with
        | (out, Some err) => (out, Some err)
        | (out, None) =>
            let '(out', err) := walk body' dot in (out +:+ out', err)
        end
    end.

Definition execEach (run : value → string * option error)
  : list value → string * option error :=
  fix each (elems : list value) : string * option error :=
    match elems with
    | [] => ("", None)
    | v :: elems' =>
        match run v with
        | (out, Some err) => (out, Some err)
        | (out, None) => let '(out', err) := each elems' in (out +:+ out', err)
        end
    end.

Fixpoint execNode (n : node) (dot : value) : string * option error :=
  match n with
  | TextNode text => (text, None)
  | ActionNode pipe =>
      match evalPipeline dot pipe with
      | inr err => ("", Some err)
      | inl v =>
          match printValue v with
          | inl s => (s, None)
          | inr err => ("", Some err)
          end
      end
  | IfNode pipe body =>
      match evalPipeline dot pipe with
      | inr err => ("", Some err)
      | inl v => if truth v then execSeq execNode body dot else ("", None)
      end
  | RangeNode pipe body =>
      match evalPipeline dot pipe with
      | inr err => ("", Some err)
      | inl (VSlice elems) => execEach (execSeq execNode body) elems
      | inl _ => ("", Some (NewError "range can't iterate"))
      end
  end.

(** [t.Execute(buffer, data)], with the buffer's content afterwards. *)
Definition Execute (t : list node) (data : value) : string * option error :=
  execSeq execNode t data.

Arguments Execute : simpl never.

(** *** The three templates and the DHCP interfaces template *)

(** The text of [ubuntuDHCPConfigTemplate] before its first action. *)
Definition dhclientPreamble : string :=
  "# Generated by bosh-agent" +:+ nl +:+
  nl +:+
  "option rfc3442-classless-static-routes code 121 = array of unsigned integer 8;" +:+ nl +:+
  nl +:+
  "send host-name " +:+ dquote +:+ "<hostname>" +:+ dquote +:+ ";" +:+ nl +:+
  nl +:+
  "request subnet-mask, broadcast-address, time-offset, routers," +:+ nl +:+
  tab +:+ "domain-name, domain-name-servers, domain-search, host-name," +:+ nl +:+
  tab +:+ "netbios-name-servers, netbios-scope, interface-mtu," +:+ nl +:+
  tab +:+ "rfc3442-classless-static-routes, ntp-servers;" +:+ nl.

(** The text both interfaces templates start with. *)
Definition interfacesHeader : string :=
  "# Generated by bosh-agent" +:+ nl +:+
  "auto lo" +:+ nl +:+
  "iface lo inet loopback" +:+ nl.

Definition ubuntuDHCPConfigTemplate : list node :=
  [ TextNode dhclientPreamble;
    IfNode Dot
      [ TextNode (nl +:+ "prepend domain-name-servers ");
        ActionNode Dot;
        TextNode ";" ];
    TextNode nl ].

Definition networkInterfacesTemplate : list node :=
  [ TextNode interfacesHeader;
    RangeNode (Field "Networks")
      [ TextNode (nl +:+ "auto ");
        ActionNode (Field "Interface");
        TextNode (nl +:+ "iface ");
        ActionNode (Field "Interface");
        TextNode (" inet static" +:+ nl +:+ "    address ");
        ActionNode (Field "IP");
        TextNode (nl +:+ "    network ");
        ActionNode (Field "NetworkIP");
        TextNode (nl +:+ "    netmask ");
        ActionNode (Field "Netmask");
        TextNode (nl +:+ "    broadcast ");
        ActionNode (Field "Broadcast");
        TextNode nl;
        IfNode (Field "HasDefaultGateway")
          [ TextNode "    gateway ";
            ActionNode (Field "Gateway") ] ];
    TextNode nl;
    IfNode (Field "HasDNSNameServers")
      [ TextNode "dns-nameservers";
        RangeNode (Field "DNSServers")
          [ TextNode " ";
            ActionNode Dot ] ] ].

Definition ubuntuResolvConfTemplate : list node :=
  [ TextNode ("# Generated by bosh-agent" +:+ nl);
    RangeNode (Field "DNSServers")
      [ TextNode "nameserver ";
        ActionNode Dot;
        TextNode nl ] ].

Definition ubuntuDhcpNetworkInterfacesTemplate : list node :=
  [ TextNode interfacesHeader;
    RangeNode Dot
      [ TextNode (nl +:+ "auto ");
        ActionNode Dot;
        TextNode (nl +:+ "iface ");
        ActionNode Dot;
        TextNode (" inet dhcp" +:+ nl) ] ].

(** *** Go values as template data

    A struct shows its fields by name; the fields of the embedded
    [Network] are promoted into [customNetwork]. *)

Definition value_of_strings (l : list string) : value :=
  VSlice (map VString l).

Definition value_of_customNetwork (c : customNetwork) : value :=
  VStruct
    [ ("IP", VString (IP (cnNetwork c)));
      ("Netmask", VString (Netmask (cnNetwork c)));
      ("Gateway", VString (Gateway (cnNetwork c)));
      ("Default", value_of_strings (Default (cnNetwork c)));
      ("DNS", value_of_strings (DNS (cnNetwork c)));
      ("Mac", VString (Mac (cnNetwork c)));
      ("Interface", VString (Interface c));
      ("NetworkIP", VString (NetworkIP c));
      ("Broadcast", VString (Broadcast c));
      ("HasDefaultGateway", VBool (HasDefaultGateway c)) ].

Definition value_of_networkInterfaceConfigArg
  (a : networkInterfaceConfigArg) : value :=
  VStruct
    [ ("Networks", VSlice (map value_of_customNetwork (argNetworks a)));
      ("HasDNSNameServers", VBool (HasDNSNameServers a));
      ("DNSServers", value_of_strings (DNSServers a)) ].

Definition value_of_dnsConfigArg (a : dnsConfigArg) : value :=
  VStruct [ ("DNSServers", value_of_strings (dnsArgDNSServers a)) ].

(** ** Collaborators and programs *)

Inductive Level : Type := Debug | Info | LevelError.

(** What [RunCommand] returns: stdout, stderr, exit status, error. *)
Record CmdResult : Type := mkCmdResult {
  stdout : string;
  stderr : string;
  exitStatus : Z;
  cmdErr : option error
}.

(** The completion channel [errCh chan error]; [None] is the nil channel. *)
Definition Chan : Type := nat.

(** One constructor per collaborator method the manager calls, indexed by
    the type of its answer.  [GoBroadcast addresses errCh] is the [go]
    statement at the end of both entry points: it launches the task that
    calls [BroadcastMACAddresses(addresses)] and then, when [errCh] is not
    nil, sends nil on it.  The task runs beside the caller, so the program
    only records that it was launched. *)
Inductive netE : Type → Type :=
| Glob (pattern : string) : netE (list string * option error)
| ReadFileString (path : string) : netE (string * option error)
| FileExists (path : string) : netE bool
| ConvergeFileContents (path content : string) : netE (bool * option error)
| WriteFile (path content : string) : netE (option error)
| RunCommand (cmdName : string) (args : list string) : netE CmdResult
| Log (lvl : Level) (tag msg : string) : netE unit
| GoBroadcast (addresses : list InterfaceAddress) (errCh : option Chan)
    : netE unit.

(** A program: return a value, or call a collaborator and go on with its
    answer. *)
Inductive Prog (R : Type) : Type :=
| Ret (r : R)
| Vis {X : Type} (e : netE X) (k : X → Prog R).

Arguments Ret {R} r.
Arguments Vis {R X} e k.

Fixpoint bind {A B : Type} (m : Prog A) (f : A → Prog B) : Prog B :=
  match m with
  | Ret a => f a
  | Vis e k => Vis e (λ x, bind (k x) f)
  end.

#[global] Instance Prog_ret : MRet Prog := @Ret.
#[global] Instance Prog_bind : MBind Prog := λ A B f m, bind m f.

Definition call {X : Type} (e : netE X) : Prog X := Vis e Ret.

(** *** Running a program *)

(** A call together with the answer it got. *)
Inductive Event : Type :=
| EvGlob (pattern : string) (ans : list string * option error)
| EvReadFileString (path : string) (ans : string * option error)
| EvFileExists (path : string) (ans : bool)
| EvConvergeFileContents (path content : string) (ans : bool * option error)
| EvWriteFile (path content : string) (ans : option error)
| EvRunCommand (cmdName : string) (args : list string) (ans : CmdResult)
| EvLog (lvl : Level) (tag msg : string)
| EvGoBroadcast (addresses : list InterfaceAddress) (errCh : option Chan).

Definition record {X : Type} (e : netE X) : X → Event :=
  match e in netE X return X → Event with
  | Glob pattern => EvGlob pattern
  | ReadFileString path => EvReadFileString path
  | FileExists path => EvFileExists path
  | ConvergeFileContents path content => EvConvergeFileContents path content
  | WriteFile path content => EvWriteFile path content
  | RunCommand cmdName args => EvRunCommand cmdName args
  | Log lvl tag msg => λ _, EvLog lvl tag msg
  | GoBroadcast addresses errCh => λ _, EvGoBroadcast addresses errCh
  end.

(** A world of state [S] answers every call and moves to a next state. *)
Definition Handler (S : Type) : Type := ∀ X : Type, netE X → S → X * S.

Record Outcome (R S : Type) : Type := mkOutcome {
  trace : list Event;
  result : R;
  final : S
}.

Arguments mkOutcome {R S} trace result final.
Arguments trace {R S} o.
Arguments result {R S} o.
Arguments final {R S} o.

Fixpoint exec {S R : Type} (h : Handler S) (p : Prog R) (s : S)
  : Outcome R S :=
  match p with
  | Ret r => mkOutcome [] r s
  | Vis e k =>
      let '(x, s') := h _ e s in
      let o := exec h (k x) s' in
      mkOutcome (record e x :: trace o) (result o) (final o)
  end.

(** ** The manager *)

Definition ubuntuNetManagerLogTag : string := "ubuntuNetManager".

Definition logger_Debug (msg : string) : Prog unit :=
  call (Log Debug ubuntuNetManagerLogTag msg).
Definition logger_Info (msg : string) : Prog unit :=
  call (Log Info ubuntuNetManagerLogTag msg).
Definition logger_Error (msg : string) : Prog unit :=
  call (Log LevelError ubuntuNetManagerLogTag msg).

Section Manager.
Context {ext : Externals}.

Fixpoint detectNetworkInterfaces_range (filePaths interfaces : list string)
  : Prog (list string) :=
  match filePaths with
  | [] => Ret interfaces
  | filePath :: filePaths' =>
      exists_ ← call (FileExists (filepath_Join filePath "device"));
      if negb exists_ then
        _ ← logger_Info ("Ignoring virtual network device: " +:+ filePath);
        detectNetworkInterfaces_range filePaths' interfaces
      else
        let interfaceName := filepath_Base filePath in
        detectNetworkInterfaces_range filePaths' (interfaces ++ [interfaceName])
  end.

Definition detectNetworkInterfaces : Prog (list string * option error) :=
  let interfaces := [] in
  '(filePaths, err) ← call (Glob "/sys/class/net/*");
  match err with
  | Some err =>
      Ret ([], Some (WrapError err "Getting file list from /sys/class/net"))
  | None =>
      interfaces ← detectNetworkInterfaces_range filePaths interfaces;
      Ret (interfaces, None)
  end.

Fixpoint detectMacAddresses_range (filePaths : list string)
    (addresses : gmap string string)
  : Prog (gmap string string * option error) :=
  match filePaths with
  | [] => Ret (addresses, None)
  | filePath :: filePaths' =>
      '(macAddress, err) ←
        call (ReadFileString (filepath_Join filePath "address"));
      match err with
      | Some err =>
          Ret (addresses, Some (WrapError err "Reading mac address from file"))
      | None =>
          let macAddress := strings_Trim macAddress nl in
          let interfaceName := filepath_Base filePath in
          detectMacAddresses_range filePaths'
            (<[macAddress := interfaceName]> addresses)
      end
  end.

Definition detectMacAddresses : Prog (gmap string string * option error) :=
  let addresses : gmap string string := ∅ in
  '(filePaths, err) ← call (Glob "/sys/class/net/*");
  match err with
  | Some err =>
      Ret (addresses,
            Some (WrapError err "Getting file list from /sys/class/net"))
  | None => detectMacAddresses_range filePaths addresses
  end.

Definition restartNetworkArguments : Prog (list string) :=
  r ← call (RunCommand "ifup" ["--version"]);
  _ ← match cmdErr r with
      | Some err => logger_Error ("Ignoring ifup version failure: " +:+ Error err)
      | None => Ret tt
      end;
  Ret ["-a"; "--no-loopback"].

Fixpoint restartNetworkingInterfaces (networks : list customNetwork)
  : Prog unit :=
  match networks with
  | [] => Ret tt
  | network :: networks' =>
      _ ← logger_Debug ("Restarting network interface " +:+ Interface network);
      r ← call (RunCommand "service"
                  ["network-interface"; "stop";
                   "INTERFACE=" +:+ Interface network]);
      _ ← match cmdErr r with
          | Some err =>
              logger_Error ("Ignoring network stop failure: " +:+ Error err)
          | None => Ret tt
          end;
      r ← call (RunCommand "service"
                  ["network-interface"; "start";
                   "INTERFACE=" +:+ Interface network]);
      _ ← match cmdErr r with
          | Some err =>
              logger_Error ("Ignoring network start failure: " +:+ Error err)
          | None => Ret tt
          end;
      restartNetworkingInterfaces networks'
  end.

Definition writeDhcpNetworkInterfaces : Prog (option error) :=
  '(interfaces, err) ← detectNetworkInterfaces;
  match err with
  | Some err => Ret (Some (WrapError err "Detecting network interfaces"))
  | None =>
      let '(buffer, err) :=
        Execute ubuntuDhcpNetworkInterfacesTemplate
          (value_of_strings interfaces) in
      match err with
      | Some err => Ret (Some (WrapError err "Generating config from template"))
      | None =>
          '(_, err) ← call (ConvergeFileContents "/etc/network/interfaces" buffer);
          match err with
          | Some err =>
              Ret (Some (WrapError err "Writing to /etc/network/interfaces"))
          | None => Ret None
          end
      end
  end.

Definition SetupDhcp (networks : Networks) (errCh : option Chan)
  : Prog (option error) :=
  _ ← logger_Debug "Configuring DHCP networking";
  err ← writeDhcpNetworkInterfaces;
  match err with
  | Some err =>
      Ret (Some (WrapError err "Generating interfaces config from template"))
  | None =>
      let '(dnsNetwork, _) := DefaultNetworkFor networks "dns" in
      let dnsServersList := strings_Join (DNS dnsNetwork) ", " in
      let '(buffer, err) :=
        Execute ubuntuDHCPConfigTemplate (VString dnsServersList) in
      match err with
      | Some err => Ret (Some (WrapError err "Generating config from template"))
      | None =>
          let dhclientConfigFile := "/etc/dhcp/dhclient.conf" in
          '(written, err) ←
            call (ConvergeFileContents dhclientConfigFile buffer);
          match err with
          | Some err =>
              Ret (Some (WrapErrorf_Writing_to err dhclientConfigFile))
          | None =>
              _ ← (if written : bool then
                     args ← restartNetworkArguments;
                     _ ← logger_Debug "Restarting network interfaces";
                     r ← call (RunCommand "ifdown" args);
                     _ ← match cmdErr r with
                         | Some err =>
                             logger_Error
                               ("Ignoring ifdown failure: " +:+ Error err)
                         | None => Ret tt
                         end;
                     r ← call (RunCommand "ifup" args);
                     match cmdErr r with
                     | Some err =>
                         logger_Error ("Ignoring ifup failure: " +:+ Error err)
                     | None => Ret tt
                     end
                   else Ret tt);
              let addresses := [NewResolvingInterfaceAddress "eth0"] in
              _ ← call (GoBroadcast addresses errCh);
              Ret None
          end
      end
  end.

(** The loop of [writeNetworkInterfaces] over the networks. *)
Fixpoint writeNetworkInterfaces_range (macAddresses : gmap string string)
    (networks : Networks) (modifiedNetworks : list customNetwork)
  : list customNetwork * option error :=
  match networks with
  | [] => (modifiedNetworks, None)
  | (_, aNet) :: networks' =>
      let '(network, broadcast, err) :=
        CalculateNetworkAndBroadcast (IP aNet) (Netmask aNet) in
      match err with
      | Some err =>
          (modifiedNetworks,
           Some (WrapError err "Calculating network and broadcast"))
      | None =>
          let newNet :=
            mkCustomNetwork
              aNet
              (default "" (macAddresses !! Mac aNet))
              network
              broadcast
              true in
          writeNetworkInterfaces_range macAddresses networks'
            (modifiedNetworks ++ [newNet])
      end
  end.

Definition writeNetworkInterfaces (networks : Networks)
  : Prog (list customNetwork * bool * option error) :=
  let modifiedNetworks : list customNetwork := [] in
  '(macAddresses, err) ← detectMacAddresses;
  match err with
  | Some err =>
      Ret (modifiedNetworks, false, Some (WrapError err "Detecting mac addresses"))
  | None =>
      match writeNetworkInterfaces_range macAddresses networks modifiedNetworks with
      | (modifiedNetworks, Some err) => Ret (modifiedNetworks, false, Some err)
      | (modifiedNetworks, None) =>
          let networkInterfaceValues :=
            mkNetworkInterfaceConfigArg modifiedNetworks false [] in
          let '(dnsNetwork, _) := DefaultNetworkFor networks "dns" in
          let networkInterfaceValues :=
            mkNetworkInterfaceConfigArg
              (argNetworks networkInterfaceValues) true (DNS dnsNetwork) in
          let '(buffer, err) :=
            Execute networkInterfacesTemplate
              (value_of_networkInterfaceConfigArg networkInterfaceValues) in
          match err with
          | Some err =>
              Ret (modifiedNetworks, false,
                    Some (WrapError err "Generating config from template"))
          | None =>
              '(written, err) ←
                call (ConvergeFileContents "/etc/network/interfaces" buffer);
              match err with
              | Some err =>
                  Ret (modifiedNetworks, false,
                        Some (WrapError err "Writing to /etc/network/interfaces"))
              | None => Ret (modifiedNetworks, written, None)
              end
          end
      end
  end.

Definition SetupManualNetworking (networks : Networks) (errCh : option Chan)
  : Prog (option error) :=
  _ ← logger_Debug "Configuring manual networking";
  '(modifiedNetworks, written, err) ← writeNetworkInterfaces networks;
  match err with
  | Some err => Ret (Some (WrapError err "Writing network interfaces"))
  | None =>
      _ ← (if written : bool then restartNetworkingInterfaces modifiedNetworks
           else Ret tt);
      let addresses := toInterfaceAddresses modifiedNetworks in
      _ ← call (GoBroadcast addresses errCh);
      Ret None
  end.

Definition writeResolvConf (networks : Networks) : Prog (option error) :=
  _ ← logger_Debug "Writing resolv.conf";
  let '(dnsNetwork, _) := DefaultNetworkFor networks "dns" in
  let dnsServersArg := mkDnsConfigArg (DNS dnsNetwork) in
  let '(buffer, err) :=
    Execute ubuntuResolvConfTemplate (value_of_dnsConfigArg dnsServersArg) in
  match err with
  | Some err => Ret (Some (WrapError err "Generating config from template"))
  | None =>
      err ← call (WriteFile "/etc/resolv.conf" buffer);
      match err with
      | Some err => Ret (Some (WrapError err "Writing to /etc/resolv.conf"))
      | None => Ret None
      end
  end.

(** The block of [SetupDhcp] that runs when the directive file changed,
    under a name. *)
Definition restartAll : Prog unit :=
  args ← restartNetworkArguments;
  _ ← logger_Debug "Restarting network interfaces";
  r ← call (RunCommand "ifdown" args);
  _ ← match cmdErr r with
      | Some err => logger_Error ("Ignoring ifdown failure: " +:+ Error err)
      | None => Ret tt
      end;
  r ← call (RunCommand "ifup" args);
  match cmdErr r with
  | Some err => logger_Error ("Ignoring ifup failure: " +:+ Error err)
  | None => Ret tt
  end.

(** What [writeNetworkInterfaces] makes of one network, given the
    inventory. *)
Definition resolve (macAddresses : gmap string string) (aNet : Network)
  : customNetwork :=
  let '(network, broadcast, _) :=
    CalculateNetworkAndBroadcast (IP aNet) (Netmask aNet) in
  mkCustomNetwork aNet (default "" (macAddresses !! Mac aNet))
    network broadcast true.

(** [CalculateNetworkAndBroadcast] accepts the address and mask of the
    network. *)
Definition calcOk (aNet : Network) : Prop :=
  (CalculateNetworkAndBroadcast (IP aNet) (Netmask aNet)).2 = None.

(** The inventory as a fold: [rd] is what reading a file yields. *)
Definition macOf (rd : string → string * option error) (filePath : string)
  : string :=
  strings_Trim (rd (filepath_Join filePath "address")).1 nl.

Definition record_ (rd : string → string * option error)
    (addresses : gmap string string) (filePath : string)
  : gmap string string :=
  <[macOf rd filePath := filepath_Base filePath]> addresses.

End Manager.

(** The commands of the restart block of [SetupDhcp], in order. *)
Definition restartAllCommands : list (string * list string) :=
  [ ("ifup", ["--version"]);
    ("ifdown", ["-a"; "--no-loopback"]);
    ("ifup", ["-a"; "--no-loopback"]) ].

(** The commands [restartNetworkingInterfaces] runs for one interface. *)
Definition restartCommands (interfaceName : string)
  : list (string * list string) :=
  [ ("service", ["network-interface"; "stop"; "INTERFACE=" +:+ interfaceName]);
    ("service", ["network-interface"; "start"; "INTERFACE=" +:+ interfaceName]) ].

(** ** Reading traces *)

Definition commandsOf (tr : list Event) : list (string * list string) :=
  omap (λ ev, match ev with
              | EvRunCommand cmdName args _ => Some (cmdName, args)
              | _ => None
              end) tr.

Definition broadcastsOf (tr : list Event)
  : list (list InterfaceAddress * option Chan) :=
  omap (λ ev, match ev with
              | EvGoBroadcast addresses errCh => Some (addresses, errCh)
              | _ => None
              end) tr.

(** The contents handed to [ConvergeFileContents] for [path], each with
    the answer it got. *)
Definition convergesOf (path : string) (tr : list Event)
  : list (string * (bool * option error)) :=
  omap (λ ev, match ev with
              | EvConvergeFileContents p content ans =>
                  if decide (p = path) then Some (content, ans) else None
              | _ => None
              end) tr.

(** The contents handed to [WriteFile] for [path]. *)
Definition writesOf (path : string) (tr : list Event)
  : list (string * option error) :=
  omap (λ ev, match ev with
              | EvWriteFile p content ans =>
                  if decide (p = path) then Some (content, ans) else None
              | _ => None
              end) tr.

Definition readsOf (tr : list Event) : list string :=
  omap (λ ev, match ev with
              | EvReadFileString path _ => Some path
              | _ => None
              end) tr.

Arguments commandsOf : simpl never.
Arguments broadcastsOf : simpl never.
Arguments convergesOf : simpl never.
Arguments writesOf : simpl never.
Arguments readsOf : simpl never.

(** The error a file-system call answered with, if it failed. *)
Definition fsError (ev : Event) : option error :=
  match ev with
  | EvGlob _ (_, err) => err
  | EvReadFileString _ (_, err) => err
  | EvConvergeFileContents _ _ (_, err) => err
  | EvWriteFile _ _ err => err
  | _ => None
  end.

Definition fsFailed (ev : Event) : bool := bool_decide (is_Some (fsError ev)).

(** A restart command that failed: an error from the runner or a non-zero
    exit status. *)
Definition cmdFailed (r : CmdResult) : bool :=
  bool_decide (is_Some (cmdErr r)) || negb (bool_decide (exitStatus r = 0%Z)).

(** An event of the detection step: a glob, a read, an existence check or a
    log line. *)
Definition detection (ev : Event) : bool :=
  match ev with
  | EvGlob _ _ | EvReadFileString _ _ | EvFileExists _ _ | EvLog _ _ _ => true
  | _ => false
  end.

(** The steps a call takes after its files converged: commands, log lines
    and the launch of the broadcast. *)
Definition afterConvergence (ev : Event) : bool :=
  match ev with
  | EvRunCommand _ _ _ | EvLog _ _ _ | EvGoBroadcast _ _ => true
  | _ => false
  end.

(** An event that is neither a command, nor the launch of the broadcast,
    nor a failed file-system call. *)
Definition benign (ev : Event) : bool :=
  match ev with
  | EvRunCommand _ _ _ | EvGoBroadcast _ _ => false
  | _ => negb (fsFailed ev)
  end.

(** The shape of the trace of a call that returned [err]: without an error
    every event is benign; with one, the trace ends with the file-system
    call that failed and every event before it is benign. *)
Definition stopsAtFailure (tr : list Event) (err : option error) : Prop :=
  match err with
  | None => Forall (λ ev, benign ev = true) tr
  | Some _ =>
      ∃ tr0 ev, tr = tr0 ++ [ev] ∧ Forall (λ ev, benign ev = true) tr0 ∧
                fsFailed ev = true
  end.

(** Whether some convergence of the DHCP client directive file reported a
    change. *)
Definition dhclientChanged (tr : list Event) : bool :=
  existsb (λ ca : string * (bool * option error),
             bool_decide (ca.2 = (true, None)))
    (convergesOf "/etc/dhcp/dhclient.conf" tr).

Definition writesFile {X : Type} (e : netE X) : bool :=
  match e with
  | ConvergeFileContents _ _ | WriteFile _ _ => true
  | _ => false
  end.

(** A program that never asks the file system to write. *)
Inductive readOnly {R : Type} : Prog R → Prop :=
| readOnly_Ret (r : R) : readOnly (Ret r)
| readOnly_Vis {X : Type} (e : netE X) (k : X → Prog R) :
    writesFile e = false → (∀ x, readOnly (k x)) → readOnly (Vis e k).

(** ** Reading rendered files *)

Definition consHead (c : ascii) (ls : list string) : list string :=
  match ls with
  | [] => [String c ""]
  | l :: ls' => String c l :: ls'
  end.

(** The lines of a file: the pieces between newline characters. *)
Fixpoint lines (s : string) : list string :=
  match s with
  | "" => [""]
  | String c s' =>
      if decide (c = "010"%char) then "" :: lines s' else consHead c (lines s')
  end.

(** A line is a [kw] line when it starts with [kw] after its indentation. *)
Definition isLine (kw l : string) : bool :=
  String.prefix kw (strings_TrimLeft l (" " +:+ tab)).

Definition hasLine (kw content : string) : bool :=
  existsb (isLine kw) (lines content).

Fixpoint noNewline (s : string) : bool :=
  match s with
  | "" => true
  | String c s' => if decide (c = "010"%char) then false else noNewline s'
  end.

Definition concatStrings (l : list string) : string :=
  foldr String.append "" l.

(** The stanza of one network in the static interfaces file, up to the
    place of its gateway line. *)
Definition stanza (c : customNetwork) : string :=
  nl +:+ "auto " +:+ Interface c +:+
  nl +:+ "iface " +:+ Interface c +:+ " inet static" +:+
  nl +:+ "    address " +:+ IP (cnNetwork c) +:+
  nl +:+ "    network " +:+ NetworkIP c +:+
  nl +:+ "    netmask " +:+ Netmask (cnNetwork c) +:+
  nl +:+ "    broadcast " +:+ Broadcast c +:+ nl.

(** What the templates come to on the data the manager hands them. *)

Definition gatewayLine (c : customNetwork) : string :=
  if HasDefaultGateway c then "    gateway " +:+ Gateway (cnNetwork c) else "".

Definition dnsLine (a : networkInterfaceConfigArg) : string :=
  if HasDNSNameServers a
  then "dns-nameservers" +:+ concatStrings (map (String.append " ") (DNSServers a))
  else "".

Definition renderNetworkInterfaces (a : networkInterfaceConfigArg) : string :=
  interfacesHeader +:+
  concatStrings (map (λ c, stanza c +:+ gatewayLine c) (argNetworks a)) +:+
  nl +:+ dnsLine a.

Definition prependDirective (dnsServersList : string) : string :=
  "prepend domain-name-servers " +:+ dnsServersList +:+ ";".

Definition renderDhclientConf (dnsServersList : string) : string :=
  dhclientPreamble +:+
  (if dnsServersList is "" then "" else nl +:+ prependDirective dnsServersList)
  +:+ nl.

Definition renderResolvConf (dnsServers : list string) : string :=
  "# Generated by bosh-agent" +:+ nl +:+
  concatStrings (map (λ d, "nameserver " +:+ d +:+ nl) dnsServers).

Definition renderDhcpInterfaces (interfaces : list string) : string :=
  interfacesHeader +:+
  concatStrings
    (map (λ i, nl +:+ "auto " +:+ i +:+ nl +:+ "iface " +:+ i +:+ " inet dhcp"
               +:+ nl) interfaces).

(** ** A world in memory

    The collaborators are not part of this file.  A machine [Sys] fixes
    what does not change during a call; the state is the content of the
    files written so far. *)

(** Modelled from the spec: the boundary of the file system and of the
    command runner (section 6 of the design).  [sysGlob], [sysRead] and
    [sysExists] give what the device tree under /sys shows, [writeFails]
    says for which path the storage refuses a write, [commands] what every
    command returns. *)
Record Sys : Type := mkSys {
  sysGlob : string → list string * option error;
  sysRead : string → string * option error;
  sysExists : string → bool;
  writeFails : string → option error;
  commands : string → list string → CmdResult
}.

(** Modelled from the spec: [ConvergeFileContents] of the file system.
    Section 4.3 of the design: it compares the existing content, if any,
    with the new content, writes only if they differ, and reports whether
    it wrote; it fails when the storage does. *)
Definition memConverge (sys : Sys) (path content : string)
    (files : gmap string string)
  : (bool * option error) * gmap string string :=
  if decide (files !! path = Some content) then ((false, None), files)
  else
    match writeFails sys path with
    | Some err => ((false, Some err), files)
    | None => ((true, None), <[path := content]> files)
    end.

(** Modelled from the spec: [WriteFile] of the file system.  Section 4.3
    of the design: an unconditional write. *)
Definition memWrite (sys : Sys) (path content : string)
    (files : gmap string string)
  : option error * gmap string string :=
  match writeFails sys path with
  | Some err => (Some err, files)
  | None => (None, <[path := content]> files)
  end.

(** Modelled from the spec: the four collaborators together.  The logger
    and the launch of the broadcast leave the files alone; so do the
    commands. *)
Definition memWorld (sys : Sys) : Handler (gmap string string) :=
  λ X e,
    match e in netE X
          return gmap string string → X * gmap string string with
    | Glob pattern => λ files, (sysGlob sys pattern, files)
    | ReadFileString path => λ files, (sysRead sys path, files)
    | FileExists path => λ files, (sysExists sys path, files)
    | ConvergeFileContents path content => memConverge sys path content
    | WriteFile path content => memWrite sys path content
    | RunCommand cmdName args => λ files, (commands sys cmdName args, files)
    | Log _ _ _ => λ files, (tt, files)
    | GoBroadcast _ _ => λ files, (tt, files)
    end.

(** ** The helpers from outside this file, for concrete runs *)

Fixpoint splitOn (sep : ascii) (s : string) : list string :=
  match s with
  | "" => [""]
  | String c s' =>
      if decide (c = sep) then "" :: splitOn sep s'
      else consHead c (splitOn sep s')
  end.

Definition digitOf (c : ascii) : option N :=
  let n := N_of_ascii c in
  if (48 <=? n)%N && (n <=? 57)%N then Some (n - 48)%N else None.

Fixpoint parseDecimal (s : string) (acc : N) : option N :=
  match s with
  | "" => Some acc
  | String c s' =>
      match digitOf c with
      | Some d => parseDecimal s' (acc * 10 + d)%N
      | None => None
      end
  end.

Definition parseOctet (s : string) : option N :=
  if decide (s = "") then None
  else
    match parseDecimal s 0%N with
    | Some n => if (n <=? 255)%N then Some n else None
    | None => None
    end.

Definition parseIPv4 (s : string) : option (list N) :=
  match splitOn "."%char s with
  | [a; b; c; d] =>
      match parseOctet a, parseOctet b, parseOctet c, parseOctet d with
      | Some a, Some b, Some c, Some d => Some [a; b; c; d]
      | _, _, _, _ => None
      end
  | _ => None
  end.

Definition digitString (d : N) : string := String (ascii_of_N (48 + d)) "".

Definition printOctet (n : N) : string :=
  if (n <? 10)%N then digitString n
  else if (n <? 100)%N then digitString (n / 10) +:+ digitString (n mod 10)
  else digitString (n / 100) +:+ digitString ((n / 10) mod 10)
       +:+ digitString (n mod 10).

Definition printIPv4 (octets : list N) : string :=
  strings_Join (map printOctet octets) ".".

(** Modelled from the spec: [CalculateNetworkAndBroadcast] is declared in
    the system package.  The design says it computes the network and the
    broadcast address from IP and netmask and fails on a malformed pair;
    its example is 10.0.0.5 with 255.255.255.0 giving 10.0.0.0 and
    10.0.0.255.  Dotted IPv4 addresses only. *)
Definition sampleCalculateNetworkAndBroadcast (ipAddress netmask : string)
  : string * string * option error :=
  match parseIPv4 ipAddress, parseIPv4 netmask with
  | Some ip, Some mask =>
      (printIPv4 (zip_with N.land ip mask),
       printIPv4 (zip_with (λ i m, N.lor i (N.lxor m 255)) ip mask),
       None)
  | _, _ => ("", "", Some (NewError "Invalid ip or netmask"))
  end.

(** Modelled from the spec: [DefaultNetworkFor] is declared in the settings
    package.  The design says it resolves the network tagged for the given
    purpose, and that finding none is not an error: the caller then reads
    the DNS list of the zero network, which is empty. *)
Fixpoint sampleDefaultNetworkFor (networks : Networks) (category : string)
  : Network * bool :=
  match networks with
  | [] => (zeroNetwork, false)
  | (_, aNet) :: networks' =>
      if bool_decide (category ∈ Default aNet) then (aNet, true)
      else sampleDefaultNetworkFor networks' category
  end.

(** The last element of a slash-separated path. *)
Definition sampleBase (path : string) : string :=
  default "" (last (splitOn "/"%char path)).

(** Modelled from the spec: [toInterfaceAddresses] is declared in a sibling
    file.  The design says the broadcast goes over the interfaces of the
    full set of resolved networks. *)
Definition sampleToInterfaceAddresses (networks : list customNetwork)
  : list InterfaceAddress :=
  map (λ c, NewSimpleInterfaceAddress (Interface c) (IP (cnNetwork c)))
    networks.

(** The helpers for concrete runs.  [filepath.Join] and [filepath.Base] are
    those of the Go library on the clean paths a glob of /sys/class/net/*
    returns. *)
Definition sampleExternals : Externals := {|
  filepath_Join := λ dir name, dir +:+ "/" +:+ name;
  filepath_Base := sampleBase;
  DefaultNetworkFor := sampleDefaultNetworkFor;
  CalculateNetworkAndBroadcast := sampleCalculateNetworkAndBroadcast;
  toInterfaceAddresses := sampleToInterfaceAddresses
|}.

(** *** Sample worlds *)

Definition okCmd : CmdResult := mkCmdResult "" "" 0 None.
Definition failedCmd : CmdResult :=
  mkCmdResult "" "" 1 (Some (NewError "exit status 1")).

(** Two devices; eth0 is backed by hardware, lo is not. *)
Definition sampleSys : Sys := {|
  sysGlob := λ pattern,
    if decide (pattern = "/sys/class/net/*")
    then (["/sys/class/net/eth0"; "/sys/class/net/lo"], None)
    else ([], None);
  sysRead := λ path,
    if decide (path = "/sys/class/net/eth0/address")
    then ("aa:bb:cc:dd:ee:ff" +:+ nl, None)
    else if decide (path = "/sys/class/net/lo/address")
    then ("00:00:00:00:00:00" +:+ nl, None)
    else ("", Some (NewError "no such file"));
  sysExists := λ path, bool_decide (path = "/sys/class/net/eth0/device");
  writeFails := λ _, None;
  commands := λ _ _, okCmd
|}.

(** The same machine with every command failing. *)
Definition failingCommandsSys : Sys :=
  mkSys (sysGlob sampleSys) (sysRead sampleSys) (sysExists sampleSys)
    (λ _, None) (λ _ _, failedCmd).

(** Two devices that report the same hardware address. *)
Definition twinSys : Sys := {|
  sysGlob := λ _, (["/sys/class/net/eth0"; "/sys/class/net/eth1"], None);
  sysRead := λ _, ("aa:bb:cc:dd:ee:ff" +:+ nl, None);
  sysExists := λ _, true;
  writeFails := λ _, None;
  commands := λ _ _, okCmd
|}.


(** The sample machine with a storage that refuses to write the DHCP client
    directive file. *)
Definition readOnlyDhclientSys : Sys :=
  mkSys (sysGlob sampleSys) (sysRead sampleSys) (sysExists sampleSys)
    (λ path,
       if decide (path = "/etc/dhcp/dhclient.conf")
       then Some (NewError "read-only file system") else None)
    (λ _ _, okCmd).


(** The sample machine with a storage that refuses every write. *)
Definition readOnlySys : Sys :=
  mkSys (sysGlob sampleSys) (sysRead sampleSys) (sysExists sampleSys)
    (λ _, Some (NewError "read-only file system")) (λ _ _, okCmd).

(** *** Sample networks *)

(** A network with a gateway and two DNS servers, tagged for DNS; its MAC
    is the one of eth0 in [sampleSys]. *)
Definition staticNetwork : Network := {|
  IP := "10.0.0.5";
  Netmask := "255.255.255.0";
  Gateway := "10.0.0.1";
  Default := ["dns"; "gateway"];
  DNS := ["8.8.8.8"; "9.9.9.9"];
  Mac := "aa:bb:cc:dd:ee:ff"
|}.

(** A network without gateway and without DNS servers; no device of
    [sampleSys] has its MAC. *)
Definition plainNetwork : Network := {|
  IP := "10.0.1.5";
  Netmask := "255.255.255.0";
  Gateway := "";
  Default := [];
  DNS := [];
  Mac := "11:22:33:44:55:66"
|}.

(** A network whose netmask is not an address. *)
Definition malformedNetwork : Network := {|
  IP := "10.0.0.5";
  Netmask := "banana";
  Gateway := "";
  Default := [];
  DNS := [];
  Mac := "aa:bb:cc:dd:ee:ff"
|}.

(** The static interfaces file written for [plainNetwork] alone on
    [sampleSys]. *)
Definition plainInterfacesFile : string :=
  "# Generated by bosh-agent" +:+ nl +:+
  "auto lo" +:+ nl +:+
  "iface lo inet loopback" +:+ nl +:+
  nl +:+
  "auto " +:+ nl +:+
  "iface  inet static" +:+ nl +:+
  "    address 10.0.1.5" +:+ nl +:+
  "    network 10.0.1.0" +:+ nl +:+
  "    netmask 255.255.255.0" +:+ nl +:+
  "    broadcast 10.0.1.255" +:+ nl +:+
  "    gateway " +:+ nl +:+
  "dns-nameservers".

(** Every command of the trace failed. *)
Definition allCommandsFailed (tr : list Event) : bool :=
  forallb (λ ev, match ev with
                 | EvRunCommand _ _ r => cmdFailed r
                 | _ => true
                 end) tr.

(** ** Reading more of a call: layouts, logs and file calls *)

(** The lines of the block of one interface in the DHCP interfaces file. *)
Definition dhcpBlockLines (interfaceName : string) : list string :=
  [ "";
    "auto " +:+ interfaceName;
    "iface " +:+ interfaceName +:+ " inet dhcp" ].

(** The lines of the block of one network in the static interfaces file;
    the last one is the gateway line the code always asks for. *)
Definition staticBlockLines (c : customNetwork) : list string :=
  [ "auto " +:+ Interface c;
    "iface " +:+ Interface c +:+ " inet static";
    "    address " +:+ IP (cnNetwork c);
    "    network " +:+ NetworkIP c;
    "    netmask " +:+ Netmask (cnNetwork c);
    "    broadcast " +:+ Broadcast c;
    "    gateway " +:+ Gateway (cnNetwork c) ].

(** The three lines both interfaces files start with. *)
Definition interfacesHeaderLines : list string :=
  [ "# Generated by bosh-agent"; "auto lo"; "iface lo inet loopback" ].

(** No field of the resolved network that the template prints holds a
    newline. *)
Definition cleanNetwork (c : customNetwork) : bool :=
  noNewline (Interface c) && noNewline (IP (cnNetwork c)) &&
  noNewline (NetworkIP c) && noNewline (Netmask (cnNetwork c)) &&
  noNewline (Broadcast c) && noNewline (Gateway (cnNetwork c)).

(** A step of a restart block: a command or a log line. *)
Definition restartStep (ev : Event) : bool :=
  match ev with
  | EvRunCommand _ _ _ | EvLog _ _ _ => true
  | _ => false
  end.

(** The paths the file system was asked to write, in order, whether it
    did or not. *)
Definition fileCallsOf (tr : list Event) : list string :=
  omap (λ ev, match ev with
              | EvConvergeFileContents path _ _ | EvWriteFile path _ _ =>
                  Some path
              | _ => None
              end) tr.

(** The paths whose existence was checked, in order. *)
Definition existenceChecksOf (tr : list Event) : list string :=
  omap (λ ev, match ev with
              | EvFileExists path _ => Some path
              | _ => None
              end) tr.

(** The messages logged at one level, in order. *)
Definition logsOf (lvl : Level) (tr : list Event) : list string :=
  omap (λ ev, match ev with
              | EvLog lvl' _ msg =>
                  match lvl, lvl' with
                  | Debug, Debug | Info, Info | LevelError, LevelError =>
                      Some msg
                  | _, _ => None
                  end
              | _ => None
              end) tr.

(** The name under which the failure of a command is logged. *)
Definition failureLabel (cmdName : string) (args : list string) : string :=
  if String.eqb cmdName "ifdown" then "ifdown"
  else if String.eqb cmdName "ifup" then
    match args with
    | ["--version"] => "ifup version"
    | _ => "ifup"
    end
  else
    match args with
    | [_; "stop"; _] => "network stop"
    | _ => "network start"
    end.

(** The message logged for a command that returned an error; a command
    that returned none leaves no message. *)
Definition ignoredFailure (ev : Event) : option string :=
  match ev with
  | EvRunCommand cmdName args r =>
      match cmdErr r with
      | Some err =>
          Some ("Ignoring " +:+ failureLabel cmdName args +:+ " failure: "
                +:+ Error err)
      | None => None
      end
  | _ => None
  end.

(** Every command of the trace that returned an error left its message in
    the error log, in order, and nothing else is logged at that level. *)
Definition failuresLogged (tr : list Event) : Prop :=
  logsOf LevelError tr = omap ignoredFailure tr.

(** An event that is neither a command nor a log line. *)
Definition silent (ev : Event) : bool :=
  match ev with
  | EvRunCommand _ _ _ | EvLog _ _ _ => false
  | _ => true
  end.

(** * Proofs *)

(** ** Strings, and running a program *)

Lemma append_cons (c : ascii) (a b : string) :
  String c a +:+ b = String c (a +:+ b).
Proof. done. Qed.

Lemma append_nil_r (s : string) : s +:+ "" = s.
Proof. induction s as [|c s IH]; [done|]. by rewrite append_cons, IH. Qed.

Lemma append_assoc (a b c : string) : (a +:+ b) +:+ c = a +:+ (b +:+ c).
Proof. induction a as [|x a IH]; [done|]. by rewrite !append_cons, IH. Qed.

Section Exec.
Context {S : Type} (h : Handler S).

Lemma exec_bind' {A B : Type} (m : Prog A) (f : A → Prog B) (s : S) :
  exec h (bind m f) s =
  let o1 := exec h m s in
  let o2 := exec h (f (result o1)) (final o1) in
  mkOutcome (trace o1 ++ trace o2) (result o2) (final o2).
Proof.
  revert s. induction m as [a|X e k IH]; intros s.
  - simpl. by destruct (exec h (f a) s).
  - simpl. destruct (h X e s) as [x s']. by rewrite IH.
Qed.

Lemma exec_bind {A B : Type} (m : Prog A) (f : A → Prog B) (s : S) :
  exec h (m ≫= f) s =
  let o1 := exec h m s in
  let o2 := exec h (f (result o1)) (final o1) in
  mkOutcome (trace o1 ++ trace o2) (result o2) (final o2).
Proof. apply exec_bind'. Qed.

Lemma exec_call {X : Type} (e : netE X) (s : S) :
  exec h (call e) s = mkOutcome [record e (h X e s).1] (h X e s).1 (h X e s).2.
Proof. unfold call. simpl. by destruct (h X e s). Qed.

End Exec.

(** Reading a trace event by event. *)

Lemma commandsOf_cons ev tr :
  commandsOf (ev :: tr)
  = match ev with
    | EvRunCommand cmdName args _ => (cmdName, args) :: commandsOf tr
    | _ => commandsOf tr
    end.
Proof. by destruct ev. Qed.

Lemma broadcastsOf_cons ev tr :
  broadcastsOf (ev :: tr)
  = match ev with
    | EvGoBroadcast addresses errCh => (addresses, errCh) :: broadcastsOf tr
    | _ => broadcastsOf tr
    end.
Proof. by destruct ev. Qed.

Lemma convergesOf_cons path ev tr :
  convergesOf path (ev :: tr)
  = match ev with
    | EvConvergeFileContents p content ans =>
        if decide (p = path) then (content, ans) :: convergesOf path tr
        else convergesOf path tr
    | _ => convergesOf path tr
    end.
Proof. destruct ev; try done. unfold convergesOf. simpl. by case_decide. Qed.

Lemma writesOf_cons path ev tr :
  writesOf path (ev :: tr)
  = match ev with
    | EvWriteFile p content ans =>
        if decide (p = path) then (content, ans) :: writesOf path tr
        else writesOf path tr
    | _ => writesOf path tr
    end.
Proof. destruct ev; try done. unfold writesOf. simpl. by case_decide. Qed.

Lemma readsOf_cons ev tr :
  readsOf (ev :: tr)
  = match ev with
    | EvReadFileString path _ => path :: readsOf tr
    | _ => readsOf tr
    end.
Proof. by destruct ev. Qed.

Lemma commandsOf_app tr1 tr2 :
  commandsOf (tr1 ++ tr2) = commandsOf tr1 ++ commandsOf tr2.
Proof. apply omap_app. Qed.

Lemma broadcastsOf_app tr1 tr2 :
  broadcastsOf (tr1 ++ tr2) = broadcastsOf tr1 ++ broadcastsOf tr2.
Proof. apply omap_app. Qed.

Lemma convergesOf_app path tr1 tr2 :
  convergesOf path (tr1 ++ tr2) = convergesOf path tr1 ++ convergesOf path tr2.
Proof. apply omap_app. Qed.

Lemma writesOf_app path tr1 tr2 :
  writesOf path (tr1 ++ tr2) = writesOf path tr1 ++ writesOf path tr2.
Proof. apply omap_app. Qed.

Lemma commandsOf_nil : commandsOf [] = [].
Proof. done. Qed.
Lemma broadcastsOf_nil : broadcastsOf [] = [].
Proof. done. Qed.
Lemma convergesOf_nil path : convergesOf path [] = [].
Proof. done. Qed.
Lemma writesOf_nil path : writesOf path [] = [].
Proof. done. Qed.
Lemma readsOf_nil : readsOf [] = [].
Proof. done. Qed.

Create Rewrite HintDb traces.

#[global] Hint Rewrite commandsOf_cons broadcastsOf_cons convergesOf_cons
  writesOf_cons readsOf_cons commandsOf_app broadcastsOf_app convergesOf_app
  writesOf_app commandsOf_nil broadcastsOf_nil convergesOf_nil writesOf_nil
  readsOf_nil : traces.

Ltac traces := autorewrite with traces; simpl.

(** ** The templates, executed *)

Ltac norm_append := rewrite ?append_assoc, ?append_nil_r.

Lemma execEach_map {A : Type} (run : value → string * option error)
    (f : A → value) (g : A → string) (xs : list A) :
  (∀ x, run (f x) = (g x, None)) →
  execEach run (map f xs) = (concatStrings (map g xs), None).
Proof.
  intros Hrun. induction xs as [|x xs IH]; [done|].
  simpl. rewrite Hrun. simpl in IH. by rewrite IH.
Qed.

Lemma Execute_networkInterfacesTemplate (a : networkInterfaceConfigArg) :
  Execute networkInterfacesTemplate (value_of_networkInterfaceConfigArg a)
  = (renderNetworkInterfaces a, None).
Proof.
  destruct a as [nets hasDns dns].
  unfold Execute, networkInterfacesTemplate, renderNetworkInterfaces, dnsLine.
  simpl.
  rewrite (execEach_map _ value_of_customNetwork
             (λ c, stanza c +:+ gatewayLine c)).
  - unfold value_of_strings.
    destruct hasDns; simpl.
    + rewrite (execEach_map _ VString (String.append " ")).
      * by norm_append.
      * intros d. simpl. by norm_append.
    + by norm_append.
  - intros [[ip mask gw dflt ds mac] iface nip bc hgw].
    destruct hgw; cbv -[String.append]; norm_append; reflexivity.
Qed.

Lemma Execute_ubuntuDHCPConfigTemplate (dnsServersList : string) :
  Execute ubuntuDHCPConfigTemplate (VString dnsServersList)
  = (renderDhclientConf dnsServersList, None).
Proof.
  unfold Execute, ubuntuDHCPConfigTemplate, renderDhclientConf, prependDirective.
  destruct dnsServersList as [|c s]; simpl; by norm_append.
Qed.

Lemma Execute_ubuntuResolvConfTemplate (a : dnsConfigArg) :
  Execute ubuntuResolvConfTemplate (value_of_dnsConfigArg a)
  = (renderResolvConf (dnsArgDNSServers a), None).
Proof.
  destruct a as [dns].
  unfold Execute, ubuntuResolvConfTemplate, renderResolvConf, value_of_strings.
  simpl.
  rewrite (execEach_map _ VString (λ d, "nameserver " +:+ d +:+ nl)).
  - by norm_append.
  - intros d. simpl. by norm_append.
Qed.

Lemma Execute_ubuntuDhcpNetworkInterfacesTemplate (interfaces : list string) :
  Execute ubuntuDhcpNetworkInterfacesTemplate (value_of_strings interfaces)
  = (renderDhcpInterfaces interfaces, None).
Proof.
  unfold Execute, ubuntuDhcpNetworkInterfacesTemplate, renderDhcpInterfaces,
    value_of_strings.
  simpl.
  rewrite (execEach_map _ VString
    (λ i, nl +:+ "auto " +:+ i +:+ nl +:+ "iface " +:+ i +:+ " inet dhcp" +:+ nl)).
  - by norm_append.
  - intros d. simpl. by norm_append.
Qed.

(** ** The lines of a text *)

Lemma lines_nonempty (s : string) : lines s ≠ [].
Proof.
  induction s as [|c s IH]; [done|]. simpl.
  case_decide; [done|]. by destruct (lines s).
Qed.

Lemma consHead_app (c : ascii) (ls ls' : list string) :
  ls ≠ [] → consHead c (ls ++ ls') = consHead c ls ++ ls'.
Proof. by destruct ls. Qed.

(** Splitting at a newline splits the list of lines. *)
Lemma lines_app_nl (a b : string) :
  lines (a +:+ nl +:+ b) = lines a ++ lines b.
Proof.
  induction a as [|c a IH]; [done|].
  rewrite append_cons. simpl. case_decide; [by rewrite IH|].
  rewrite IH. apply consHead_app, lines_nonempty.
Qed.

Lemma lines_noNewline (s : string) : noNewline s = true → lines s = [s].
Proof.
  induction s as [|c s IH]; [done|]. simpl.
  case_decide; [done|]. intros Hs. by rewrite IH.
Qed.

Lemma noNewline_app (a b : string) :
  noNewline (a +:+ b) = noNewline a && noNewline b.
Proof.
  induction a as [|c a IH]; [done|]. rewrite append_cons. simpl.
  by case_decide.
Qed.

(** The first line of a text that starts with a newline-free piece. *)
Lemma lines_app_head (a b : string) :
  noNewline a = true →
  ∃ l ls, lines b = l :: ls ∧ lines (a +:+ b) = (a +:+ l) :: ls.
Proof.
  intros Ha. induction a as [|c a IH].
  - destruct (lines b) as [|l ls] eqn:Hb; [by apply lines_nonempty in Hb|].
    by exists l, ls.
  - simpl in Ha. case_decide; [done|].
    destruct (IH Ha) as (l & ls & Hb & Hab). exists l, ls. split; [done|].
    rewrite append_cons. simpl. case_decide; [done|]. by rewrite Hab.
Qed.

Lemma last_lines_app_nl (a b : string) :
  noNewline b = true → last (lines (a +:+ nl +:+ b)) = Some b.
Proof.
  intros Hb. rewrite lines_app_nl, (lines_noNewline b Hb).
  by rewrite last_snoc.
Qed.

Lemma prefix_app (a b : string) : String.prefix a (a +:+ b) = true.
Proof.
  induction a as [|c a IH]; [by destruct b|].
  rewrite append_cons. simpl. by destruct (ascii_dec c c).
Qed.

Lemma noNewline_concat_sep (sep : string) (ds : list string) :
  noNewline sep = true → forallb noNewline ds = true →
  noNewline (concatStrings (map (String.append sep) ds)) = true.
Proof.
  intros Hsep. induction ds as [|d ds IH]; [done|]. simpl.
  intros [Hd Hds]%andb_prop. rewrite !noNewline_app, Hsep, Hd. simpl. auto.
Qed.

Lemma noNewline_Join (ds : list string) (sep : string) :
  noNewline sep = true → forallb noNewline ds = true →
  noNewline (strings_Join ds sep) = true.
Proof.
  intros Hsep. induction ds as [|d ds IH]; [done|].
  intros [Hd Hds]%andb_prop. simpl. destruct ds as [|d' ds]; [done|].
  rewrite !noNewline_app, Hd, Hsep. simpl. auto.
Qed.

Lemma lines_resolv_entries (ds : list string) :
  forallb noNewline ds = true →
  lines (concatStrings (map (λ d, "nameserver " +:+ d +:+ nl) ds))
  = map (String.append "nameserver ") ds ++ [""].
Proof.
  induction ds as [|d ds IH]; [done|]. simpl.
  intros [Hd Hds]%andb_prop.
  rewrite <- append_assoc, (append_assoc _ nl), lines_app_nl.
  rewrite lines_noNewline by (by rewrite noNewline_app, Hd).
  by rewrite IH.
Qed.

(** ** Traces that stop at the first failure *)

Lemma stopsAtFailure_app (tr1 tr2 : list Event) (err : option error) :
  Forall (λ ev, benign ev = true) tr1 → stopsAtFailure tr2 err →
  stopsAtFailure (tr1 ++ tr2) err.
Proof.
  intros H1. destruct err as [e|]; simpl.
  - intros (tr0 & ev & -> & H0 & Hev). exists (tr1 ++ tr0), ev.
    rewrite app_assoc. split_and!; [done| |done]. by apply Forall_app.
  - intros H2. by apply Forall_app.
Qed.

Lemma stopsAtFailure_cons (ev : Event) (tr : list Event) (err : option error) :
  benign ev = true → stopsAtFailure tr err → stopsAtFailure (ev :: tr) err.
Proof.
  intros Hev. apply (stopsAtFailure_app [ev]). by constructor.
Qed.

Ltac exec_bind := first [rewrite exec_bind | rewrite exec_bind'].

(** Name the answers of the logger and of the command runner, and split on
    whether a command returned an error. *)
Ltac answers h :=
  repeat (simpl;
          match goal with
          | |- context [cmdErr ?r] => destruct (cmdErr r)
          | |- context [h unit ?e ?s] => destruct (h unit e s) as [[] ?]
          | |- context [h CmdResult ?e ?s] => destruct (h CmdResult e s) as [? ?]
          end);
  simpl.

Section Detection.
Context {ext : Externals} {S : Type} (h : Handler S).

Lemma detectNetworkInterfaces_range_benign filePaths interfaces s :
  Forall (λ ev, benign ev = true)
    (trace (exec h (detectNetworkInterfaces_range filePaths interfaces) s)).
Proof.
  revert interfaces s. induction filePaths as [|p ps IH]; intros acc s.
  - constructor.
  - simpl. destruct (h bool _ s) as [[] s1]; simpl.
    + constructor; [done|]. apply IH.
    + destruct (h unit _ s1) as [[] s2]. simpl.
      constructor; [done|]. constructor; [done|]. apply IH.
Qed.

Lemma detectNetworkInterfaces_stops s :
  let o := exec h detectNetworkInterfaces s in
  stopsAtFailure (trace o) (result o).2.
Proof.
  unfold detectNetworkInterfaces. simpl.
  destruct (h _ (Glob "/sys/class/net/*") s) as [[paths [e|]] s1]; simpl.
  - exists [], (EvGlob "/sys/class/net/*" (paths, Some e)). by split_and!.
  - exec_bind. simpl. constructor; [done|].
    rewrite app_nil_r. apply detectNetworkInterfaces_range_benign.
Qed.

End Detection.

(** ** Physical interfaces *)

Section Physical.
Context {ext : Externals} {S : Type} (h : Handler S).
Variable hasDevice : string → bool.
Hypothesis Hexists : ∀ p s, (h _ (FileExists p) s).1 = hasDevice p.

Lemma detectNetworkInterfaces_range_result filePaths interfaces s :
  result (exec h (detectNetworkInterfaces_range filePaths interfaces) s)
  = interfaces ++
    map filepath_Base
      (List.filter (λ p, hasDevice (filepath_Join p "device")) filePaths).
Proof.
  revert interfaces s. induction filePaths as [|p ps IH]; intros acc s.
  - simpl. by rewrite app_nil_r.
  - simpl. specialize (Hexists (filepath_Join p "device") s).
    destruct (h bool _ s) as [b s1]. simpl in Hexists. subst b.
    destruct (hasDevice _); simpl.
    + rewrite IH. by rewrite <- app_assoc.
    + destruct (h unit _ s1) as [[] s2]. simpl. apply IH.
Qed.

End Physical.

(** C6.  When the glob of /sys/class/net/* yields [paths] and the file
    system answers the existence of a path by [hasDevice],
    [detectNetworkInterfaces] returns without error the base names of
    exactly those entries whose "device" descriptor exists, in the order of
    the enumeration; every other entry is skipped. *)
Theorem detectNetworkInterfaces_physical_only {ext : Externals} {S : Type}
    (h : Handler S) (paths : list string) (hasDevice : string → bool) (s : S) :
  (h _ (Glob "/sys/class/net/*") s).1 = (paths, None) →
  (∀ p s', (h _ (FileExists p) s').1 = hasDevice p) →
  result (exec h detectNetworkInterfaces s)
  = (map filepath_Base
       (List.filter (λ p, hasDevice (filepath_Join p "device")) paths),
     None).
Proof.
  intros Hglob Hexists. unfold detectNetworkInterfaces. simpl.
  destruct (h _ (Glob "/sys/class/net/*") s) as [ans s1].
  simpl in Hglob. subst ans. simpl. exec_bind. simpl.
  by rewrite (detectNetworkInterfaces_range_result h hasDevice Hexists).
Qed.

Lemma detectNetworkInterfaces_physical_only_witness :
  (memWorld sampleSys _ (Glob "/sys/class/net/*") ∅).1
    = (["/sys/class/net/eth0"; "/sys/class/net/lo"], None) ∧
  result (exec (memWorld sampleSys)
            (detectNetworkInterfaces (ext := sampleExternals)) ∅)
  = (["eth0"], None).
Proof.
  split; [reflexivity|].
  apply (detectNetworkInterfaces_physical_only (ext := sampleExternals)
           (memWorld sampleSys) ["/sys/class/net/eth0"; "/sys/class/net/lo"]
           (sysExists sampleSys) ∅); [reflexivity|].
  intros p s'. reflexivity.
Defined.

(** ** The inventory as a fold *)

Section Inventory.
Context {ext : Externals}.
Variable rd : string → string * option error.

Lemma foldl_record_lookup (filePaths : list string)
    (addresses : gmap string string) (mac : string) :
  foldl (record_ rd) addresses filePaths !! mac
  = match last (filter (λ p, macOf rd p = mac) filePaths) with
    | Some p => Some (filepath_Base p)
    | None => addresses !! mac
    end.
Proof.
  revert addresses. induction filePaths as [|p ps IH]; intros acc; [done|].
  simpl. rewrite IH. rewrite filter_cons. unfold record_.
  destruct (decide (macOf rd p = mac)) as [Heq|Hne].
  - destruct (filter _ ps) as [|q qs] eqn:Hf; simpl.
    + by rewrite Heq, lookup_insert_eq.
    + destruct (last (q :: qs)) eqn:Hl; [done|]. by apply last_None in Hl.
  - destruct (last (filter _ ps)); [done|]. by rewrite lookup_insert_ne.
Qed.

Lemma size_record_le (addresses : gmap string string) (p : string) :
  size (record_ rd addresses p) ≤ S (size addresses).
Proof.
  unfold record_. rewrite map_size_insert.
  destruct (addresses !! macOf rd p); simpl; lia.
Qed.

Lemma size_record_known (addresses : gmap string string) (p : string) :
  is_Some (addresses !! macOf rd p) →
  size (record_ rd addresses p) = size addresses.
Proof.
  intros [x Hx]. unfold record_. by rewrite map_size_insert, Hx.
Qed.

Lemma foldl_record_size_le (filePaths : list string)
    (addresses : gmap string string) :
  size (foldl (record_ rd) addresses filePaths) ≤ size addresses + length filePaths.
Proof.
  revert addresses. induction filePaths as [|p ps IH]; intros acc; simpl; [lia|].
  pose proof (IH (record_ rd acc p)). pose proof (size_record_le acc p). lia.
Qed.

Lemma foldl_record_size_known (filePaths : list string)
    (addresses : gmap string string) (q : string) :
  q ∈ filePaths → is_Some (addresses !! macOf rd q) →
  size (foldl (record_ rd) addresses filePaths) < size addresses + length filePaths.
Proof.
  revert addresses. induction filePaths as [|p ps IH]; intros acc Hq Hin.
  - by apply elem_of_nil in Hq.
  - simpl. apply elem_of_cons in Hq as [->|Hq].
    + pose proof (foldl_record_size_le ps (record_ rd acc p)).
      pose proof (size_record_known acc p Hin). lia.
    + assert (is_Some (record_ rd acc p !! macOf rd q)) as Hin'.
      { unfold record_. destruct (decide (macOf rd p = macOf rd q)) as [->|Hne].
        - rewrite lookup_insert_eq. eauto.
        - by rewrite lookup_insert_ne. }
      pose proof (IH _ Hq Hin'). pose proof (size_record_le acc p). lia.
Qed.

Lemma foldl_record_size_dup (filePaths : list string)
    (addresses : gmap string string) (i j : nat) (p q : string) :
  i < j → filePaths !! i = Some p → filePaths !! j = Some q →
  macOf rd p = macOf rd q →
  size (foldl (record_ rd) addresses filePaths) < size addresses + length filePaths.
Proof.
  revert addresses i j.
  induction filePaths as [|p0 ps IH]; intros acc i j Hij Hi Hj Heq; [done|].
  simpl. destruct j as [|j]; [lia|]. simpl in Hj.
  pose proof (size_record_le acc p0).
  destruct i as [|i]; simpl in Hi.
  - injection Hi as ->.
    assert (size (foldl (record_ rd) (record_ rd acc p) ps)
            < size (record_ rd acc p) + length ps) as Hlt.
    { apply (foldl_record_size_known ps (record_ rd acc p) q).
      - by eapply list_elem_of_lookup_2.
      - unfold record_. rewrite Heq, lookup_insert_eq. eauto. }
    lia.
  - pose proof (IH (record_ rd acc p0) i j ltac:(lia) Hi Hj Heq). lia.
Qed.

End Inventory.

(** ** Reading the hardware addresses *)

Section Reading.
Context {ext : Externals} {S : Type} (h : Handler S).
Variable rd : string → string * option error.
Hypothesis Hread : ∀ q s, (h _ (ReadFileString q) s).1 = rd q.

Lemma record_unfold addresses p content err :
  rd (filepath_Join p "address") = (content, err) →
  <[strings_Trim content nl := filepath_Base p]> addresses
  = record_ rd addresses p.
Proof. intros Hrd. unfold record_, macOf. by rewrite Hrd. Qed.

Lemma detectMacAddresses_range_ok filePaths addresses s :
  (∀ p, p ∈ filePaths → (rd (filepath_Join p "address")).2 = None) →
  let o := exec h (detectMacAddresses_range filePaths addresses) s in
  result o = (foldl (record_ rd) addresses filePaths, None) ∧
  readsOf (trace o) = map (λ p, filepath_Join p "address") filePaths.
Proof.
  revert addresses s. induction filePaths as [|p ps IH]; intros acc s Hok.
  - done.
  - simpl. pose proof (Hread (filepath_Join p "address") s) as Hp.
    pose proof (Hok p ltac:(left)) as Hnone.
    destruct (h _ _ s) as [ans s1]. simpl in Hp. subst ans.
    destruct (rd (filepath_Join p "address")) as [content err] eqn:Hrd.
    simpl in Hnone. subst err. simpl. rewrite (record_unfold _ _ _ _ Hrd).
    destruct (IH (record_ rd acc p) s1) as [Hres Hreads].
    { intros q Hq. apply Hok. by right. }
    traces. by rewrite Hres, Hreads.
Qed.


End Reading.

(** ** The hardware address inventory *)

(** C10.  When every address file can be read, the inventory maps a
    hardware address to the base name of the last enumerated entry that
    reports it: a later entry overwrites an earlier one.  The inventory has
    at most as many entries as there are enumerated interfaces, and fewer
    as soon as two of them report the same address. *)
Theorem detectMacAddresses_last_wins {ext : Externals} {S : Type}
    (h : Handler S) (paths : list string) (content : string → string) (s : S) :
  (h _ (Glob "/sys/class/net/*") s).1 = (paths, None) →
  (∀ q s', (h _ (ReadFileString q) s').1 = (content q, None)) →
  let r := result (exec h detectMacAddresses s) in
  let mac p := strings_Trim (content (filepath_Join p "address")) nl in
  r.2 = None ∧
  (∀ a, r.1 !! a = filepath_Base <$> last (filter (λ p, mac p = a) paths)) ∧
  size r.1 ≤ length paths ∧
  (∀ i j p q, i < j → paths !! i = Some p → paths !! j = Some q →
              mac p = mac q → size r.1 < length paths).
Proof.
  intros Hglob Hread r mac. subst r. unfold detectMacAddresses. simpl.
  destruct (h _ (Glob "/sys/class/net/*") s) as [ans s1].
  simpl in Hglob. subst ans. simpl.
  destruct (detectMacAddresses_range_ok h (λ q, (content q, None)) Hread
              paths ∅ s1) as [Hres _]; [done|].
  rewrite Hres. simpl. split_and!.
  - done.
  - intros a. rewrite foldl_record_lookup, lookup_empty.
    by destruct (last _).
  - pose proof (foldl_record_size_le (λ q, (content q, None)) paths ∅) as Hle.
    by rewrite map_size_empty in Hle.
  - intros i j p q Hij Hi Hj Heq.
    pose proof (foldl_record_size_dup (λ q, (content q, None)) paths ∅
                  i j p q Hij Hi Hj Heq) as Hlt.
    by rewrite map_size_empty in Hlt.
Qed.

Lemma detectMacAddresses_last_wins_witness :
  let r := result (exec (memWorld twinSys)
                     (detectMacAddresses (ext := sampleExternals)) ∅) in
  r.1 !! "aa:bb:cc:dd:ee:ff" = Some "eth1" ∧ size r.1 < 2.
Proof.
  destruct (detectMacAddresses_last_wins (ext := sampleExternals)
              (memWorld twinSys)
              ["/sys/class/net/eth0"; "/sys/class/net/eth1"]
              (λ _, "aa:bb:cc:dd:ee:ff" +:+ nl) ∅ eq_refl (λ _ _, eq_refl))
    as (_ & Hlookup & _ & Hdup).
  split.
  - rewrite Hlookup. reflexivity.
  - apply (Hdup 0 1 "/sys/class/net/eth0" "/sys/class/net/eth1");
      [lia|reflexivity..].
Defined.





(** ** The detection step and the DHCP interfaces file *)

Section Structure.
Context {ext : Externals} {S : Type} (h : Handler S).

Lemma detectNetworkInterfaces_detection s :
  Forall (λ ev, detection ev = true) (trace (exec h detectNetworkInterfaces s)).
Proof.
  unfold detectNetworkInterfaces. simpl.
  destruct (h _ (Glob "/sys/class/net/*") s) as [[paths [e|]] s1]; simpl.
  - by repeat constructor.
  - exec_bind. simpl. constructor; [done|]. rewrite app_nil_r.
    generalize (@nil string). revert s1.
    induction paths as [|p ps IH]; intros s1 acc; [constructor|].
    simpl. destruct (h bool _ s1) as [[] s2]; simpl.
    + constructor; [done|]. apply IH.
    + destruct (h unit _ s2) as [[] s3]. simpl.
      constructor; [done|]. constructor; [done|]. apply IH.
Qed.

Lemma detectMacAddresses_detection s :
  Forall (λ ev, detection ev = true) (trace (exec h detectMacAddresses s)).
Proof.
  unfold detectMacAddresses. simpl.
  destruct (h _ (Glob "/sys/class/net/*") s) as [[paths [e|]] s1]; simpl.
  - by repeat constructor.
  - constructor; [done|].
    generalize (∅ : gmap string string). revert s1.
    induction paths as [|p ps IH]; intros s1 acc; [constructor|].
    simpl. destruct (h _ _ s1) as [[content [e|]] s2]; simpl.
    + by repeat constructor.
    + constructor; [done|]. apply IH.
Qed.

Lemma detectMacAddresses_stops s :
  let o := exec h detectMacAddresses s in
  stopsAtFailure (trace o) (result o).2.
Proof.
  unfold detectMacAddresses. simpl.
  destruct (h _ (Glob "/sys/class/net/*") s) as [[paths [e|]] s1]; simpl.
  - exists [], (EvGlob "/sys/class/net/*" (paths, Some e)). by split_and!.
  - apply stopsAtFailure_cons; [done|].
    generalize (∅ : gmap string string). revert s1.
    induction paths as [|p ps IH]; intros s1 acc; [constructor|].
    simpl. destruct (h _ _ s1) as [[content [e|]] s2]; simpl.
    + eexists [], _. by split_and!.
    + apply stopsAtFailure_cons; [done|]. apply IH.
Qed.

(** What a trace of detection events does not hold. *)
Lemma detection_commandsOf tr :
  Forall (λ ev, detection ev = true) tr → commandsOf tr = [].
Proof.
  induction 1 as [|ev tr Hev _ IH]; [done|]. by destruct ev.
Qed.

Lemma detection_convergesOf path tr :
  Forall (λ ev, detection ev = true) tr → convergesOf path tr = [].
Proof.
  induction 1 as [|ev tr Hev _ IH]; [done|]. by destruct ev.
Qed.

(** The step [writeDhcpNetworkInterfaces], read off its code. *)
Lemma exec_writeDhcpNetworkInterfaces s :
  let o1 := exec h detectNetworkInterfaces s in
  exec h writeDhcpNetworkInterfaces s
  = match (result o1).2 with
    | Some err =>
        mkOutcome (trace o1)
          (Some (WrapError err "Detecting network interfaces")) (final o1)
    | None =>
        let content := renderDhcpInterfaces (result o1).1 in
        let '(ans, s2) :=
          h _ (ConvergeFileContents "/etc/network/interfaces" content)
            (final o1) in
        mkOutcome
          (trace o1 ++
           [EvConvergeFileContents "/etc/network/interfaces" content ans])
          (match ans.2 with
           | Some err => Some (WrapError err "Writing to /etc/network/interfaces")
           | None => None
           end)
          s2
    end.
Proof.
  unfold writeDhcpNetworkInterfaces. exec_bind.
  destruct (exec h detectNetworkInterfaces s) as [tr1 [ifs [e|]] s1]; simpl.
  - by rewrite app_nil_r.
  - rewrite Execute_ubuntuDhcpNetworkInterfacesTemplate. simpl.
    destruct (h _ _ s1) as [[written [e|]] s2]; done.
Qed.

End Structure.

(** ** [SetupDhcp], step by step *)

Section Dhcp.
Context {ext : Externals} {S : Type} (h : Handler S).

Lemma exec_SetupDhcp networks errCh s :
  let s0 :=
    (h _ (Log Debug ubuntuNetManagerLogTag "Configuring DHCP networking") s).2 in
  let o1 := exec h writeDhcpNetworkInterfaces s0 in
  let content :=
    renderDhclientConf
      (strings_Join (DNS (DefaultNetworkFor networks "dns").1) ", ") in
  exec h (SetupDhcp networks errCh) s
  = match result o1 with
    | Some err =>
        mkOutcome
          (EvLog Debug ubuntuNetManagerLogTag "Configuring DHCP networking"
           :: trace o1)
          (Some (WrapError err "Generating interfaces config from template"))
          (final o1)
    | None =>
        let '((written, err), s2) :=
          h _ (ConvergeFileContents "/etc/dhcp/dhclient.conf" content) (final o1) in
        match err with
        | Some err =>
            mkOutcome
              (EvLog Debug ubuntuNetManagerLogTag "Configuring DHCP networking"
               :: trace o1 ++
               [EvConvergeFileContents "/etc/dhcp/dhclient.conf" content
                  (written, Some err)])
              (Some (WrapErrorf_Writing_to err "/etc/dhcp/dhclient.conf"))
              s2
        | None =>
            let o3 := exec h (if written then restartAll else Ret tt) s2 in
            let s4 :=
              (h _ (GoBroadcast [NewResolvingInterfaceAddress "eth0"] errCh)
                 (final o3)).2 in
            mkOutcome
              (EvLog Debug ubuntuNetManagerLogTag "Configuring DHCP networking"
               :: trace o1 ++
               EvConvergeFileContents "/etc/dhcp/dhclient.conf" content (written, None)
               :: trace o3 ++
               [EvGoBroadcast [NewResolvingInterfaceAddress "eth0"] errCh])
              None s4
        end
    end.
Proof.
  unfold SetupDhcp. exec_bind. unfold logger_Debug at 1. rewrite exec_call.
  cbv zeta. cbn [result final trace].
  destruct (h _ (Log Debug _ _) s) as [[] s0]. cbn [fst snd].
  exec_bind.
  destruct (exec h writeDhcpNetworkInterfaces s0) as [tr1 [e|] s1];
    cbn [result final trace].
  { simpl. by rewrite app_nil_r. }
  destruct (DefaultNetworkFor networks "dns") as [dnsNetwork found].
  rewrite Execute_ubuntuDHCPConfigTemplate. cbn [fst snd].
  exec_bind. rewrite exec_call. cbv zeta. cbn [result final trace].
  destruct (h _ (ConvergeFileContents _ _) s1) as [[written [e|]] s2];
    cbn [fst snd].
  { simpl. done. }
  exec_bind. cbv zeta.
  assert ((if written
           then
             args ← restartNetworkArguments;
             _ ← logger_Debug "Restarting network interfaces";
             r ← call (RunCommand "ifdown" args);
             _ ← match cmdErr r with
                 | Some err =>
                     logger_Error ("Ignoring ifdown failure: " +:+ Error err)
                 | None => Ret tt
                 end;
             r0 ← call (RunCommand "ifup" args);
             match cmdErr r0 with
             | Some err =>
                 logger_Error ("Ignoring ifup failure: " +:+ Error err)
             | None => Ret tt
             end
           else Ret tt) = (if written then restartAll else Ret tt)) as ->
    by reflexivity.
  destruct (exec h (if written then restartAll else Ret tt) s2)
    as [tr3 [] s3].
  cbn [result final trace]. exec_bind. rewrite exec_call. simpl.
  destruct (h _ (GoBroadcast _ _) s3) as [[] s4]. simpl.
  done.
Qed.

End Dhcp.

(** ** What the steps of [SetupDhcp] leave in the trace *)

Lemma benign_commandsOf tr :
  Forall (λ ev, benign ev = true) tr → commandsOf tr = [].
Proof. induction 1 as [|ev tr Hev _ IH]; [done|]. by destruct ev. Qed.

Lemma benign_broadcastsOf tr :
  Forall (λ ev, benign ev = true) tr → broadcastsOf tr = [].
Proof. induction 1 as [|ev tr Hev _ IH]; [done|]. by destruct ev. Qed.

Lemma stopsAtFailure_quiet tr e :
  stopsAtFailure tr (Some e) → commandsOf tr = [] ∧ broadcastsOf tr = [].
Proof.
  intros (tr0 & ev & -> & H0 & Hev).
  rewrite commandsOf_app, broadcastsOf_app.
  rewrite (benign_commandsOf _ H0), (benign_broadcastsOf _ H0).
  by destruct ev.
Qed.

Lemma stopsAtFailure_failed tr e :
  stopsAtFailure tr (Some e) → Exists (λ ev, fsFailed ev = true) tr.
Proof.
  intros (tr0 & ev & -> & H0 & Hev). apply Exists_app. right. by left.
Qed.

Section DhcpFacts.
Context {ext : Externals} {S : Type} (h : Handler S).

Lemma writeDhcpNetworkInterfaces_stops s :
  let o := exec h writeDhcpNetworkInterfaces s in
  stopsAtFailure (trace o) (result o) ∧
  convergesOf "/etc/dhcp/dhclient.conf" (trace o) = [] ∧
  (∀ e, result o = Some e → ∃ cause msg, e = WrapError cause msg).
Proof.
  cbv zeta. rewrite exec_writeDhcpNetworkInterfaces. cbv zeta.
  pose proof (detectNetworkInterfaces_stops h s) as Hstop.
  pose proof (detectNetworkInterfaces_detection h s) as Hdet.
  destruct (exec h detectNetworkInterfaces s) as [tr1 [ifs [e|]] s1];
    simpl in *.
  - split_and!; [done|by apply detection_convergesOf|].
    intros ? [= <-]. eauto.
  - destruct (h _ _ s1) as [[written [e|]] s2]; simpl.
    + split_and!.
      * eexists tr1, _. by split_and!.
      * rewrite convergesOf_app, (detection_convergesOf _ _ Hdet). done.
      * intros ? [= <-]. eauto.
    + split_and!; [|by rewrite convergesOf_app, (detection_convergesOf _ _ Hdet)|done].
      apply Forall_app. split; [done|]. by repeat constructor.
Qed.

Lemma restartAll_trace s :
  let o := exec h restartAll s in
  commandsOf (trace o) = restartAllCommands ∧
  Forall (λ ev, afterConvergence ev = true) (trace o).
Proof.
  unfold restartAll, restartNetworkArguments, logger_Debug, logger_Error, call.
  answers h; (split; [done|by repeat constructor]).
Qed.

End DhcpFacts.

(** ** Commands and failures of [SetupDhcp] *)

Lemma afterConvergence_convergesOf path tr :
  Forall (λ ev, afterConvergence ev = true) tr → convergesOf path tr = [].
Proof. induction 1 as [|ev tr Hev _ IH]; [done|]. by destruct ev. Qed.

Section DhcpClaims.
Context {ext : Externals} {S : Type} (h : Handler S).

Lemma restart_block_trace (written : bool) s :
  let o := exec h (if written then restartAll else Ret tt) s in
  commandsOf (trace o) = (if written then restartAllCommands else []) ∧
  Forall (λ ev, afterConvergence ev = true) (trace o).
Proof.
  destruct written; [apply restartAll_trace|]. simpl. split; [done|constructor].
Qed.

Lemma SetupDhcp_commands networks errCh s :
  let tr := trace (exec h (SetupDhcp networks errCh) s) in
  commandsOf tr = if dhclientChanged tr then restartAllCommands else [].
Proof.
  cbv zeta. rewrite exec_SetupDhcp. cbv zeta.
  destruct (h _ (Log Debug _ _) s) as [[] s0]. cbn [snd].
  destruct (writeDhcpNetworkInterfaces_stops h s0) as (Hstop & Hconv & _).
  destruct (exec h writeDhcpNetworkInterfaces s0) as [tr1 [e|] s1];
    cbn [result final trace] in *.
  - unfold dhclientChanged. traces. rewrite Hconv. simpl.
    by apply stopsAtFailure_quiet in Hstop as [-> _].
  - destruct (h _ (ConvergeFileContents _ _) s1) as [[written [e|]] s2].
    + unfold dhclientChanged. cbn [trace]. traces.
      rewrite Hconv, (benign_commandsOf _ Hstop). simpl.
      by case_bool_decide.
    + destruct (restart_block_trace written s2) as [Hcmds Hafter].
      cbv zeta. cbn [trace]. unfold dhclientChanged. traces.
      rewrite Hconv, (benign_commandsOf _ Hstop), Hcmds.
      rewrite (afterConvergence_convergesOf _ _ Hafter). simpl.
      rewrite app_nil_r. destruct written; by case_bool_decide.
Qed.

Lemma SetupDhcp_stops networks errCh s err :
  let o := exec h (SetupDhcp networks errCh) s in
  result o = Some err →
  stopsAtFailure (trace o) (Some err) ∧ ∃ cause msg, err = WrapError cause msg.
Proof.
  cbv zeta. rewrite exec_SetupDhcp. cbv zeta.
  destruct (h _ (Log Debug _ _) s) as [[] s0]. cbn [snd].
  destruct (writeDhcpNetworkInterfaces_stops h s0) as (Hstop & _ & _).
  destruct (exec h writeDhcpNetworkInterfaces s0) as [tr1 [e|] s1];
    cbn [result final trace] in *.
  - intros [= <-]. split; [|eauto]. by apply stopsAtFailure_cons.
  - destruct (h _ (ConvergeFileContents _ _) s1) as [[written [e|]] s2];
      [|done].
    cbn [result trace]. intros [= <-]. split; [|unfold WrapErrorf_Writing_to; eauto].
    eexists (_ :: tr1), _. split_and!; [done| |done].
    by constructor.
Qed.

Lemma SetupDhcp_dhclient_content networks errCh s content ans :
  (content, ans)
    ∈ convergesOf "/etc/dhcp/dhclient.conf"
        (trace (exec h (SetupDhcp networks errCh) s)) →
  content
  = renderDhclientConf
      (strings_Join (DNS (DefaultNetworkFor networks "dns").1) ", ").
Proof.
  rewrite exec_SetupDhcp. cbv zeta.
  destruct (h _ (Log Debug _ _) s) as [[] s0]. cbn [snd].
  destruct (writeDhcpNetworkInterfaces_stops h s0) as (_ & Hconv & _).
  destruct (exec h writeDhcpNetworkInterfaces s0) as [tr1 [e|] s1];
    cbn [result final trace] in *.
  - traces. rewrite Hconv. by intros ?%elem_of_nil.
  - destruct (h _ (ConvergeFileContents _ _) s1) as [[written [e|]] s2].
    + cbn [trace]. traces. rewrite Hconv. simpl.
      by intros [= -> ->]%list_elem_of_singleton.
    + destruct (restart_block_trace written s2) as [_ Hafter].
      cbv zeta. cbn [trace]. traces.
      rewrite Hconv, (afterConvergence_convergesOf _ _ Hafter).
      simpl. by intros [= -> ->]%list_elem_of_singleton.
Qed.

End DhcpClaims.

(** ** Programs in the world in memory *)

Lemma readOnly_bind {A B : Type} (m : Prog A) (f : A → Prog B) :
  readOnly m → (∀ a, readOnly (f a)) → readOnly (bind m f).
Proof.
  intros Hm Hf. induction Hm as [r|X e k He Hk IH]; simpl; [apply Hf|].
  by constructor.
Qed.

Lemma readOnly_call {X : Type} (e : netE X) :
  writesFile e = false → readOnly (call e).
Proof. intros He. constructor; [done|]. intros x. constructor. Qed.

Section Memory.
Context {ext : Externals} (sys : Sys).

(** In memory a program that does not write leaves the files alone, and
    what it returns does not depend on them. *)
Lemma exec_readOnly {R : Type} (p : Prog R) (files : gmap string string) :
  readOnly p →
  exec (memWorld sys) p files
  = mkOutcome (trace (exec (memWorld sys) p ∅))
              (result (exec (memWorld sys) p ∅)) files.
Proof.
  intros Hp. induction Hp as [r|X e k He Hk IH]; [done|].
  destruct e; try discriminate He; simpl; by rewrite IH.
Qed.

Lemma readOnly_detectNetworkInterfaces : readOnly detectNetworkInterfaces.
Proof.
  unfold detectNetworkInterfaces. apply readOnly_bind.
  { by apply readOnly_call. }
  intros [paths [e|]]; [constructor|]. apply readOnly_bind; [|constructor].
  generalize (@nil string).
  induction paths as [|p ps IH]; intros acc; [constructor|].
  simpl. constructor; [done|]. intros []; simpl; [apply IH|].
  constructor; [done|]. intros _. apply IH.
Qed.

Lemma readOnly_restartAll : readOnly restartAll.
Proof.
  unfold restartAll, restartNetworkArguments, logger_Debug, logger_Error.
  repeat first
    [ apply readOnly_bind | by apply readOnly_call | constructor | intros ?
    | match goal with |- readOnly (match ?x with _ => _ end) => destruct x end ].
Qed.

Lemma memConverge_same path content (files : gmap string string) :
  files !! path = Some content →
  memConverge sys path content files = ((false, None), files).
Proof. intros Hf. unfold memConverge. by rewrite decide_True. Qed.

Lemma memConverge_ok path content (files files' : gmap string string) w :
  memConverge sys path content files = ((w, None), files') →
  files' !! path = Some content ∧
  (∀ q, q ≠ path → files' !! q = files !! q) ∧
  (w = true → files' = <[path := content]> files).
Proof.
  unfold memConverge. case_decide as Hf.
  - intros [= <- <-]. done.
  - destruct (writeFails sys path); [done|]. intros [= <- <-].
    split_and!; [by rewrite lookup_insert_eq| |done].
    intros q Hq. by rewrite lookup_insert_ne.
Qed.

Lemma memConverge_failed path content (files files' : gmap string string) w e :
  memConverge sys path content files = ((w, Some e), files') → files' = files.
Proof.
  unfold memConverge. case_decide; [done|].
  destruct (writeFails sys path); [|done]. by intros [= _ _ <-].
Qed.

End Memory.

(** ** [SetupDhcp] in memory *)

Section MemoryDhcp.
Context {ext : Externals} (sys : Sys).

Lemma exec_writeDhcpNetworkInterfaces_mem (files : gmap string string) :
  let d := exec (memWorld sys) detectNetworkInterfaces ∅ in
  exec (memWorld sys) writeDhcpNetworkInterfaces files
  = match (result d).2 with
    | Some err =>
        mkOutcome (trace d)
          (Some (WrapError err "Detecting network interfaces")) files
    | None =>
        let content := renderDhcpInterfaces (result d).1 in
        let '(ans, files') :=
          memConverge sys "/etc/network/interfaces" content files in
        mkOutcome
          (trace d ++
           [EvConvergeFileContents "/etc/network/interfaces" content ans])
          (match ans.2 with
           | Some err => Some (WrapError err "Writing to /etc/network/interfaces")
           | None => None
           end)
          files'
    end.
Proof.
  cbv zeta. rewrite exec_writeDhcpNetworkInterfaces. cbv zeta.
  rewrite (exec_readOnly sys _ files readOnly_detectNetworkInterfaces).
  done.
Qed.

Lemma SetupDhcp_mem_success networks errCh (files : gmap string string) :
  let o := exec (memWorld sys) (SetupDhcp networks errCh) files in
  let d := result (exec (memWorld sys) detectNetworkInterfaces ∅) in
  result o = None →
  d.2 = None ∧
  final o !! "/etc/network/interfaces" = Some (renderDhcpInterfaces d.1) ∧
  final o !! "/etc/dhcp/dhclient.conf"
  = Some (renderDhclientConf
            (strings_Join (DNS (DefaultNetworkFor networks "dns").1) ", ")).
Proof.
  cbv zeta. rewrite exec_SetupDhcp. cbv zeta. cbn [memWorld snd].
  rewrite exec_writeDhcpNetworkInterfaces_mem. cbv zeta.
  destruct (result (exec (memWorld sys) detectNetworkInterfaces ∅))
    as [ifs [e|]]; cbn [fst snd result final trace]; [done|].
  destruct (memConverge sys "/etc/network/interfaces" _ files)
    as [[w1 [e|]] files1] eqn:Hc1; cbn [fst snd result final trace]; [done|].
  destruct (memConverge sys "/etc/dhcp/dhclient.conf" _ files1)
    as [[w2 [e|]] files2] eqn:Hc2; cbn [fst snd result final trace]; [done|].
  intros _. split; [done|].
  apply memConverge_ok in Hc1 as (Hif & _ & _).
  apply memConverge_ok in Hc2 as (Hdh & Hframe & _).
  rewrite (exec_readOnly sys (if w2 then restartAll else Ret tt) files2).
  2:{ destruct w2; [apply readOnly_restartAll|constructor]. }
  cbn [final]. split; [|done]. by rewrite Hframe.
Qed.

Lemma SetupDhcp_mem_converged networks errCh (files : gmap string string) :
  let d := result (exec (memWorld sys) detectNetworkInterfaces ∅) in
  d.2 = None →
  files !! "/etc/network/interfaces" = Some (renderDhcpInterfaces d.1) →
  files !! "/etc/dhcp/dhclient.conf"
  = Some (renderDhclientConf
            (strings_Join (DNS (DefaultNetworkFor networks "dns").1) ", ")) →
  let o := exec (memWorld sys) (SetupDhcp networks errCh) files in
  result o = None ∧ final o = files ∧
  convergesOf "/etc/dhcp/dhclient.conf" (trace o)
  = [(renderDhclientConf
        (strings_Join (DNS (DefaultNetworkFor networks "dns").1) ", "),
      (false, None))] ∧
  convergesOf "/etc/network/interfaces" (trace o)
  = [(renderDhcpInterfaces d.1, (false, None))] ∧
  commandsOf (trace o) = [].
Proof.
  cbv zeta. intros Hd Hif Hdh.
  pose proof (detectNetworkInterfaces_detection (memWorld sys) ∅) as Hdet.
  rewrite exec_SetupDhcp. cbv zeta. cbn [memWorld snd].
  rewrite exec_writeDhcpNetworkInterfaces_mem. cbv zeta.
  destruct (exec (memWorld sys) detectNetworkInterfaces ∅)
    as [trd [ifs err] fd]. cbn [fst snd result final trace] in *. subst err.
  rewrite (memConverge_same _ _ _ _ Hif).
  cbn [fst snd result final trace].
  rewrite (memConverge_same _ _ _ _ Hdh).
  cbn [fst snd result final trace]. traces.
  rewrite !(detection_convergesOf _ _ Hdet), (detection_commandsOf _ Hdet).
  done.
Qed.

End MemoryDhcp.

(** ** The loop over the networks *)

Section Manual.
Context {ext : Externals}.

Lemma writeNetworkInterfaces_range_ok macAddresses networks modifiedNetworks :
  Forall (λ n : string * Network, calcOk n.2) networks →
  writeNetworkInterfaces_range macAddresses networks modifiedNetworks
  = (modifiedNetworks ++ map (λ n, resolve macAddresses n.2) networks, None).
Proof.
  revert modifiedNetworks.
  induction networks as [|[name aNet] nets IH]; intros acc Hok.
  - simpl. by rewrite app_nil_r.
  - apply Forall_cons in Hok as [Ha Hok]. simpl. unfold resolve at 1.
    unfold calcOk in Ha. simpl in Ha.
    destruct (CalculateNetworkAndBroadcast (IP aNet) (Netmask aNet))
      as [[network broadcast] err].
    simpl in Ha. subst err. rewrite (IH _ Hok). by rewrite <- app_assoc.
Qed.

Lemma writeNetworkInterfaces_range_cases macAddresses networks modifiedNetworks :
  match writeNetworkInterfaces_range macAddresses networks modifiedNetworks with
  | (_, None) => Forall (λ n : string * Network, calcOk n.2) networks
  | (_, Some err) =>
      ∃ n e, n ∈ networks ∧
        (CalculateNetworkAndBroadcast (IP n.2) (Netmask n.2)).2 = Some e ∧
        err = WrapError e "Calculating network and broadcast"
  end.
Proof.
  revert modifiedNetworks.
  induction networks as [|[name aNet] nets IH]; intros acc.
  - simpl. constructor.
  - simpl.
    destruct (CalculateNetworkAndBroadcast (IP aNet) (Netmask aNet))
      as [[network broadcast] [e|]] eqn:Hcalc.
    + exists (name, aNet), e. simpl. rewrite Hcalc. split_and!; [by left|done..].
    + specialize (IH (acc ++ [mkCustomNetwork aNet
                                (default "" (macAddresses !! Mac aNet))
                                network broadcast true])).
      destruct (writeNetworkInterfaces_range _ nets _) as [mods [e|]].
      * destruct IH as (n & e' & Hin & He & ->). exists n, e'.
        split_and!; [by right|done..].
      * constructor; [|done]. unfold calcOk. simpl. by rewrite Hcalc.
Qed.

End Manual.

(** ** [SetupManualNetworking], step by step *)

Section ManualExec.
Context {ext : Externals} {S : Type} (h : Handler S).

(** The step [writeNetworkInterfaces], read off its code. *)
Lemma exec_writeNetworkInterfaces networks s :
  let o1 := exec h detectMacAddresses s in
  exec h (writeNetworkInterfaces networks) s
  = match (result o1).2 with
    | Some err =>
        mkOutcome (trace o1)
          ([], false, Some (WrapError err "Detecting mac addresses"))
          (final o1)
    | None =>
        match writeNetworkInterfaces_range (result o1).1 networks [] with
        | (mods, Some err) =>
            mkOutcome (trace o1) (mods, false, Some err) (final o1)
        | (mods, None) =>
            let content :=
              renderNetworkInterfaces
                (mkNetworkInterfaceConfigArg mods true
                   (DNS (DefaultNetworkFor networks "dns").1)) in
            let '((written, err), s2) :=
              h _ (ConvergeFileContents "/etc/network/interfaces" content)
                (final o1) in
            mkOutcome
              (trace o1 ++
               [EvConvergeFileContents "/etc/network/interfaces" content
                  (written, err)])
              (match err with
               | Some err =>
                   (mods, false,
                    Some (WrapError err "Writing to /etc/network/interfaces"))
               | None => (mods, written, None)
               end)
              s2
        end
    end.
Proof.
  unfold writeNetworkInterfaces. exec_bind.
  destruct (exec h detectMacAddresses s) as [tr1 [inv [e|]] s1]; simpl.
  - by rewrite app_nil_r.
  - destruct (writeNetworkInterfaces_range inv networks []) as [mods [e|]];
      simpl.
    { by rewrite app_nil_r. }
    destruct (DefaultNetworkFor networks "dns") as [dnsNetwork found].
    rewrite Execute_networkInterfacesTemplate. simpl.
    destruct (h _ _ s1) as [[written [e|]] s2]; done.
Qed.

Lemma restartNetworkingInterfaces_trace networks s :
  let o := exec h (restartNetworkingInterfaces networks) s in
  commandsOf (trace o)
  = concat (map (λ c, restartCommands (Interface c)) networks) ∧
  Forall (λ ev, afterConvergence ev = true) (trace o).
Proof.
  revert s. induction networks as [|c cs IH]; intros s; [by split|].
  simpl. unfold logger_Debug, logger_Error, call.
  answers h;
    match goal with
    | |- context [exec h (restartNetworkingInterfaces _) ?s'] =>
        destruct (IH s') as [Hc Ha]
    end;
    traces; rewrite Hc; (split; [done|by repeat constructor]).
Qed.

Lemma exec_SetupManualNetworking networks errCh s :
  let s0 :=
    (h _ (Log Debug ubuntuNetManagerLogTag "Configuring manual networking")
       s).2 in
  let o1 := exec h (writeNetworkInterfaces networks) s0 in
  exec h (SetupManualNetworking networks errCh) s
  = match result o1 with
    | (modifiedNetworks, written, Some err) =>
        mkOutcome
          (EvLog Debug ubuntuNetManagerLogTag "Configuring manual networking"
           :: trace o1)
          (Some (WrapError err "Writing network interfaces")) (final o1)
    | (modifiedNetworks, written, None) =>
        let o2 :=
          exec h (if written
                  then restartNetworkingInterfaces modifiedNetworks
                  else Ret tt) (final o1) in
        let addresses := toInterfaceAddresses modifiedNetworks in
        let s3 := (h _ (GoBroadcast addresses errCh) (final o2)).2 in
        mkOutcome
          (EvLog Debug ubuntuNetManagerLogTag "Configuring manual networking"
           :: trace o1 ++ trace o2 ++ [EvGoBroadcast addresses errCh])
          None s3
    end.
Proof.
  unfold SetupManualNetworking. exec_bind. unfold logger_Debug at 1.
  rewrite exec_call. cbv zeta. cbn [result final trace].
  destruct (h _ (Log Debug _ _) s) as [[] s0]. cbn [fst snd].
  exec_bind.
  destruct (exec h (writeNetworkInterfaces networks) s0)
    as [tr1 [[mods written] [e|]] s1]; cbn [result final trace].
  { simpl. by rewrite app_nil_r. }
  exec_bind. cbv zeta.
  destruct (exec h (if written then restartNetworkingInterfaces mods
                    else Ret tt) s1) as [tr2 [] s2].
  cbn [result final trace]. exec_bind. rewrite exec_call. simpl.
  destruct (h _ (GoBroadcast _ _) s2) as [[] s3]. done.
Qed.

End ManualExec.

(** ** What [writeNetworkInterfaces] resolves and writes *)

Lemma concatStrings_elem {A : Type} (f : A → string) (l : list A) (x : A) :
  x ∈ l → ∃ pre post, concatStrings (map f l) = pre +:+ f x +:+ post.
Proof.
  induction l as [|y l IH]; [by intros ?%elem_of_nil|].
  intros [->|Hx]%elem_of_cons.
  - exists "", (concatStrings (map f l)). done.
  - destruct (IH Hx) as (pre & post & Heq). exists (f y +:+ pre), post.
    simpl. by rewrite Heq, append_assoc.
Qed.

Section ManualFacts.
Context {ext : Externals}.

Lemma resolve_fields macAddresses aNet :
  cnNetwork (resolve macAddresses aNet) = aNet ∧
  Interface (resolve macAddresses aNet)
  = default "" (macAddresses !! Mac aNet) ∧
  HasDefaultGateway (resolve macAddresses aNet) = true.
Proof.
  unfold resolve.
  by destruct (CalculateNetworkAndBroadcast (IP aNet) (Netmask aNet))
    as [[network broadcast] err].
Qed.

Lemma writeNetworkInterfaces_range_mods macAddresses networks acc c :
  c ∈ (writeNetworkInterfaces_range macAddresses networks acc).1 →
  c ∈ acc ∨ ∃ n, n ∈ networks ∧ c = resolve macAddresses n.2.
Proof.
  revert acc. induction networks as [|[name aNet] nets IH]; intros acc; simpl.
  - auto.
  - destruct (CalculateNetworkAndBroadcast (IP aNet) (Netmask aNet))
      as [[network broadcast] [e|]] eqn:Hcalc; simpl; [auto|].
    intros [Hin|(n & Hn & Hc)]%IH.
    + apply elem_of_app in Hin as [Hin|Hin]; [auto|].
      apply list_elem_of_singleton in Hin as ->.
      right. exists (name, aNet). split; [by left|].
      unfold resolve. simpl. by rewrite Hcalc.
    + right. exists n. split; [by right|done].
Qed.

Context {S : Type} (h : Handler S).

(** What [writeNetworkInterfaces] hands to the convergence writer. *)
Lemma writeNetworkInterfaces_content networks s content ans :
  let o := exec h (writeNetworkInterfaces networks) s in
  (content, ans) ∈ convergesOf "/etc/network/interfaces" (trace o) →
  content
  = renderNetworkInterfaces
      (mkNetworkInterfaceConfigArg (result o).1.1 true
         (DNS (DefaultNetworkFor networks "dns").1)) ∧
  convergesOf "/etc/network/interfaces" (trace o) = [(content, ans)].
Proof.
  cbv zeta. rewrite exec_writeNetworkInterfaces. cbv zeta.
  pose proof (detectMacAddresses_detection h s) as Hdet.
  destruct (exec h detectMacAddresses s) as [tr1 [inv [e|]] s1];
    cbn [fst snd result final trace] in *.
  - rewrite (detection_convergesOf _ _ Hdet). by intros ?%elem_of_nil.
  - destruct (writeNetworkInterfaces_range inv networks []) as [mods [e|]];
      cbn [fst snd result final trace].
    { rewrite (detection_convergesOf _ _ Hdet). by intros ?%elem_of_nil. }
    destruct (h _ _ s1) as [[written [e|]] s2];
      cbn [fst snd result final trace]; traces;
      rewrite (detection_convergesOf _ _ Hdet); simpl;
      by intros [= -> ->]%list_elem_of_singleton.
Qed.

Lemma writeNetworkInterfaces_resolved networks s c :
  let o := exec h (writeNetworkInterfaces networks) s in
  c ∈ (result o).1.1 →
  ∃ n, n ∈ networks ∧
       c = resolve (result (exec h detectMacAddresses s)).1 n.2.
Proof.
  cbv zeta. rewrite exec_writeNetworkInterfaces. cbv zeta.
  destruct (exec h detectMacAddresses s) as [tr1 [inv [e|]] s1];
    cbn [fst snd result final trace] in *.
  - by intros ?%elem_of_nil.
  - pose proof (writeNetworkInterfaces_range_mods inv networks [] c) as Hm.
    destruct (writeNetworkInterfaces_range inv networks []) as [mods [e|]];
      cbn [fst snd result final trace] in *.
    + intros [?%elem_of_nil|?]%Hm; done.
    + destruct (h _ _ s1) as [[written [e|]] s2];
        cbn [fst snd result final trace];
        intros [?%elem_of_nil|?]%Hm; done.
Qed.

End ManualFacts.

(** ** The gateway line *)

Lemma stanza_in_render mods dns c :
  c ∈ mods →
  ∃ pre post,
    renderNetworkInterfaces (mkNetworkInterfaceConfigArg mods true dns)
    = pre +:+ stanza c +:+ gatewayLine c +:+ post.
Proof.
  intros Hc. unfold renderNetworkInterfaces. cbn [argNetworks].
  destruct (concatStrings_elem (λ c, stanza c +:+ gatewayLine c) mods c Hc)
    as (pre & post & ->).
  eexists (interfacesHeader +:+ pre), _.
  rewrite !append_assoc. reflexivity.
Qed.

(** C2, on the code.  Every resolved network has [HasDefaultGateway] set,
    so the static interfaces file has a gateway line after the stanza of
    every network, with whatever the network declares as gateway, the empty
    string included. *)
Theorem gateway_line_written_for_every_network {ext : Externals} {S : Type}
    (h : Handler S) (s : S) (networks : Networks) :
  let o := exec h (writeNetworkInterfaces networks) s in
  let modifiedNetworks := (result o).1.1 in
  Forall (λ c, HasDefaultGateway c = true) modifiedNetworks ∧
  ∀ content ans c,
    (content, ans) ∈ convergesOf "/etc/network/interfaces" (trace o) →
    c ∈ modifiedNetworks →
    ∃ pre post,
      content
      = pre +:+ stanza c +:+ "    gateway " +:+ Gateway (cnNetwork c) +:+ post.
Proof.
  intros o mods.
  assert (Forall (λ c, HasDefaultGateway c = true) mods) as Hgw.
  { apply Forall_forall. intros c Hc.
    apply (writeNetworkInterfaces_resolved h) in Hc as (n & _ & ->).
    apply resolve_fields. }
  split; [done|]. intros content ans c Hconv Hc.
  apply (writeNetworkInterfaces_content h) in Hconv as [-> _].
  fold o. fold mods.
  destruct (stanza_in_render mods (DNS (DefaultNetworkFor networks "dns").1)
              c Hc) as (pre & post & Heq).
  exists pre, post. rewrite Heq. unfold gatewayLine.
  rewrite Forall_forall in Hgw. rewrite (Hgw c Hc).
  by rewrite !append_assoc.
Qed.

Lemma gateway_line_written_for_every_network_witness :
  let o := exec (memWorld sampleSys)
             (writeNetworkInterfaces (ext := sampleExternals)
                [("private", plainNetwork)]) ∅ in
  Gateway plainNetwork = "" ∧
  (∃ c, (result o).1.1 = [c] ∧ cnNetwork c = plainNetwork ∧
        HasDefaultGateway c = true) ∧
  ∃ content,
    final o !! "/etc/network/interfaces" = Some content ∧
    "    gateway " ∈ lines content ∧
    hasLine "gateway" content = true ∧
    ∃ pre post c,
      cnNetwork c = plainNetwork ∧
      content = pre +:+ stanza c +:+ "    gateway " +:+ "" +:+ post.
Proof.
  intros o.
  destruct (gateway_line_written_for_every_network (ext := sampleExternals)
              (memWorld sampleSys) ∅ [("private", plainNetwork)])
    as [Hgw Hline].
  split; [reflexivity|]. split.
  - exists (mkCustomNetwork plainNetwork "" "10.0.1.0" "10.0.1.255" true).
    split; [reflexivity|]. split; reflexivity.
  - exists plainInterfacesFile. split; [reflexivity|]. split.
    { apply list_elem_of_In. vm_compute. tauto. }
    split; [reflexivity|].
    destruct (Hline plainInterfacesFile (true, None)
                (mkCustomNetwork plainNetwork "" "10.0.1.0" "10.0.1.255" true))
      as (pre & post & Heq).
    + apply list_elem_of_In. vm_compute. left. reflexivity.
    + apply list_elem_of_In. vm_compute. left. reflexivity.
    + exists pre, post,
        (mkCustomNetwork plainNetwork "" "10.0.1.0" "10.0.1.255" true).
      split; [reflexivity|exact Heq].
Defined.

(** ** Interfaces resolved by MAC *)

(** C9.  When the inventory is [inventory] and every network has a
    well-formed address and mask, [writeNetworkInterfaces] resolves the
    networks in order; the interface of a resolved network is the
    inventory's entry for the MAC of its network, and the empty string when
    the inventory has none; one static interfaces file is rendered and
    handed to the convergence writer, and it holds the stanza of every
    resolved network, matched or not. *)
Theorem interface_resolved_by_mac {ext : Externals} {S : Type}
    (h : Handler S) (s : S) (networks : Networks)
    (inventory : gmap string string) :
  result (exec h detectMacAddresses s) = (inventory, None) →
  Forall (λ n : string * Network, calcOk n.2) networks →
  let o := exec h (writeNetworkInterfaces networks) s in
  let modifiedNetworks := (result o).1.1 in
  map cnNetwork modifiedNetworks = map snd networks ∧
  (∀ c iface, c ∈ modifiedNetworks →
     inventory !! Mac (cnNetwork c) = Some iface → Interface c = iface) ∧
  (∀ c, c ∈ modifiedNetworks →
     inventory !! Mac (cnNetwork c) = None → Interface c = "") ∧
  ∃ content ans,
    convergesOf "/etc/network/interfaces" (trace o) = [(content, ans)] ∧
    ∀ c, c ∈ modifiedNetworks →
         ∃ pre post, content = pre +:+ stanza c +:+ post.
Proof.
  intros Hinv Hok o mods.
  assert (mods = map (λ n, resolve inventory n.2) networks ∧
          ∃ content ans,
            convergesOf "/etc/network/interfaces" (trace o) = [(content, ans)] ∧
            content
            = renderNetworkInterfaces
                (mkNetworkInterfaceConfigArg mods true
                   (DNS (DefaultNetworkFor networks "dns").1)))
    as (Hmods & content & ans & Hconv & Hcontent).
  { subst mods o. rewrite exec_writeNetworkInterfaces. cbv zeta.
    pose proof (detectMacAddresses_detection h s) as Hdet.
    destruct (exec h detectMacAddresses s) as [tr1 r s1].
    cbn [fst snd result final trace] in *. subst r. cbn [fst snd].
    rewrite (writeNetworkInterfaces_range_ok _ _ _ Hok). cbn [app].
    destruct (h _ _ s1) as [[written [e|]] s2];
      cbn [fst snd result final trace]; (split; [done|]);
      eexists _, _; traces; rewrite (detection_convergesOf _ _ Hdet);
      simpl; done. }
  assert (∀ c, c ∈ mods →
               Interface c = default "" (inventory !! Mac (cnNetwork c)))
    as Hiface.
  { intros c. rewrite Hmods. intros (n & -> & _)%list_elem_of_fmap.
    destruct (resolve_fields inventory n.2) as (-> & -> & _). done. }
  split_and!.
  - rewrite Hmods, map_map. apply map_ext. intros n.
    apply resolve_fields.
  - intros c iface Hc Hl. by rewrite (Hiface c Hc), Hl.
  - intros c Hc Hl. by rewrite (Hiface c Hc), Hl.
  - exists content, ans. split; [done|]. intros c Hc.
    destruct (stanza_in_render mods (DNS (DefaultNetworkFor networks "dns").1)
                c Hc) as (pre & post & Heq).
    exists pre, (gatewayLine c +:+ post). by rewrite Hcontent, Heq.
Qed.

Lemma interface_resolved_by_mac_witness :
  let networks := [("public", staticNetwork); ("private", plainNetwork)] in
  let o := exec (memWorld sampleSys)
             (writeNetworkInterfaces (ext := sampleExternals) networks) ∅ in
  map Interface (result o).1.1 = ["eth0"; ""] ∧
  (result o).1.2 = true ∧ (result o).2 = None ∧
  ∃ content pre post,
    final o !! "/etc/network/interfaces" = Some content ∧
    content
    = pre +:+
      stanza (mkCustomNetwork plainNetwork "" "10.0.1.0" "10.0.1.255" true)
      +:+ post.
Proof.
  intros networks o.
  destruct (interface_resolved_by_mac (ext := sampleExternals)
              (memWorld sampleSys) ∅ networks
              {[ "aa:bb:cc:dd:ee:ff" := "eth0";
                 "00:00:00:00:00:00" := "lo" ]})
    as (_ & _ & _ & content & ans & Hconv & Hstanza).
  { reflexivity. }
  { repeat constructor. }
  split; [reflexivity|]. split; [reflexivity|]. split; [reflexivity|].
  destruct (Hstanza
              (mkCustomNetwork plainNetwork "" "10.0.1.0" "10.0.1.255" true))
    as (pre & post & Heq).
  { apply list_elem_of_In. vm_compute. tauto. }
  exists content, pre, post. split; [|exact Heq].
  assert ([(default "" (final o !! "/etc/network/interfaces"), (true, None))]
          = [(content, ans)]) as Hrun by (rewrite <- Hconv; reflexivity).
  injection Hrun as <- _. reflexivity.
Defined.

(** ** The lines of the rendered files *)

Section Resolv.
Context {ext : Externals} {S : Type} (h : Handler S).

Lemma writeResolvConf_content networks s content ans :
  (content, ans)
    ∈ writesOf "/etc/resolv.conf" (trace (exec h (writeResolvConf networks) s)) →
  content = renderResolvConf (DNS (DefaultNetworkFor networks "dns").1).
Proof.
  unfold writeResolvConf, logger_Debug. exec_bind. rewrite exec_call.
  cbv zeta. cbn [result final trace].
  destruct (h _ (Log Debug _ _) s) as [[] s0]. cbn [fst snd].
  destruct (DefaultNetworkFor networks "dns") as [dnsNetwork found].
  rewrite Execute_ubuntuResolvConfTemplate. cbn [fst snd dnsArgDNSServers].
  exec_bind. rewrite exec_call. cbv zeta. cbn [result final trace].
  destruct (h _ (WriteFile _ _) s0) as [[e|] s1]; cbn [fst snd]; traces;
    by intros [= -> ->]%list_elem_of_singleton.
Qed.

End Resolv.

Lemma lines_renderResolvConf ds :
  forallb noNewline ds = true →
  lines (renderResolvConf ds)
  = "# Generated by bosh-agent" :: map (String.append "nameserver ") ds ++ [""].
Proof.
  intros Hds. unfold renderResolvConf.
  by rewrite lines_app_nl, lines_resolv_entries.
Qed.

Lemma noNewline_dnsLine mods ds :
  forallb noNewline ds = true →
  noNewline (dnsLine (mkNetworkInterfaceConfigArg mods true ds)) = true.
Proof.
  intros Hds. unfold dnsLine. cbn [HasDNSNameServers DNSServers].
  rewrite noNewline_app. by rewrite noNewline_concat_sep.
Qed.

Lemma last_line_renderNetworkInterfaces mods ds :
  forallb noNewline ds = true →
  last (lines (renderNetworkInterfaces (mkNetworkInterfaceConfigArg mods true ds)))
  = Some ("dns-nameservers" +:+ concatStrings (map (String.append " ") ds)).
Proof.
  intros Hds. unfold renderNetworkInterfaces.
  rewrite <- append_assoc. rewrite last_lines_app_nl; [done|].
  by apply noNewline_dnsLine.
Qed.

Lemma hasLine_renderNetworkInterfaces mods ds :
  hasLine "dns-nameservers"
    (renderNetworkInterfaces (mkNetworkInterfaceConfigArg mods true ds)) = true.
Proof.
  unfold hasLine, renderNetworkInterfaces.
  rewrite <- append_assoc, lines_app_nl, existsb_app.
  apply orb_true_iff. right.
  unfold dnsLine. cbn [HasDNSNameServers DNSServers].
  destruct (lines_app_head "dns-nameservers"
              (concatStrings (map (String.append " ") ds)) eq_refl)
    as (l & ls & _ & ->).
  cbn [existsb]. apply orb_true_iff. left.
  unfold isLine. apply (prefix_app "dns-nameservers" l).
Qed.

Lemma lines_dhclientPreamble_no_prepend :
  List.filter (isLine "prepend domain-name-servers") (lines dhclientPreamble)
  = [].
Proof. reflexivity. Qed.

Lemma isLine_prependDirective dnsServersList :
  isLine "prepend domain-name-servers" (prependDirective dnsServersList) = true.
Proof.
  unfold isLine.
  apply (prefix_app "prepend domain-name-servers"
           (" " +:+ dnsServersList +:+ ";")).
Qed.

Lemma prepend_lines_renderDhclientConf dnsServersList :
  noNewline dnsServersList = true →
  List.filter (isLine "prepend domain-name-servers")
    (lines (renderDhclientConf dnsServersList))
  = if decide (dnsServersList = "") then []
    else [prependDirective dnsServersList].
Proof.
  intros Hnl. destruct dnsServersList as [|c rest]; [reflexivity|].
  rewrite decide_False by done. unfold renderDhclientConf.
  set (d := prependDirective (String c rest)).
  assert (noNewline d = true) as Hd.
  { unfold d, prependDirective. by rewrite !noNewline_app, Hnl. }
  replace (dhclientPreamble +:+ (nl +:+ d) +:+ nl)
    with (dhclientPreamble +:+ nl +:+ d +:+ nl +:+ "")
    by (by rewrite !append_assoc).
  rewrite !lines_app_nl, (lines_noNewline d Hd), !List.filter_app.
  rewrite lines_dhclientPreamble_no_prepend.
  cbn [List.filter lines app]. unfold d. by rewrite isLine_prependDirective.
Qed.

(** ** DNS servers in the rendered files *)

(** C5.  With [ds] the DNS servers of the DNS network, none of which
    holds a newline: the DHCP client directive file has one
    "prepend domain-name-servers" line, made of [ds] joined by a comma and
    a space (and none when that join is empty); the static interfaces file
    ends with the line "dns-nameservers" followed by every server of [ds]
    after a space; the resolver file has the line "nameserver d" for every
    [d] of [ds].  All three list the servers in the order of [ds], each as
    often as it occurs. *)
Theorem dns_servers_keep_their_order {ext : Externals} (networks : Networks)
    (ds : list string) :
  DNS (DefaultNetworkFor networks "dns").1 = ds →
  forallb noNewline ds = true →
  (∀ (S : Type) (h : Handler S) s errCh content ans,
     (content, ans)
       ∈ convergesOf "/etc/dhcp/dhclient.conf"
           (trace (exec h (SetupDhcp networks errCh) s)) →
     List.filter (isLine "prepend domain-name-servers") (lines content)
     = if decide (strings_Join ds ", " = "") then []
       else ["prepend domain-name-servers " +:+ strings_Join ds ", " +:+ ";"]) ∧
  (∀ (S : Type) (h : Handler S) s content ans,
     (content, ans)
       ∈ convergesOf "/etc/network/interfaces"
           (trace (exec h (writeNetworkInterfaces networks) s)) →
     last (lines content)
     = Some ("dns-nameservers" +:+ concatStrings (map (String.append " ") ds))) ∧
  (∀ (S : Type) (h : Handler S) s content ans,
     (content, ans)
       ∈ writesOf "/etc/resolv.conf"
           (trace (exec h (writeResolvConf networks) s)) →
     lines content
     = "# Generated by bosh-agent"
       :: map (String.append "nameserver ") ds ++ [""]).
Proof.
  intros Hdns Hnl. split_and!.
  - intros S h s errCh content ans Hin.
    apply SetupDhcp_dhclient_content in Hin as ->. rewrite Hdns.
    apply prepend_lines_renderDhclientConf. by apply noNewline_Join.
  - intros S h s content ans Hin.
    apply (writeNetworkInterfaces_content h) in Hin as [-> _]. rewrite Hdns.
    by apply last_line_renderNetworkInterfaces.
  - intros S h s content ans Hin.
    apply writeResolvConf_content in Hin as ->. rewrite Hdns.
    by apply lines_renderResolvConf.
Qed.

Lemma dns_servers_keep_their_order_witness :
  let networks := [("public", staticNetwork)] in
  let dhcp := exec (memWorld sampleSys)
                (SetupDhcp (ext := sampleExternals) networks None) ∅ in
  let static := exec (memWorld sampleSys)
                  (writeNetworkInterfaces (ext := sampleExternals) networks) ∅ in
  let resolv := exec (memWorld sampleSys)
                  (writeResolvConf (ext := sampleExternals) networks) ∅ in
  (∃ content,
     final dhcp !! "/etc/dhcp/dhclient.conf" = Some content ∧
     List.filter (isLine "prepend domain-name-servers") (lines content)
     = ["prepend domain-name-servers 8.8.8.8, 9.9.9.9;"]) ∧
  (∃ content,
     final static !! "/etc/network/interfaces" = Some content ∧
     last (lines content) = Some "dns-nameservers 8.8.8.8 9.9.9.9") ∧
  (∃ content,
     final resolv !! "/etc/resolv.conf" = Some content ∧
     lines content
     = ["# Generated by bosh-agent"; "nameserver 8.8.8.8";
        "nameserver 9.9.9.9"; ""]).
Proof.
  intros networks dhcp static resolv.
  destruct (dns_servers_keep_their_order (ext := sampleExternals) networks
              ["8.8.8.8"; "9.9.9.9"] eq_refl eq_refl)
    as (Hdhcp & Hstatic & Hresolv).
  split_and!.
  - exists (default "" (final dhcp !! "/etc/dhcp/dhclient.conf")).
    split; [reflexivity|].
    rewrite (Hdhcp _ (memWorld sampleSys) ∅ None _ (true, None));
      [reflexivity|].
    apply list_elem_of_In. vm_compute. tauto.
  - exists (default "" (final static !! "/etc/network/interfaces")).
    split; [reflexivity|].
    rewrite (Hstatic _ (memWorld sampleSys) ∅ _ (true, None));
      [reflexivity|].
    apply list_elem_of_In. vm_compute. tauto.
  - exists (default "" (final resolv !! "/etc/resolv.conf")).
    split; [reflexivity|].
    rewrite (Hresolv _ (memWorld sampleSys) ∅ _ None); [reflexivity|].
    apply list_elem_of_In. vm_compute. tauto.
Defined.

(** C1, on the code.  With no DNS server in the DNS network, the DHCP
    client directive file has no "prepend domain-name-servers" line and the
    resolver file has no "nameserver" line, but the static interfaces file
    does have a "dns-nameservers" line: its last line is that word alone. *)
Theorem empty_dns_in_rendered_files {ext : Externals} (networks : Networks) :
  DNS (DefaultNetworkFor networks "dns").1 = [] →
  (∀ (S : Type) (h : Handler S) s errCh content ans,
     (content, ans)
       ∈ convergesOf "/etc/dhcp/dhclient.conf"
           (trace (exec h (SetupDhcp networks errCh) s)) →
     hasLine "prepend domain-name-servers" content = false) ∧
  (∀ (S : Type) (h : Handler S) s content ans,
     (content, ans)
       ∈ writesOf "/etc/resolv.conf"
           (trace (exec h (writeResolvConf networks) s)) →
     hasLine "nameserver" content = false) ∧
  (∀ (S : Type) (h : Handler S) s content ans,
     (content, ans)
       ∈ convergesOf "/etc/network/interfaces"
           (trace (exec h (writeNetworkInterfaces networks) s)) →
     hasLine "dns-nameservers" content = true ∧
     last (lines content) = Some "dns-nameservers").
Proof.
  intros Hdns. split_and!.
  - intros S h s errCh content ans Hin.
    apply SetupDhcp_dhclient_content in Hin as ->. by rewrite Hdns.
  - intros S h s content ans Hin.
    apply writeResolvConf_content in Hin as ->. by rewrite Hdns.
  - intros S h s content ans Hin.
    apply (writeNetworkInterfaces_content h) in Hin as [-> _]. rewrite Hdns.
    split; [apply hasLine_renderNetworkInterfaces|].
    by rewrite last_line_renderNetworkInterfaces.
Qed.

Lemma empty_dns_in_rendered_files_witness :
  let networks := [("private", plainNetwork)] in
  let static := exec (memWorld sampleSys)
                  (SetupManualNetworking (ext := sampleExternals)
                     networks None) ∅ in
  let dhcp := exec (memWorld sampleSys)
                (SetupDhcp (ext := sampleExternals) networks None) ∅ in
  let resolv := exec (memWorld sampleSys)
                  (writeResolvConf (ext := sampleExternals) networks) ∅ in
  DNS plainNetwork = [] ∧
  (result static = None ∧
   final static !! "/etc/network/interfaces" = Some plainInterfacesFile ∧
   hasLine "dns-nameservers" plainInterfacesFile = true ∧
   last (lines plainInterfacesFile) = Some "dns-nameservers") ∧
  (final dhcp !! "/etc/dhcp/dhclient.conf" = Some (renderDhclientConf "") ∧
   hasLine "prepend domain-name-servers" (renderDhclientConf "") = false) ∧
  (final resolv !! "/etc/resolv.conf" = Some (renderResolvConf []) ∧
   hasLine "nameserver" (renderResolvConf []) = false).
Proof.
  intros networks static dhcp resolv.
  destruct (empty_dns_in_rendered_files (ext := sampleExternals) networks
              eq_refl) as (Hdhcp & Hresolv & Hstatic).
  split; [reflexivity|]. split; [|split].
  - split; [reflexivity|]. split; [reflexivity|].
    apply (Hstatic _ (memWorld sampleSys) ∅ plainInterfacesFile (true, None)).
    apply list_elem_of_In. vm_compute. tauto.
  - split; [reflexivity|].
    apply (Hdhcp _ (memWorld sampleSys) ∅ None (renderDhclientConf "")
             (true, None)).
    apply list_elem_of_In. vm_compute. tauto.
  - split; [reflexivity|].
    apply (Hresolv _ (memWorld sampleSys) ∅ (renderResolvConf []) None).
    apply list_elem_of_In. vm_compute. tauto.
Defined.

(** ** When [SetupDhcp] restarts networking *)

Section MemoryDhcpChange.
Context {ext : Externals} (sys : Sys).

Lemma SetupDhcp_mem_changed networks errCh (files : gmap string string) :
  let o := exec (memWorld sys) (SetupDhcp networks errCh) files in
  let content :=
    renderDhclientConf
      (strings_Join (DNS (DefaultNetworkFor networks "dns").1) ", ") in
  result o = None →
  dhclientChanged (trace o)
  = negb (bool_decide (files !! "/etc/dhcp/dhclient.conf" = Some content)).
Proof.
  cbv zeta.
  pose proof (detectNetworkInterfaces_detection (memWorld sys) ∅) as Hdet.
  rewrite exec_SetupDhcp. cbv zeta. cbn [memWorld snd].
  rewrite exec_writeDhcpNetworkInterfaces_mem. cbv zeta.
  destruct (exec (memWorld sys) detectNetworkInterfaces ∅)
    as [trd [ifs [e|]] fd]; cbn [fst snd result final trace] in *; [done|].
  destruct (memConverge sys "/etc/network/interfaces" _ files)
    as [[w1 [e|]] files1] eqn:Hc1; cbn [fst snd result final trace]; [done|].
  apply memConverge_ok in Hc1 as (_ & Hframe & _).
  assert (files1 !! "/etc/dhcp/dhclient.conf"
          = files !! "/etc/dhcp/dhclient.conf") as Hfr by by apply Hframe.
  unfold memConverge. rewrite Hfr.
  case_decide as Hdh; cbn [fst snd result final trace].
  - intros _. rewrite bool_decide_eq_true_2 by done.
    unfold dhclientChanged. traces.
    rewrite (detection_convergesOf _ _ Hdet). simpl. done.
  - destruct (writeFails sys "/etc/dhcp/dhclient.conf");
      cbn [fst snd result final trace]; [done|].
    intros _. rewrite bool_decide_eq_false_2 by done.
    unfold dhclientChanged. traces.
    rewrite (detection_convergesOf _ _ Hdet). simpl. done.
Qed.

End MemoryDhcpChange.

(** C3.  The commands [SetupDhcp] runs are the three of its restart
    block when a convergence of /etc/dhcp/dhclient.conf reported a change,
    and none otherwise.  In memory a second call after a successful first
    one reports no change and runs no command; and whether a successful
    call reports a change depends on the stored directive file only, not on
    the stored interfaces file. *)
Theorem dhcp_restart_follows_dhclient_change {ext : Externals}
    (networks : Networks) :
  (∀ (S : Type) (h : Handler S) s errCh,
     let tr := trace (exec h (SetupDhcp networks errCh) s) in
     commandsOf tr = if dhclientChanged tr then restartAllCommands else []) ∧
  (∀ sys (files : gmap string string) errCh errCh',
     let first := exec (memWorld sys) (SetupDhcp networks errCh) files in
     let second :=
       exec (memWorld sys) (SetupDhcp networks errCh') (final first) in
     result first = None →
     result second = None ∧ dhclientChanged (trace second) = false ∧
     commandsOf (trace second) = [] ∧ final second = final first) ∧
  (∀ sys (files : gmap string string) errCh,
     let o := exec (memWorld sys) (SetupDhcp networks errCh) files in
     result o = None →
     dhclientChanged (trace o)
     = negb (bool_decide
               (files !! "/etc/dhcp/dhclient.conf"
                = Some (renderDhclientConf
                          (strings_Join
                             (DNS (DefaultNetworkFor networks "dns").1) ", "))))).
Proof.
  split_and!.
  - intros S h s errCh. apply SetupDhcp_commands.
  - intros sys files errCh errCh' first second Hfirst.
    destruct (SetupDhcp_mem_success sys networks errCh files Hfirst)
      as (Hd & Hif & Hdh).
    destruct (SetupDhcp_mem_converged sys networks errCh' (final first)
                Hd Hif Hdh) as (Hres & Hfinal & Hconv & _ & Hcmds).
    split_and!; [done| |done..].
    unfold dhclientChanged, second. rewrite Hconv. done.
  - intros sys files errCh. apply SetupDhcp_mem_changed.
Qed.

Lemma dhcp_restart_follows_dhclient_change_witness :
  let networks := [("public", staticNetwork)] in
  let first := exec (memWorld sampleSys)
                 (SetupDhcp (ext := sampleExternals) networks None) ∅ in
  let second := exec (memWorld sampleSys)
                  (SetupDhcp (ext := sampleExternals) networks None)
                  (final first) in
  (dhclientChanged (trace first) = true ∧
   commandsOf (trace first) = restartAllCommands) ∧
  (result second = None ∧ dhclientChanged (trace second) = false ∧
   commandsOf (trace second) = []).
Proof.
  intros networks first second.
  destruct (dhcp_restart_follows_dhclient_change (ext := sampleExternals)
              networks) as (Hcmds & Htwice & Hstored).
  assert (dhclientChanged (trace first) = true) as Hchanged.
  { unfold first. rewrite (Hstored sampleSys ∅ None); reflexivity. }
  split.
  - split; [exact Hchanged|].
    unfold first in *. rewrite (Hcmds _ (memWorld sampleSys) ∅ None).
    by rewrite Hchanged.
  - destruct (Htwice sampleSys ∅ None None) as (Hres & Hsame & Hnone & _);
      [reflexivity|].
    split; [exact Hres|]. split; [exact Hsame|exact Hnone].
Defined.

(** ** Failures: fatal and ignored *)

Section ManualStops.
Context {ext : Externals} {S : Type} (h : Handler S).

Lemma writeNetworkInterfaces_stops networks s :
  let o := exec h (writeNetworkInterfaces networks) s in
  match (result o).2 with
  | None => Forall (λ ev, benign ev = true) (trace o)
  | Some err =>
      (∃ cause msg, err = WrapError cause msg) ∧
      (stopsAtFailure (trace o) (Some err) ∨
       Forall (λ ev, benign ev = true) (trace o) ∧
       Exists (λ n : string * Network, ¬ calcOk n.2) networks)
  end.
Proof.
  cbv zeta. rewrite exec_writeNetworkInterfaces. cbv zeta.
  pose proof (detectMacAddresses_stops h s) as Hstop.
  destruct (exec h detectMacAddresses s) as [tr1 [inv [e|]] s1];
    cbn [fst snd result final trace] in *.
  - split; [eauto|]. by left.
  - pose proof (writeNetworkInterfaces_range_cases inv networks []) as Hcases.
    destruct (writeNetworkInterfaces_range inv networks []) as [mods [e|]];
      cbn [fst snd result final trace].
    + destruct Hcases as (n & e' & Hin & He & ->). split; [eauto|]. right.
      split; [done|]. apply Exists_exists. exists n. split; [done|].
      unfold calcOk. by rewrite He.
    + destruct (h _ _ s1) as [[written [e|]] s2];
        cbn [fst snd result final trace].
      * split; [eauto|]. left. eexists tr1, _. by split_and!.
      * apply Forall_app. split; [done|]. by repeat constructor.
Qed.

Lemma SetupManualNetworking_stops networks errCh s err :
  let o := exec h (SetupManualNetworking networks errCh) s in
  result o = Some err →
  (∃ cause msg, err = WrapError cause msg) ∧
  (stopsAtFailure (trace o) (Some err) ∨
   Forall (λ ev, benign ev = true) (trace o) ∧
   Exists (λ n : string * Network, ¬ calcOk n.2) networks).
Proof.
  cbv zeta. rewrite exec_SetupManualNetworking. cbv zeta.
  destruct (h _ (Log Debug _ _) s) as [[] s0]. cbn [snd].
  pose proof (writeNetworkInterfaces_stops networks s0) as Hstop.
  cbv zeta in Hstop.
  destruct (exec h (writeNetworkInterfaces networks) s0)
    as [tr1 [[mods written] [e|]] s1]; cbn [fst snd result final trace] in *;
    [|done].
  intros [= <-]. split; [eauto|].
  destruct Hstop as [_ [Hstop|[Hben Hcalc]]].
  - left. by apply stopsAtFailure_cons.
  - right. split; [|done]. by constructor.
Qed.

End ManualStops.

(** C7.  If no file-system call of [SetupDhcp] fails, it returns no
    error, whatever the commands return.  The same holds for
    [SetupManualNetworking] when in addition every network has a
    well-formed address and mask. *)
Theorem restart_failures_are_ignored {ext : Externals} (networks : Networks)
    {S : Type} (h : Handler S) (s : S) (errCh : option Chan) :
  (let o := exec h (SetupDhcp networks errCh) s in
   Forall (λ ev, fsFailed ev = false) (trace o) → result o = None) ∧
  (let o := exec h (SetupManualNetworking networks errCh) s in
   Forall (λ ev, fsFailed ev = false) (trace o) →
   Forall (λ n : string * Network, calcOk n.2) networks →
   result o = None).
Proof.
  split.
  - intros o Hfs. destruct (result o) as [err|] eqn:Hres; [|done].
    apply SetupDhcp_stops in Hres as [Hstop _].
    apply stopsAtFailure_failed, Exists_exists in Hstop as (ev & Hin & Hev).
    rewrite Forall_forall in Hfs. by rewrite (Hfs ev Hin) in Hev.
  - intros o Hfs Hcalc. destruct (result o) as [err|] eqn:Hres; [|done].
    apply SetupManualNetworking_stops in Hres
      as [_ [Hstop|[_ Hbad]]].
    + apply stopsAtFailure_failed, Exists_exists in Hstop as (ev & Hin & Hev).
      rewrite Forall_forall in Hfs. by rewrite (Hfs ev Hin) in Hev.
    + apply Exists_exists in Hbad as (n & Hin & Hn).
      rewrite Forall_forall in Hcalc. by destruct (Hn (Hcalc n Hin)).
Qed.

Lemma restart_failures_are_ignored_witness :
  let networks := [("public", staticNetwork)] in
  let dhcp := exec (memWorld failingCommandsSys)
                (SetupDhcp (ext := sampleExternals) networks None) ∅ in
  let static := exec (memWorld failingCommandsSys)
                  (SetupManualNetworking (ext := sampleExternals)
                     networks None) ∅ in
  (commandsOf (trace dhcp) = restartAllCommands ∧
   allCommandsFailed (trace dhcp) = true ∧ result dhcp = None) ∧
  (commandsOf (trace static) = restartCommands "eth0" ∧
   allCommandsFailed (trace static) = true ∧ result static = None).
Proof.
  intros networks dhcp static.
  destruct (restart_failures_are_ignored (ext := sampleExternals) networks
              (memWorld failingCommandsSys) ∅ None) as [Hdhcp Hstatic].
  split.
  - split; [reflexivity|]. split; [reflexivity|].
    apply Hdhcp. vm_compute. repeat constructor.
  - split; [reflexivity|]. split; [reflexivity|].
    apply Hstatic.
    + vm_compute. repeat constructor.
    + repeat constructor.
Defined.

Lemma SetupManualNetworking_wrote_nothing {ext : Externals} {S : Type}
    (h : Handler S) networks errCh s err path content ans :
  let o := exec h (SetupManualNetworking networks errCh) s in
  result o = Some err →
  (content, ans) ∈ convergesOf path (trace o) →
  is_Some ans.2.
Proof.
  cbv zeta. rewrite exec_SetupManualNetworking. cbv zeta.
  destruct (h _ (Log Debug _ _) s) as [[] s0]. cbn [snd].
  pose proof (detectMacAddresses_detection h s0) as Hdet.
  rewrite exec_writeNetworkInterfaces. cbv zeta.
  destruct (exec h detectMacAddresses s0)
    as [trd [inv [e|]] fd]; cbn [fst snd result final trace] in *.
  { intros _. traces. rewrite (detection_convergesOf _ _ Hdet).
    by intros ?%elem_of_nil. }
  destruct (writeNetworkInterfaces_range inv networks []) as [mods [e|]];
    cbn [fst snd result final trace].
  { intros _. traces. rewrite (detection_convergesOf _ _ Hdet).
    by intros ?%elem_of_nil. }
  destruct (h _ _ fd) as [[w [e|]] s1];
    cbn [fst snd result final trace]; [|done].
  intros _. traces. rewrite (detection_convergesOf _ _ Hdet).
  case_decide; simpl; [|by intros ?%elem_of_nil].
  intros [= _ ->]%list_elem_of_singleton. simpl. eauto.
Qed.

Section MemoryRollback.
Context {ext : Externals} (sys : Sys).

Lemma SetupDhcp_mem_keeps_files networks errCh (files : gmap string string)
    err path content :
  let o := exec (memWorld sys) (SetupDhcp networks errCh) files in
  result o = Some err →
  (content, (true, None)) ∈ convergesOf path (trace o) →
  final o !! path = Some content.
Proof.
  cbv zeta.
  pose proof (detectNetworkInterfaces_detection (memWorld sys) ∅) as Hdet.
  rewrite exec_SetupDhcp. cbv zeta. cbn [memWorld snd].
  rewrite exec_writeDhcpNetworkInterfaces_mem. cbv zeta.
  destruct (exec (memWorld sys) detectNetworkInterfaces ∅)
    as [trd [ifs [e|]] fd]; cbn [fst snd result final trace] in *.
  { intros _. traces. rewrite (detection_convergesOf _ _ Hdet).
    by intros ?%elem_of_nil. }
  destruct (memConverge sys "/etc/network/interfaces" _ files)
    as [[w1 [e|]] files1] eqn:Hc1; cbn [fst snd result final trace].
  { intros _. traces. rewrite (detection_convergesOf _ _ Hdet).
    case_decide; simpl; [|by intros ?%elem_of_nil].
    by intros [= _ _]%list_elem_of_singleton. }
  destruct (memConverge sys "/etc/dhcp/dhclient.conf" _ files1)
    as [[w2 [e|]] files2] eqn:Hc2; cbn [fst snd result final trace]; [|done].
  intros _. traces. rewrite (detection_convergesOf _ _ Hdet).
  apply memConverge_failed in Hc2 as ->.
  apply memConverge_ok in Hc1 as (Hif & _ & _).
  repeat case_decide; simpl; subst;
    rewrite ?elem_of_cons, ?elem_of_nil; intros Hin;
    destruct_or?; simplify_eq; done.
Qed.

End MemoryRollback.

Section FailureIsFatal.
Context {ext : Externals} {S : Type} (h : Handler S).

Lemma benign_not_failed ev : benign ev = true → fsFailed ev = false.
Proof. destruct ev; simpl; try done; by intros ?%negb_true_iff. Qed.

Lemma afterConvergence_not_failed ev :
  afterConvergence ev = true → fsFailed ev = false.
Proof. by destruct ev. Qed.

Lemma Forall_not_failed (P : Event → bool) tr :
  (∀ ev, P ev = true → fsFailed ev = false) →
  Forall (λ ev, P ev = true) tr → Forall (λ ev, fsFailed ev = false) tr.
Proof. intros HP Htr. eapply Forall_impl; [exact Htr|]. exact HP. Qed.

(** A call of [SetupDhcp] that returns nil saw no file-system call fail. *)
Lemma SetupDhcp_success_clean networks errCh s :
  let o := exec h (SetupDhcp networks errCh) s in
  result o = None → Forall (λ ev, fsFailed ev = false) (trace o).
Proof.
  cbv zeta. rewrite exec_SetupDhcp. cbv zeta.
  destruct (h _ (Log Debug _ _) s) as [[] s0]. cbn [snd].
  destruct (writeDhcpNetworkInterfaces_stops h s0) as (Hstop & _ & _).
  destruct (exec h writeDhcpNetworkInterfaces s0) as [tr1 [e|] s1];
    cbn [result final trace] in *; [done|].
  destruct (h _ (ConvergeFileContents _ _) s1) as [[written [e|]] s2];
    [done|].
  destruct (restart_block_trace h written s2) as [_ Hafter].
  cbv zeta. cbn [result trace]. intros _.
  constructor; [done|]. apply Forall_app. split.
  { by apply (Forall_not_failed benign), Hstop; [apply benign_not_failed]. }
  constructor; [done|]. apply Forall_app. split; [|by repeat constructor].
  by apply (Forall_not_failed afterConvergence);
    [apply afterConvergence_not_failed|].
Qed.

(** A call of [SetupManualNetworking] that returns nil saw no file-system
    call fail, and every network was accepted. *)
Lemma SetupManualNetworking_success_clean networks errCh s :
  let o := exec h (SetupManualNetworking networks errCh) s in
  result o = None →
  Forall (λ ev, fsFailed ev = false) (trace o) ∧
  Forall (λ n : string * Network, calcOk n.2) networks.
Proof.
  cbv zeta. rewrite exec_SetupManualNetworking. cbv zeta.
  destruct (h _ (Log Debug _ _) s) as [[] s0]. cbn [snd].
  rewrite exec_writeNetworkInterfaces. cbv zeta.
  pose proof (detectMacAddresses_stops h s0) as Hstop.
  destruct (exec h detectMacAddresses s0) as [tr1 [inv [e1|]] s1];
    cbn [fst snd result final trace] in *; [done|].
  pose proof (writeNetworkInterfaces_range_cases inv networks []) as Hcases.
  destruct (writeNetworkInterfaces_range inv networks []) as [mods [e1|]];
    cbn [fst snd result final trace]; [done|].
  destruct (h _ (ConvergeFileContents _ _) s1) as [[written [e|]] s2];
    cbn [result trace final]; [done|].
  intros _. split; [|done].
  assert (Forall (λ ev, afterConvergence ev = true)
            (trace (exec h (if written
                            then restartNetworkingInterfaces mods
                            else Ret tt) s2))) as Hafter.
  { destruct written; [|constructor].
    by destruct (restartNetworkingInterfaces_trace h mods s2) as [_ ?]. }
  constructor; [done|]. apply Forall_app. split.
  { apply Forall_app. split; [|by repeat constructor].
    by apply (Forall_not_failed benign), Hstop; [apply benign_not_failed]. }
  apply Forall_app. split; [|by repeat constructor].
  by apply (Forall_not_failed afterConvergence);
    [apply afterConvergence_not_failed|].
Qed.

(** [SetupDhcp] returns an error exactly when a file-system call failed. *)
Lemma SetupDhcp_fails_iff networks errCh s :
  let o := exec h (SetupDhcp networks errCh) s in
  is_Some (result o) ↔ Exists (λ ev, fsFailed ev = true) (trace o).
Proof.
  cbv zeta. split.
  - intros [err Hres].
    destruct (SetupDhcp_stops h networks errCh s err Hres) as [Hstop _].
    by apply stopsAtFailure_failed in Hstop.
  - intros (ev & Hin & Hev)%Exists_exists.
    destruct (result (exec h (SetupDhcp networks errCh) s)) as [err|] eqn:Hres;
      [by eexists|].
    pose proof (SetupDhcp_success_clean networks errCh s Hres) as Hclean.
    rewrite Forall_forall in Hclean. by rewrite (Hclean ev Hin) in Hev.
Qed.

(** [SetupManualNetworking] returns an error exactly when a file-system
    call failed or a network is rejected. *)
Lemma SetupManualNetworking_fails_iff networks errCh s :
  let o := exec h (SetupManualNetworking networks errCh) s in
  is_Some (result o) ↔
  Exists (λ ev, fsFailed ev = true) (trace o) ∨
  Exists (λ n : string * Network, ¬ calcOk n.2) networks.
Proof.
  cbv zeta. split.
  - intros [err Hres].
    destruct (SetupManualNetworking_stops h networks errCh s err Hres)
      as [_ [Hstop|[_ Hbad]]]; [left|by right].
    by apply stopsAtFailure_failed in Hstop.
  - intros Hfail.
    destruct (result (exec h (SetupManualNetworking networks errCh) s))
      as [err|] eqn:Hres; [by eexists|].
    destruct (SetupManualNetworking_success_clean networks errCh s Hres)
      as [Hclean Hok].
    destruct Hfail as [(ev & Hin & Hev)%Exists_exists
                      |(n & Hin & Hn)%Exists_exists].
    + rewrite Forall_forall in Hclean. by rewrite (Hclean ev Hin) in Hev.
    + rewrite Forall_forall in Hok. by destruct (Hn (Hok n Hin)).
Qed.

End FailureIsFatal.

(** C8.  [SetupDhcp] returns an error exactly when a call to the file
    system failed: a failed enumeration or a failed convergence of either
    file is fatal (rendering never fails on the data the manager passes).
    When it returns an error, the error is a wrapped one, no command was
    run, the broadcast was not launched, and the trace ends with the
    file-system call that failed, every call before it having succeeded:
    the call returns at its first failure.  The same holds for
    [SetupManualNetworking], which returns an error exactly when a call to
    the file system failed (enumeration, read of a hardware address,
    convergence) or the address or mask of some network is malformed, the
    trace showing no failure at all in the second case.  A file that
    [SetupDhcp] wrote before it failed is still there, in memory, when it
    returns; [SetupManualNetworking] has written no file when it fails. *)
Theorem fatal_error_aborts_the_call {ext : Externals} (networks : Networks) :
  (∀ (S : Type) (h : Handler S) s errCh,
     let o := exec h (SetupDhcp networks errCh) s in
     is_Some (result o) ↔ Exists (λ ev, fsFailed ev = true) (trace o)) ∧
  (∀ (S : Type) (h : Handler S) s errCh err,
     let o := exec h (SetupDhcp networks errCh) s in
     result o = Some err →
     (∃ cause msg, err = WrapError cause msg) ∧
     commandsOf (trace o) = [] ∧ broadcastsOf (trace o) = [] ∧
     stopsAtFailure (trace o) (Some err)) ∧
  (∀ (S : Type) (h : Handler S) s errCh,
     let o := exec h (SetupManualNetworking networks errCh) s in
     is_Some (result o) ↔
     Exists (λ ev, fsFailed ev = true) (trace o) ∨
     Exists (λ n : string * Network, ¬ calcOk n.2) networks) ∧
  (∀ (S : Type) (h : Handler S) s errCh err,
     let o := exec h (SetupManualNetworking networks errCh) s in
     result o = Some err →
     (∃ cause msg, err = WrapError cause msg) ∧
     commandsOf (trace o) = [] ∧ broadcastsOf (trace o) = [] ∧
     (stopsAtFailure (trace o) (Some err) ∨
      Forall (λ ev, benign ev = true) (trace o) ∧
      Exists (λ n : string * Network, ¬ calcOk n.2) networks)) ∧
  (∀ sys (files : gmap string string) errCh err path content,
     let o := exec (memWorld sys) (SetupDhcp networks errCh) files in
     result o = Some err →
     (content, (true, None)) ∈ convergesOf path (trace o) →
     final o !! path = Some content) ∧
  (∀ (S : Type) (h : Handler S) s errCh err path content ans,
     let o := exec h (SetupManualNetworking networks errCh) s in
     result o = Some err →
     (content, ans) ∈ convergesOf path (trace o) →
     is_Some ans.2).
Proof.
  split_and!.
  - intros S h s errCh. apply SetupDhcp_fails_iff.
  - intros S h s errCh err o Hres.
    destruct (SetupDhcp_stops h networks errCh s err Hres) as [Hstop Hwrap].
    destruct (stopsAtFailure_quiet _ _ Hstop) as [Hc Hb]. done.
  - intros S h s errCh. apply SetupManualNetworking_fails_iff.
  - intros S h s errCh err o Hres.
    destruct (SetupManualNetworking_stops h networks errCh s err Hres)
      as [Hwrap Hshape].
    split; [done|].
    destruct Hshape as [Hstop|[Hben Hbad]].
    + destruct (stopsAtFailure_quiet _ _ Hstop) as [Hc Hb]. auto.
    + pose proof (benign_commandsOf _ Hben). pose proof (benign_broadcastsOf _ Hben).
      auto.
  - intros sys files errCh err path content.
    apply SetupDhcp_mem_keeps_files.
  - intros S h s errCh err path content ans.
    apply SetupManualNetworking_wrote_nothing.
Qed.

Lemma fatal_error_aborts_the_call_witness :
  let dhcp := exec (memWorld readOnlyDhclientSys)
                (SetupDhcp (ext := sampleExternals)
                   [("public", staticNetwork)] None) ∅ in
  let broken := exec (memWorld sampleSys)
                  (SetupManualNetworking (ext := sampleExternals)
                     [("broken", malformedNetwork)] None) ∅ in
  let refused := exec (memWorld readOnlySys)
                   (SetupManualNetworking (ext := sampleExternals)
                      [("public", staticNetwork)] None) ∅ in
  (Exists (λ ev, fsFailed ev = true) (trace dhcp) ∧
   is_Some (result dhcp) ∧
   result dhcp
   = Some (WrapError (NewError "read-only file system")
             "Writing to /etc/dhcp/dhclient.conf") ∧
   commandsOf (trace dhcp) = [] ∧ broadcastsOf (trace dhcp) = [] ∧
   final dhcp !! "/etc/network/interfaces"
   = Some (renderDhcpInterfaces ["eth0"])) ∧
  (Exists (λ n : string * Network, ¬ calcOk (ext := sampleExternals) n.2)
     [("broken", malformedNetwork)] ∧
   is_Some (result broken) ∧
   result broken
   = Some (WrapError
             (WrapError (NewError "Invalid ip or netmask")
                "Calculating network and broadcast")
             "Writing network interfaces") ∧
   commandsOf (trace broken) = [] ∧ broadcastsOf (trace broken) = []) ∧
  (result refused
   = Some (WrapError
             (WrapError (NewError "read-only file system")
                "Writing to /etc/network/interfaces")
             "Writing network interfaces") ∧
   final refused = ∅ ∧
   ∃ content,
     convergesOf "/etc/network/interfaces" (trace refused)
     = [(content, (false, Some (NewError "read-only file system")))] ∧
     is_Some (false, Some (NewError "read-only file system")).2).
Proof.
  intros dhcp broken refused.
  destruct (fatal_error_aborts_the_call (ext := sampleExternals)
              [("public", staticNetwork)])
    as (Hfatal & Hdhcp & _ & _ & Hkept & Hnone).
  destruct (fatal_error_aborts_the_call (ext := sampleExternals)
              [("broken", malformedNetwork)])
    as (_ & _ & Hrejected & Hbroken & _ & _).
  split; [|split].
  - assert (result dhcp
            = Some (WrapError (NewError "read-only file system")
                      "Writing to /etc/dhcp/dhclient.conf")) as Hres
      by reflexivity.
    unfold dhcp in Hres.
    destruct (Hdhcp _ (memWorld readOnlyDhclientSys) ∅ None
                (WrapError (NewError "read-only file system")
                   "Writing to /etc/dhcp/dhclient.conf") Hres)
      as (_ & Hcmds & Hgo & _).
    assert (Exists (λ ev, fsFailed ev = true) (trace dhcp)) as Hfailed.
    { apply Exists_exists.
      exists (EvConvergeFileContents "/etc/dhcp/dhclient.conf"
                (renderDhclientConf "8.8.8.8, 9.9.9.9")
                (false, Some (NewError "read-only file system"))).
      split; [|reflexivity]. apply list_elem_of_In. vm_compute. tauto. }
    split; [exact Hfailed|].
    split; [exact (proj2 (Hfatal _ (memWorld readOnlyDhclientSys) ∅ None)
                     Hfailed)|].
    split; [exact Hres|]. split; [exact Hcmds|]. split; [exact Hgo|].
    apply (Hkept readOnlyDhclientSys ∅ None
             (WrapError (NewError "read-only file system")
                "Writing to /etc/dhcp/dhclient.conf")
             "/etc/network/interfaces" (renderDhcpInterfaces ["eth0"]) Hres).
    apply list_elem_of_In. vm_compute. tauto.
  - assert (result broken
            = Some (WrapError
                      (WrapError (NewError "Invalid ip or netmask")
                         "Calculating network and broadcast")
                      "Writing network interfaces")) as Hres by reflexivity.
    unfold broken in Hres.
    destruct (Hbroken _ (memWorld sampleSys) ∅ None
                (WrapError
                   (WrapError (NewError "Invalid ip or netmask")
                      "Calculating network and broadcast")
                   "Writing network interfaces") Hres)
      as (_ & Hcmds & Hgo & _).
    assert (Exists (λ n : string * Network,
                      ¬ calcOk (ext := sampleExternals) n.2)
              [("broken", malformedNetwork)]) as Hbad.
    { apply Exists_cons_hd. unfold calcOk. simpl. discriminate. }
    split; [exact Hbad|].
    split; [exact (proj2 (Hrejected _ (memWorld sampleSys) ∅ None)
                     (or_intror Hbad))|].
    split; [exact Hres|]. split; [exact Hcmds|exact Hgo].
  - assert (result refused
            = Some (WrapError
                      (WrapError (NewError "read-only file system")
                         "Writing to /etc/network/interfaces")
                      "Writing network interfaces")) as Hres by reflexivity.
    unfold refused in Hres.
    split; [exact Hres|]. split; [reflexivity|].
    exists (default ("", (false, None))
              (head (convergesOf "/etc/network/interfaces"
                       (trace refused)))).1.
    split; [reflexivity|].
    apply (Hnone _ (memWorld readOnlySys) ∅ None
             (WrapError
                (WrapError (NewError "read-only file system")
                   "Writing to /etc/network/interfaces")
                "Writing network interfaces")
             "/etc/network/interfaces"
             (default ("", (false, None))
                (head (convergesOf "/etc/network/interfaces"
                         (trace refused)))).1
             (false, Some (NewError "read-only file system")) Hres).
    apply list_elem_of_In. vm_compute. tauto.
Defined.

(** ** The lines of the interfaces files *)

Lemma lines_peel (l rest : string) :
  noNewline l = true → lines (l +:+ nl +:+ rest) = l :: lines rest.
Proof. intros Hl. by rewrite lines_app_nl, (lines_noNewline l Hl). Qed.

Lemma lines_peel2 (a b rest : string) :
  noNewline a = true → noNewline b = true →
  lines (a +:+ b +:+ nl +:+ rest) = (a +:+ b) :: lines rest.
Proof.
  intros Ha Hb. rewrite <- append_assoc. apply lines_peel.
  by rewrite noNewline_app, Ha, Hb.
Qed.

Lemma lines_peel3 (a b c rest : string) :
  noNewline a = true → noNewline b = true → noNewline c = true →
  lines (a +:+ b +:+ c +:+ nl +:+ rest) = (a +:+ b +:+ c) :: lines rest.
Proof.
  intros Ha Hb Hc. rewrite <- (append_assoc b c), <- append_assoc.
  rewrite lines_peel; [done|].
  by rewrite !noNewline_app, Ha, Hb, Hc.
Qed.

Lemma lines_nl (rest : string) : lines (nl +:+ rest) = "" :: lines rest.
Proof. done. Qed.

Lemma concatStrings_cons (x : string) (xs : list string) :
  concatStrings (x :: xs) = x +:+ concatStrings xs.
Proof. done. Qed.

Lemma lines_dhcp_blocks (interfaces : list string) :
  forallb noNewline interfaces = true →
  lines (concatStrings
           (map (λ i, nl +:+ "auto " +:+ i +:+ nl +:+ "iface " +:+ i
                      +:+ " inet dhcp" +:+ nl) interfaces))
  = concat (map dhcpBlockLines interfaces) ++ [""].
Proof.
  induction interfaces as [|i is_ IH]; [done|].
  intros [Hi His]%andb_prop. cbn [map concat].
  rewrite concatStrings_cons, !append_assoc, lines_nl, lines_peel2, lines_peel3 by done.
  by rewrite (IH His).
Qed.

Lemma lines_renderDhcpInterfaces (interfaces : list string) :
  forallb noNewline interfaces = true →
  lines (renderDhcpInterfaces interfaces)
  = interfacesHeaderLines ++ concat (map dhcpBlockLines interfaces) ++ [""].
Proof.
  intros Hifs. unfold renderDhcpInterfaces, interfacesHeader.
  rewrite !append_assoc, !lines_peel by done.
  by rewrite lines_dhcp_blocks.
Qed.

Lemma noNewline_gatewayLine c :
  noNewline (Gateway (cnNetwork c)) = true → noNewline (gatewayLine c) = true.
Proof.
  intros Hg. unfold gatewayLine. destruct (HasDefaultGateway c); [|done].
  by rewrite noNewline_app, Hg.
Qed.

Lemma lines_static_blocks (mods : list customNetwork) (dns : string) :
  forallb HasDefaultGateway mods = true →
  forallb cleanNetwork mods = true → noNewline dns = true →
  lines (concatStrings (map (λ c, stanza c +:+ gatewayLine c) mods)
         +:+ nl +:+ dns)
  = "" :: concat (map staticBlockLines mods) ++ [dns].
Proof.
  intros Hgw Hmods Hdns. induction mods as [|c mods IH].
  - cbn [map concat app]. change (concatStrings []) with "".
    change ("" +:+ nl +:+ dns) with (nl +:+ dns).
    by rewrite lines_nl, (lines_noNewline dns Hdns).
  - apply andb_prop in Hmods as [Hc Hmods].
    apply andb_prop in Hgw as [Hg Hgw]. specialize (IH Hgw Hmods).
    unfold cleanNetwork in Hc.
    repeat (apply andb_prop in Hc as [Hc ?]).
    cbn [map concat]. rewrite concatStrings_cons.
    set (rest := concatStrings _) in *. unfold stanza.
    rewrite !append_assoc, lines_nl.
    rewrite lines_peel2, lines_peel3, !lines_peel2 by done.
    destruct (lines_app_head (gatewayLine c) (rest +:+ nl +:+ dns))
      as (l & ls & Hl & ->).
    { by apply noNewline_gatewayLine. }
    rewrite IH in Hl. injection Hl as <- <-.
    unfold gatewayLine. by rewrite Hg, append_nil_r.
Qed.

Lemma lines_renderNetworkInterfaces mods ds :
  forallb HasDefaultGateway mods = true →
  forallb cleanNetwork mods = true → forallb noNewline ds = true →
  lines (renderNetworkInterfaces (mkNetworkInterfaceConfigArg mods true ds))
  = interfacesHeaderLines ++ [""] ++ concat (map staticBlockLines mods) ++
    ["dns-nameservers" +:+ concatStrings (map (String.append " ") ds)].
Proof.
  intros Hgw Hmods Hds. unfold renderNetworkInterfaces, interfacesHeader.
  cbn [argNetworks].
  rewrite !append_assoc, !lines_peel by done.
  rewrite lines_static_blocks; [done..|].
  by apply noNewline_dnsLine.
Qed.

(** ** The layout of the interfaces files *)

Section Layout.
Context {ext : Externals} {S : Type} (h : Handler S).

Lemma exec_detectNetworkInterfaces_found paths hasDevice s :
  (h _ (Glob "/sys/class/net/*") s).1 = (paths, None) →
  (∀ p s', (h _ (FileExists p) s').1 = hasDevice p) →
  result (exec h detectNetworkInterfaces s)
  = (map filepath_Base
       (List.filter (λ p, hasDevice (filepath_Join p "device")) paths),
     None).
Proof.
  intros Hglob Hexists. unfold detectNetworkInterfaces. simpl.
  destruct (h _ (Glob "/sys/class/net/*") s) as [ans s1].
  simpl in Hglob. subst ans. simpl. exec_bind. simpl.
  by rewrite (detectNetworkInterfaces_range_result h hasDevice Hexists).
Qed.

Lemma forallb_resolve_gateway macAddresses (networks : Networks) :
  forallb HasDefaultGateway
    (map (λ n : string * Network, resolve macAddresses n.2) networks) = true.
Proof.
  induction networks as [|n networks IH]; [done|]. simpl.
  destruct (resolve_fields macAddresses n.2) as (_ & _ & ->). done.
Qed.

End Layout.

(** X1. In DHCP mode the interfaces file is offered to the convergence
    writer exactly once, and its lines are the three header lines, then for
    every physical interface, in enumeration order, an empty line,
    [auto <name>] and [iface <name> inet dhcp], then one empty last line
    (interface names without newline characters). *)
Theorem dhcp_interfaces_file_layout {ext : Externals} {S : Type}
    (h : Handler S) (paths : list string) (hasDevice : string → bool) (s : S) :
  (h _ (Glob "/sys/class/net/*") s).1 = (paths, None) →
  (∀ p s', (h _ (FileExists p) s').1 = hasDevice p) →
  let interfaces :=
    map filepath_Base
      (List.filter (λ p, hasDevice (filepath_Join p "device")) paths) in
  forallb noNewline interfaces = true →
  ∃ content ans,
    convergesOf "/etc/network/interfaces"
      (trace (exec h writeDhcpNetworkInterfaces s)) = [(content, ans)] ∧
    lines content
    = interfacesHeaderLines ++ concat (map dhcpBlockLines interfaces) ++ [""].
Proof.
  intros Hglob Hexists interfaces Hclean.
  rewrite exec_writeDhcpNetworkInterfaces. cbv zeta.
  pose proof (detectNetworkInterfaces_detection h s) as Hdet.
  pose proof (exec_detectNetworkInterfaces_found h paths hasDevice s
                Hglob Hexists) as Hres.
  destruct (exec h detectNetworkInterfaces s) as [tr1 r s1].
  cbn [fst snd result final trace] in *. subst r. cbn [fst snd].
  destruct (h _ _ s1) as [ans s2]. cbn [trace].
  exists (renderDhcpInterfaces interfaces), ans. split.
  - traces. by rewrite (detection_convergesOf _ _ Hdet).
  - by apply lines_renderDhcpInterfaces.
Qed.

Lemma dhcp_interfaces_file_layout_witness :
  (memWorld sampleSys _ (Glob "/sys/class/net/*") ∅).1
    = (["/sys/class/net/eth0"; "/sys/class/net/lo"], None) ∧
  ∃ content ans,
    convergesOf "/etc/network/interfaces"
      (trace (exec (memWorld sampleSys)
                (writeDhcpNetworkInterfaces (ext := sampleExternals)) ∅))
    = [(content, ans)] ∧
    lines content
    = [ "# Generated by bosh-agent"; "auto lo"; "iface lo inet loopback";
        ""; "auto eth0"; "iface eth0 inet dhcp"; "" ].
Proof.
  split; [reflexivity|].
  apply (dhcp_interfaces_file_layout (ext := sampleExternals)
           (memWorld sampleSys) ["/sys/class/net/eth0"; "/sys/class/net/lo"]
           (sysExists sampleSys) ∅); [reflexivity| |reflexivity].
  intros p s'. reflexivity.
Defined.

(** X2. In manual mode, when the inventory is read and every network is
    accepted, the interfaces file is offered to the convergence writer
    exactly once, and its lines are the three header lines, an empty line,
    then for every network, in iteration order, seven lines ([auto],
    [iface ... inet static], [address], [network], [netmask], [broadcast],
    [gateway]), then the [dns-nameservers] line as the last line (fields
    and DNS servers without newline characters). *)
Theorem static_interfaces_file_layout {ext : Externals} {S : Type}
    (h : Handler S) (s : S) (networks : Networks)
    (inventory : gmap string string) :
  result (exec h detectMacAddresses s) = (inventory, None) →
  Forall (λ n : string * Network, calcOk n.2) networks →
  let modifiedNetworks := map (λ n, resolve inventory n.2) networks in
  let dnsServers := DNS (DefaultNetworkFor networks "dns").1 in
  forallb cleanNetwork modifiedNetworks = true →
  forallb noNewline dnsServers = true →
  ∃ content ans,
    convergesOf "/etc/network/interfaces"
      (trace (exec h (writeNetworkInterfaces networks) s)) = [(content, ans)] ∧
    lines content
    = interfacesHeaderLines ++ [""] ++
      concat (map staticBlockLines modifiedNetworks) ++
      ["dns-nameservers" +:+ concatStrings (map (String.append " ") dnsServers)].
Proof.
  intros Hinv Hok mods ds Hclean Hds.
  rewrite exec_writeNetworkInterfaces. cbv zeta.
  pose proof (detectMacAddresses_detection h s) as Hdet.
  destruct (exec h detectMacAddresses s) as [tr1 r s1].
  cbn [fst snd result final trace] in *. subst r. cbn [fst snd].
  rewrite (writeNetworkInterfaces_range_ok _ _ _ Hok). cbn [app].
  fold mods. fold ds.
  exists (renderNetworkInterfaces (mkNetworkInterfaceConfigArg mods true ds)).
  destruct (h _ _ s1) as [[written err] s2].
  exists (written, err). split.
  - destruct err; cbn [trace]; traces;
      by rewrite (detection_convergesOf _ _ Hdet).
  - apply lines_renderNetworkInterfaces; [|done..].
    apply forallb_resolve_gateway.
Qed.

Lemma static_interfaces_file_layout_witness :
  let networks := [("default", staticNetwork); ("private", plainNetwork)] in
  result (exec (memWorld sampleSys) (detectMacAddresses (ext := sampleExternals)) ∅)
  = ({[ "aa:bb:cc:dd:ee:ff" := "eth0"; "00:00:00:00:00:00" := "lo" ]}, None) ∧
  Forall (λ n : string * Network, calcOk (ext := sampleExternals) n.2) networks ∧
  ∃ content ans,
    convergesOf "/etc/network/interfaces"
      (trace (exec (memWorld sampleSys)
                (writeNetworkInterfaces (ext := sampleExternals) networks) ∅))
    = [(content, ans)] ∧
    lines content
    = [ "# Generated by bosh-agent"; "auto lo"; "iface lo inet loopback"; "";
        "auto eth0"; "iface eth0 inet static"; "    address 10.0.0.5";
        "    network 10.0.0.0"; "    netmask 255.255.255.0";
        "    broadcast 10.0.0.255"; "    gateway 10.0.0.1";
        "auto "; "iface  inet static"; "    address 10.0.1.5";
        "    network 10.0.1.0"; "    netmask 255.255.255.0";
        "    broadcast 10.0.1.255"; "    gateway ";
        "dns-nameservers 8.8.8.8 9.9.9.9" ].
Proof.
  intros networks.
  assert (result (exec (memWorld sampleSys)
                    (detectMacAddresses (ext := sampleExternals)) ∅)
          = ({[ "aa:bb:cc:dd:ee:ff" := "eth0"; "00:00:00:00:00:00" := "lo" ]},
             None)) as Hinv by (vm_compute; reflexivity).
  assert (Forall (λ n : string * Network, calcOk (ext := sampleExternals) n.2)
            networks) as Hok by (repeat constructor).
  split; [exact Hinv|]. split; [exact Hok|].
  apply (static_interfaces_file_layout (ext := sampleExternals)
           (memWorld sampleSys) ∅ networks _ Hinv Hok); reflexivity.
Defined.

(** ** The steps of a restart, and the broadcast of [SetupDhcp] *)

Lemma restartStep_broadcastsOf tr :
  Forall (λ ev, restartStep ev = true) tr → broadcastsOf tr = [].
Proof. induction 1 as [|ev tr Hev _ IH]; [done|]. by destruct ev. Qed.

Lemma restartStep_afterConvergence tr :
  Forall (λ ev, restartStep ev = true) tr →
  Forall (λ ev, afterConvergence ev = true) tr.
Proof. intros H. eapply Forall_impl; [exact H|]. by intros []. Qed.

Lemma last_cons_app_cons_snoc {A : Type} (x y z : A) (l1 l2 : list A) :
  last (x :: l1 ++ y :: l2 ++ [z]) = Some z.
Proof.
  replace (x :: l1 ++ y :: l2 ++ [z]) with ((x :: l1 ++ y :: l2) ++ [z])
    by (simpl; by rewrite <- app_assoc).
  apply last_snoc.
Qed.

Section Restart.
Context {ext : Externals} {S : Type} (h : Handler S).

Lemma restartAll_steps s :
  Forall (λ ev, restartStep ev = true) (trace (exec h restartAll s)).
Proof.
  unfold restartAll, restartNetworkArguments, logger_Debug, logger_Error, call.
  answers h; by repeat constructor.
Qed.

Lemma restartNetworkingInterfaces_steps networks s :
  Forall (λ ev, restartStep ev = true)
    (trace (exec h (restartNetworkingInterfaces networks) s)).
Proof.
  revert s. induction networks as [|c networks IH]; intros s; [constructor|].
  cbn [restartNetworkingInterfaces]. unfold logger_Debug, logger_Error, call.
  answers h; repeat (constructor; [done|]); apply IH.
Qed.

Lemma restart_block_steps (written : bool) s :
  Forall (λ ev, restartStep ev = true)
    (trace (exec h (if written then restartAll else Ret tt) s)).
Proof. destruct written; [apply restartAll_steps|constructor]. Qed.

Lemma restart_interfaces_block_steps (written : bool) networks s :
  Forall (λ ev, restartStep ev = true)
    (trace (exec h (if written then restartNetworkingInterfaces networks
                    else Ret tt) s)).
Proof.
  destruct written; [apply restartNetworkingInterfaces_steps|constructor].
Qed.

End Restart.

(** X3. [SetupDhcp] returns nil exactly when it launched the broadcast;
    it launches it once, as the last step of the call, for the interface
    [eth0] whatever the machine has, and with the caller's channel. *)
Theorem SetupDhcp_announces_eth0 {ext : Externals} {S : Type}
    (h : Handler S) (networks : Networks) (errCh : option Chan) (s : S) :
  let o := exec h (SetupDhcp networks errCh) s in
  let launch := ([NewResolvingInterfaceAddress "eth0"], errCh) in
  (result o = None ↔ broadcastsOf (trace o) = [launch]) ∧
  (is_Some (result o) ↔ broadcastsOf (trace o) = []) ∧
  (result o = None →
   last (trace o) = Some (EvGoBroadcast launch.1 launch.2)).
Proof.
  cbv zeta. rewrite exec_SetupDhcp. cbv zeta.
  destruct (h _ (Log Debug _ _) s) as [[] s0]. cbn [snd].
  destruct (writeDhcpNetworkInterfaces_stops h s0) as (Hstop & _ & _).
  destruct (exec h writeDhcpNetworkInterfaces s0) as [tr1 [e|] s1];
    cbn [result final trace] in *.
  - apply stopsAtFailure_quiet in Hstop as [_ Hb]. traces. rewrite Hb.
    split_and!; [done|by split; eauto|done].
  - pose proof (benign_broadcastsOf _ Hstop) as Hb.
    destruct (h _ (ConvergeFileContents _ _) s1) as [[written [e|]] s2].
    + cbn [result trace]. traces. rewrite Hb. simpl.
      split_and!; [done|by split; eauto|done].
    + pose proof (restart_block_steps h written s2) as Hsteps.
      cbv zeta. cbn [result trace fst snd]. traces.
      rewrite Hb, (restartStep_broadcastsOf _ Hsteps). simpl.
      split_and!; [done|split; [by intros [? [=]]|done]|].
      intros _. apply last_cons_app_cons_snoc.
Qed.

(** ** What [SetupManualNetworking] restarts and announces *)

(** X4. In manual mode, when the inventory is read and every network is
    accepted, the interfaces file is offered once; the call runs
    [service network-interface stop] and then [start] for the interface of
    every network, in iteration order, exactly when the file system
    reported a change, and no command otherwise.  A network whose MAC is
    not in the inventory gets both commands with an empty interface name.
    Unless that write failed, the call ends by launching one broadcast of
    the addresses of the resolved networks with the caller's channel. *)
Theorem SetupManualNetworking_restarts_its_interfaces {ext : Externals}
    {S : Type} (h : Handler S) (networks : Networks)
    (inventory : gmap string string) (errCh : option Chan) (s : S) :
  (∀ s', result (exec h detectMacAddresses s') = (inventory, None)) →
  Forall (λ n : string * Network, calcOk n.2) networks →
  let o := exec h (SetupManualNetworking networks errCh) s in
  let modifiedNetworks := map (λ n, resolve inventory n.2) networks in
  ∃ content ans,
    convergesOf "/etc/network/interfaces" (trace o) = [(content, ans)] ∧
    commandsOf (trace o)
    = (if bool_decide (ans = (true, None))
       then concat (map (λ n : string * Network,
                           restartCommands
                             (default "" (inventory !! Mac n.2))) networks)
       else []) ∧
    (ans.2 = None →
     broadcastsOf (trace o)
     = [(toInterfaceAddresses modifiedNetworks, errCh)] ∧
     last (trace o)
     = Some (EvGoBroadcast (toInterfaceAddresses modifiedNetworks) errCh)).
Proof.
  intros Hinv Hok. cbv zeta.
  rewrite exec_SetupManualNetworking. cbv zeta.
  destruct (h _ (Log Debug _ _) s) as [[] s0]. cbn [snd].
  rewrite exec_writeNetworkInterfaces. cbv zeta.
  pose proof (detectMacAddresses_detection h s0) as Hdet.
  specialize (Hinv s0).
  destruct (exec h detectMacAddresses s0) as [tr1 r s1].
  cbn [fst snd result final trace] in *. subst r. cbn [fst snd].
  rewrite (writeNetworkInterfaces_range_ok _ _ _ Hok). cbn [app].
  set (mods := map (λ n : string * Network, resolve inventory n.2) networks).
  assert (concat (map (λ c, restartCommands (Interface c)) mods)
          = concat (map (λ n : string * Network,
                           restartCommands
                             (default "" (inventory !! Mac n.2))) networks))
    as Hcmds.
  { unfold mods. rewrite map_map. f_equal. apply map_ext. intros n.
    by destruct (resolve_fields inventory n.2) as (_ & -> & _). }
  pose proof (detection_convergesOf "/etc/network/interfaces" _ Hdet) as Hc1.
  pose proof (detection_commandsOf _ Hdet) as Hk1.
  assert (broadcastsOf tr1 = []) as Hb1.
  { clear -Hdet. induction Hdet as [|ev tr Hev _ IH]; [done|]. by destruct ev. }
  destruct (h _ (ConvergeFileContents _ _) s1) as [[written [e|]] s2];
    cbn [result final trace].
  - eexists _, (written, Some e). traces. rewrite Hc1, Hk1. simpl.
    split_and!; [done|by case_bool_decide|done].
  - destruct (restartNetworkingInterfaces_trace h mods s2) as [Hcmd _].
    pose proof (restart_interfaces_block_steps h written mods s2) as Hsteps.
    eexists _, (written, None). cbn [trace]. traces.
    rewrite Hc1, Hk1, Hb1.
    rewrite (afterConvergence_convergesOf _ _
               (restartStep_afterConvergence _ Hsteps)).
    rewrite (restartStep_broadcastsOf _ Hsteps). simpl.
    split_and!; [done| |intros _; split; [done|]].
    + rewrite app_nil_r. destruct written; [|done].
      cbv zeta in Hcmd. by rewrite Hcmd, Hcmds.
    + rewrite <- app_assoc. apply last_cons_app_cons_snoc.
Qed.

Lemma SetupManualNetworking_restarts_its_interfaces_witness :
  let networks := [("default", staticNetwork); ("private", plainNetwork)] in
  let o := exec (memWorld sampleSys)
             (SetupManualNetworking (ext := sampleExternals) networks None) ∅ in
  (∀ s', result (exec (memWorld sampleSys)
                   (detectMacAddresses (ext := sampleExternals)) s')
         = ({[ "aa:bb:cc:dd:ee:ff" := "eth0"; "00:00:00:00:00:00" := "lo" ]},
            None)) ∧
  Forall (λ n : string * Network, calcOk (ext := sampleExternals) n.2) networks ∧
  ∃ content ans,
    convergesOf "/etc/network/interfaces" (trace o) = [(content, ans)] ∧
    commandsOf (trace o)
    = (if bool_decide (ans = (true, None))
       then [ ("service", ["network-interface"; "stop"; "INTERFACE=eth0"]);
              ("service", ["network-interface"; "start"; "INTERFACE=eth0"]);
              ("service", ["network-interface"; "stop"; "INTERFACE="]);
              ("service", ["network-interface"; "start"; "INTERFACE="]) ]
       else []) ∧
    (ans.2 = None →
     broadcastsOf (trace o)
     = [([NewSimpleInterfaceAddress "eth0" "10.0.0.5";
          NewSimpleInterfaceAddress "" "10.0.1.5"], None)] ∧
     last (trace o)
     = Some (EvGoBroadcast [NewSimpleInterfaceAddress "eth0" "10.0.0.5";
                            NewSimpleInterfaceAddress "" "10.0.1.5"] None)).
Proof.
  intros networks o.
  assert (∀ s', result (exec (memWorld sampleSys)
                          (detectMacAddresses (ext := sampleExternals)) s')
                = ({[ "aa:bb:cc:dd:ee:ff" := "eth0";
                      "00:00:00:00:00:00" := "lo" ]}, None)) as Hinv
    by (intros s'; vm_compute; reflexivity).
  assert (Forall (λ n : string * Network, calcOk (ext := sampleExternals) n.2)
            networks) as Hok by (repeat constructor).
  split; [exact Hinv|]. split; [exact Hok|].
  exact (SetupManualNetworking_restarts_its_interfaces (ext := sampleExternals)
           (memWorld sampleSys) networks _ None ∅ Hinv Hok).
Defined.

(** ** The resolver file, the existence checks, and what [SetupDhcp] reads *)

(** X5. [writeResolvConf] logs once and writes /etc/resolv.conf once,
    unconditionally, with the rendered resolver file; it makes no other
    call, and it returns the error of that write wrapped with [Writing to
    /etc/resolv.conf], or nil when the write succeeded. *)
Theorem writeResolvConf_writes_once {ext : Externals} {S : Type}
    (h : Handler S) (networks : Networks) (s : S) :
  let o := exec h (writeResolvConf networks) s in
  ∃ ans,
    trace o
    = [ EvLog Debug ubuntuNetManagerLogTag "Writing resolv.conf";
        EvWriteFile "/etc/resolv.conf"
          (renderResolvConf (DNS (DefaultNetworkFor networks "dns").1)) ans ] ∧
    result o = (λ e, WrapError e "Writing to /etc/resolv.conf") <$> ans.
Proof.
  unfold writeResolvConf, logger_Debug. exec_bind. rewrite exec_call.
  cbv zeta. cbn [result final trace].
  destruct (h _ (Log Debug _ _) s) as [[] s0]. cbn [fst snd].
  destruct (DefaultNetworkFor networks "dns") as [dnsNetwork found].
  rewrite Execute_ubuntuResolvConfTemplate. cbn [fst snd dnsArgDNSServers].
  exec_bind. rewrite exec_call. cbv zeta. cbn [result final trace].
  destruct (h _ (WriteFile _ _) s0) as [[e|] s1]; cbn [fst snd];
    eexists; split; reflexivity.
Qed.

Section Checks.
Context {ext : Externals} {S : Type} (h : Handler S).
Variable hasDevice : string → bool.
Hypothesis Hexists : ∀ p s, (h _ (FileExists p) s).1 = hasDevice p.

Lemma detectNetworkInterfaces_range_checks filePaths interfaces s :
  let tr := trace (exec h (detectNetworkInterfaces_range filePaths interfaces) s) in
  existenceChecksOf tr = map (λ p, filepath_Join p "device") filePaths ∧
  logsOf Info tr
  = map (String.append "Ignoring virtual network device: ")
      (List.filter (λ p, negb (hasDevice (filepath_Join p "device"))) filePaths) ∧
  logsOf LevelError tr = [] ∧ logsOf Debug tr = [].
Proof.
  revert interfaces s. induction filePaths as [|p ps IH]; intros acc s; [done|].
  cbn [detectNetworkInterfaces_range List.filter map]. unfold logger_Info, call.
  simpl. pose proof (Hexists (filepath_Join p "device") s) as Hp.
  destruct (h bool _ s) as [b s1]. simpl in Hp. subst b.
  destruct (hasDevice (filepath_Join p "device")); simpl.
  - destruct (IH (acc ++ [filepath_Base p]) s1) as (-> & -> & -> & ->). done.
  - destruct (h unit _ s1) as [[] s2]. simpl.
    destruct (IH acc s2) as (-> & -> & -> & ->). done.
Qed.

End Checks.

(** X6. [detectNetworkInterfaces] checks the [device] entry of every
    enumerated path exactly once, in enumeration order, and logs at info
    level one line [Ignoring virtual network device: <path>] for every
    path it skips, in order, with the full path; it logs nothing else.
    When the enumeration fails it checks and logs nothing and returns no
    interface with the error wrapped with [Getting file list from
    /sys/class/net]. *)
Theorem detectNetworkInterfaces_checks_and_logs {ext : Externals} {S : Type}
    (h : Handler S) (paths : list string) (gerr : option error)
    (hasDevice : string → bool) (s : S) :
  (h _ (Glob "/sys/class/net/*") s).1 = (paths, gerr) →
  (∀ p s', (h _ (FileExists p) s').1 = hasDevice p) →
  let o := exec h detectNetworkInterfaces s in
  let skipped :=
    List.filter (λ p, negb (hasDevice (filepath_Join p "device"))) paths in
  (∀ e, gerr = Some e →
     result o
     = ([], Some (WrapError e "Getting file list from /sys/class/net")) ∧
     trace o = [EvGlob "/sys/class/net/*" (paths, gerr)]) ∧
  (gerr = None →
     existenceChecksOf (trace o) = map (λ p, filepath_Join p "device") paths ∧
     logsOf Info (trace o)
     = map (String.append "Ignoring virtual network device: ") skipped ∧
     logsOf LevelError (trace o) = [] ∧ logsOf Debug (trace o) = []).
Proof.
  intros Hglob Hexists. cbv zeta. unfold detectNetworkInterfaces. simpl.
  destruct (h _ (Glob "/sys/class/net/*") s) as [ans s1].
  simpl in Hglob. subst ans. split.
  - by intros e ->.
  - intros ->. simpl. exec_bind. simpl. rewrite app_nil_r.
    apply (detectNetworkInterfaces_range_checks h hasDevice Hexists).
Qed.

Lemma detectNetworkInterfaces_checks_and_logs_witness :
  let o := exec (memWorld sampleSys)
             (detectNetworkInterfaces (ext := sampleExternals)) ∅ in
  (memWorld sampleSys _ (Glob "/sys/class/net/*") ∅).1
    = (["/sys/class/net/eth0"; "/sys/class/net/lo"], None) ∧
  existenceChecksOf (trace o)
    = ["/sys/class/net/eth0/device"; "/sys/class/net/lo/device"] ∧
  logsOf Info (trace o)
    = ["Ignoring virtual network device: /sys/class/net/lo"] ∧
  logsOf LevelError (trace o) = [] ∧ logsOf Debug (trace o) = [].
Proof.
  intros o. split; [reflexivity|].
  apply (detectNetworkInterfaces_checks_and_logs (ext := sampleExternals)
           (memWorld sampleSys) ["/sys/class/net/eth0"; "/sys/class/net/lo"]
           None (sysExists sampleSys) ∅); [reflexivity| |reflexivity].
  intros p s'. reflexivity.
Defined.

(** X7. [SetupDhcp] uses nothing of the networks but the DNS servers of
    the network resolved for DNS: two network sets that agree on that list
    give the same calls, the same result and the same final state. *)
Theorem SetupDhcp_reads_only_the_dns_servers {ext : Externals} {S : Type}
    (h : Handler S) (networks networks' : Networks) (errCh : option Chan)
    (s : S) :
  DNS (DefaultNetworkFor networks "dns").1
  = DNS (DefaultNetworkFor networks' "dns").1 →
  exec h (SetupDhcp networks errCh) s = exec h (SetupDhcp networks' errCh) s.
Proof.
  intros Hdns. rewrite !exec_SetupDhcp. cbv zeta. by rewrite Hdns.
Qed.

Lemma SetupDhcp_reads_only_the_dns_servers_witness :
  let networks := [("default", staticNetwork)] in
  let networks' :=
    [("private", plainNetwork);
     ("other", mkNetwork "192.168.7.9" "255.255.0.0" "192.168.0.1" ["dns"]
                 ["8.8.8.8"; "9.9.9.9"] "00:11:22:33:44:55")] in
  DNS (DefaultNetworkFor (Externals := sampleExternals) networks "dns").1
  = DNS (DefaultNetworkFor (Externals := sampleExternals) networks' "dns").1 ∧
  exec (memWorld sampleSys)
    (SetupDhcp (ext := sampleExternals) networks None) ∅
  = exec (memWorld sampleSys)
      (SetupDhcp (ext := sampleExternals) networks' None) ∅.
Proof.
  intros networks networks'. split; [reflexivity|].
  apply (SetupDhcp_reads_only_the_dns_servers (ext := sampleExternals)
           (memWorld sampleSys) networks networks' None ∅).
  reflexivity.
Defined.

(** ** Where a returned error comes from *)

Section Provenance.
Context {ext : Externals} {S : Type} (h : Handler S).

Lemma detectNetworkInterfaces_failed s err :
  let o := exec h detectNetworkInterfaces s in
  (result o).2 = Some err →
  ∃ paths e,
    trace o = [EvGlob "/sys/class/net/*" (paths, Some e)] ∧
    err = WrapError e "Getting file list from /sys/class/net".
Proof.
  unfold detectNetworkInterfaces. simpl.
  destruct (h _ (Glob "/sys/class/net/*") s) as [[paths [e|]] s1]; simpl.
  - intros [= <-]. by exists paths, e.
  - exec_bind. by simpl.
Qed.

Lemma detectMacAddresses_range_failed filePaths addresses s err :
  let o := exec h (detectMacAddresses_range filePaths addresses) s in
  (result o).2 = Some err →
  ∃ tr0 path content e,
    trace o = tr0 ++ [EvReadFileString path (content, Some e)] ∧
    err = WrapError e "Reading mac address from file".
Proof.
  revert addresses s. induction filePaths as [|p ps IH]; intros acc s; [done|].
  simpl. destruct (h _ _ s) as [[content [e|]] s1]; simpl.
  - intros [= <-]. by exists [], (filepath_Join p "address"), content, e.
  - intros (tr0 & path & content' & e & -> & ->)%IH.
    by exists (EvReadFileString (filepath_Join p "address") (content, None)
               :: tr0), path, content', e.
Qed.

Lemma detectMacAddresses_failed s err :
  let o := exec h detectMacAddresses s in
  (result o).2 = Some err →
  (∃ paths e,
     trace o = [EvGlob "/sys/class/net/*" (paths, Some e)] ∧
     err = WrapError e "Getting file list from /sys/class/net") ∨
  (∃ tr0 path content e,
     trace o = tr0 ++ [EvReadFileString path (content, Some e)] ∧
     err = WrapError e "Reading mac address from file").
Proof.
  unfold detectMacAddresses. simpl.
  destruct (h _ (Glob "/sys/class/net/*") s) as [[paths [e|]] s1]; simpl.
  - intros [= <-]. left. by exists paths, e.
  - intros (tr0 & path & content & e & -> & ->)%detectMacAddresses_range_failed.
    right. by exists (EvGlob "/sys/class/net/*" (paths, None) :: tr0),
                     path, content, e.
Qed.

End Provenance.

(** X8. An error returned by [SetupDhcp] names the stage that failed: the
    trace ends with the failed file-system call, and the error is the
    error of that call wrapped once per function it crossed.  A failed
    enumeration, a failed write of the interfaces file and a failed write
    of the DHCP client directive file are the only three sources. *)
Theorem SetupDhcp_error_names_the_stage {ext : Externals} {S : Type}
    (h : Handler S) (networks : Networks) (errCh : option Chan) (s : S)
    (err : error) :
  let o := exec h (SetupDhcp networks errCh) s in
  result o = Some err →
  ∃ tr0 e,
    (∃ paths,
       trace o = tr0 ++ [EvGlob "/sys/class/net/*" (paths, Some e)] ∧
       err = WrapError
               (WrapError
                  (WrapError e "Getting file list from /sys/class/net")
                  "Detecting network interfaces")
               "Generating interfaces config from template") ∨
    (∃ content written,
       trace o = tr0 ++ [EvConvergeFileContents "/etc/network/interfaces"
                           content (written, Some e)] ∧
       err = WrapError (WrapError e "Writing to /etc/network/interfaces")
               "Generating interfaces config from template") ∨
    (∃ content written,
       trace o = tr0 ++ [EvConvergeFileContents "/etc/dhcp/dhclient.conf"
                           content (written, Some e)] ∧
       err = WrapError e "Writing to /etc/dhcp/dhclient.conf").
Proof.
  cbv zeta. rewrite exec_SetupDhcp. cbv zeta.
  destruct (h _ (Log Debug _ _) s) as [[] s0]. cbn [snd].
  rewrite exec_writeDhcpNetworkInterfaces. cbv zeta.
  pose proof (detectNetworkInterfaces_failed h s0) as Hfail.
  destruct (exec h detectNetworkInterfaces s0) as [tr1 [ifs [e1|]] s1];
    cbn [fst snd result final trace] in *.
  - destruct (Hfail e1 eq_refl) as (paths & e & -> & ->).
    intros [= <-]. eexists [_], e. left. by exists paths.
  - clear Hfail.
    destruct (h _ (ConvergeFileContents "/etc/network/interfaces" _) s1)
      as [[written1 [e1|]] s2]; cbn [fst snd result final trace].
    + intros [= <-]. eexists (_ :: tr1), e1. right. left.
      by eexists _, written1.
    + destruct (h _ (ConvergeFileContents _ _) s2) as [[written [e|]] s3];
        [|done].
      cbn [result trace]. intros [= <-].
      eexists (_ :: tr1 ++ [_]), e. right. right.
      by eexists _, written.
Qed.

Lemma SetupDhcp_error_names_the_stage_witness :
  let o := exec (memWorld readOnlyDhclientSys)
             (SetupDhcp (ext := sampleExternals) [] None) ∅ in
  let err := WrapError (NewError "read-only file system")
               "Writing to /etc/dhcp/dhclient.conf" in
  result o = Some err ∧
  ∃ tr0 e,
    (∃ paths,
       trace o = tr0 ++ [EvGlob "/sys/class/net/*" (paths, Some e)] ∧
       err = WrapError
               (WrapError
                  (WrapError e "Getting file list from /sys/class/net")
                  "Detecting network interfaces")
               "Generating interfaces config from template") ∨
    (∃ content written,
       trace o = tr0 ++ [EvConvergeFileContents "/etc/network/interfaces"
                           content (written, Some e)] ∧
       err = WrapError (WrapError e "Writing to /etc/network/interfaces")
               "Generating interfaces config from template") ∨
    (∃ content written,
       trace o = tr0 ++ [EvConvergeFileContents "/etc/dhcp/dhclient.conf"
                           content (written, Some e)] ∧
       err = WrapError e "Writing to /etc/dhcp/dhclient.conf").
Proof.
  intros o err. split; [reflexivity|].
  apply (SetupDhcp_error_names_the_stage (ext := sampleExternals)
           (memWorld readOnlyDhclientSys) [] None ∅ err).
  reflexivity.
Defined.

(** X9. An error returned by [SetupManualNetworking] names the stage that
    failed.  There are four sources: the enumeration, the read of a
    hardware address, a network that [CalculateNetworkAndBroadcast]
    rejects, and the write of the interfaces file; for the three
    file-system failures the trace ends with the failed call. *)
Theorem SetupManualNetworking_error_names_the_stage {ext : Externals}
    {S : Type} (h : Handler S) (networks : Networks) (errCh : option Chan)
    (s : S) (err : error) :
  let o := exec h (SetupManualNetworking networks errCh) s in
  result o = Some err →
  (∃ tr0 paths e,
     trace o = tr0 ++ [EvGlob "/sys/class/net/*" (paths, Some e)] ∧
     err = WrapError
             (WrapError
                (WrapError e "Getting file list from /sys/class/net")
                "Detecting mac addresses")
             "Writing network interfaces") ∨
  (∃ tr0 path content e,
     trace o = tr0 ++ [EvReadFileString path (content, Some e)] ∧
     err = WrapError
             (WrapError
                (WrapError e "Reading mac address from file")
                "Detecting mac addresses")
             "Writing network interfaces") ∨
  (∃ n e,
     n ∈ networks ∧
     (CalculateNetworkAndBroadcast (IP n.2) (Netmask n.2)).2 = Some e ∧
     err = WrapError (WrapError e "Calculating network and broadcast")
             "Writing network interfaces") ∨
  (∃ tr0 content written e,
     trace o = tr0 ++ [EvConvergeFileContents "/etc/network/interfaces"
                         content (written, Some e)] ∧
     err = WrapError (WrapError e "Writing to /etc/network/interfaces")
             "Writing network interfaces").
Proof.
  cbv zeta. rewrite exec_SetupManualNetworking. cbv zeta.
  destruct (h _ (Log Debug _ _) s) as [[] s0]. cbn [snd].
  rewrite exec_writeNetworkInterfaces. cbv zeta.
  pose proof (detectMacAddresses_failed h s0) as Hfail.
  destruct (exec h detectMacAddresses s0) as [tr1 [inv [e1|]] s1];
    cbn [fst snd result final trace] in *.
  - intros [= <-].
    destruct (Hfail e1 eq_refl)
      as [(paths & e & -> & ->)|(tr0 & path & content & e & -> & ->)].
    + left. by eexists [_], paths, e.
    + right. left. by eexists (_ :: tr0), path, content, e.
  - clear Hfail.
    pose proof (writeNetworkInterfaces_range_cases inv networks []) as Hcases.
    destruct (writeNetworkInterfaces_range inv networks []) as [mods [e1|]];
      cbn [fst snd result final trace].
    + intros [= <-]. destruct Hcases as (n & e & Hn & Hcalc & ->).
      right. right. left. by exists n, e.
    + destruct (h _ (ConvergeFileContents _ _) s1) as [[written [e|]] s2];
        cbn [result trace]; [|done].
      intros [= <-]. right. right. right.
      by eexists (_ :: tr1), _, written, e.
Qed.

Lemma SetupManualNetworking_error_names_the_stage_witness :
  let networks := [("default", staticNetwork); ("broken", malformedNetwork)] in
  let o := exec (memWorld sampleSys)
             (SetupManualNetworking (ext := sampleExternals) networks None) ∅ in
  let err := WrapError
               (WrapError (NewError "Invalid ip or netmask")
                  "Calculating network and broadcast")
               "Writing network interfaces" in
  result o = Some err ∧
  ((∃ tr0 paths e,
      trace o = tr0 ++ [EvGlob "/sys/class/net/*" (paths, Some e)] ∧
      err = WrapError
              (WrapError
                 (WrapError e "Getting file list from /sys/class/net")
                 "Detecting mac addresses")
              "Writing network interfaces") ∨
   (∃ tr0 path content e,
      trace o = tr0 ++ [EvReadFileString path (content, Some e)] ∧
      err = WrapError
              (WrapError
                 (WrapError e "Reading mac address from file")
                 "Detecting mac addresses")
              "Writing network interfaces") ∨
   (∃ n e,
      n ∈ networks ∧
      (CalculateNetworkAndBroadcast (Externals := sampleExternals)
         (IP n.2) (Netmask n.2)).2 = Some e ∧
      err = WrapError (WrapError e "Calculating network and broadcast")
              "Writing network interfaces") ∨
   (∃ tr0 content written e,
      trace o = tr0 ++ [EvConvergeFileContents "/etc/network/interfaces"
                          content (written, Some e)] ∧
      err = WrapError (WrapError e "Writing to /etc/network/interfaces")
              "Writing network interfaces")).
Proof.
  intros networks o err. split; [reflexivity|].
  apply (SetupManualNetworking_error_names_the_stage (ext := sampleExternals)
           (memWorld sampleSys) networks None ∅ err).
  reflexivity.
Defined.

(** ** The error log *)

Lemma failuresLogged_app tr1 tr2 :
  failuresLogged tr1 → failuresLogged tr2 → failuresLogged (tr1 ++ tr2).
Proof.
  unfold failuresLogged, logsOf. intros H1 H2. by rewrite !omap_app, H1, H2.
Qed.

Lemma failuresLogged_silent ev tr :
  silent ev = true → failuresLogged tr → failuresLogged (ev :: tr).
Proof. unfold failuresLogged, logsOf. by destruct ev. Qed.

Lemma failuresLogged_quiet_log lvl tag msg tr :
  lvl ≠ LevelError → failuresLogged tr →
  failuresLogged (EvLog lvl tag msg :: tr).
Proof. unfold failuresLogged, logsOf. by destruct lvl. Qed.

Lemma failuresLogged_Forall_silent tr :
  Forall (λ ev, silent ev = true) tr → failuresLogged tr.
Proof.
  induction 1 as [|ev tr Hev _ IH]; [done|]. by apply failuresLogged_silent.
Qed.

Section Logged.
Context {ext : Externals} {S : Type} (h : Handler S).

Lemma detectNetworkInterfaces_logged s :
  failuresLogged (trace (exec h detectNetworkInterfaces s)).
Proof.
  unfold detectNetworkInterfaces. simpl.
  destruct (h _ (Glob "/sys/class/net/*") s) as [[paths [e|]] s1]; simpl.
  - done.
  - exec_bind. simpl. apply failuresLogged_silent; [done|].
    rewrite app_nil_r. generalize (@nil string). revert s1.
    induction paths as [|p ps IH]; intros s1 acc; [done|].
    simpl. destruct (h bool _ s1) as [[] s2]; simpl.
    + apply failuresLogged_silent; [done|]. apply IH.
    + destruct (h unit _ s2) as [[] s3]. simpl.
      apply failuresLogged_silent; [done|].
      apply failuresLogged_quiet_log; [done|]. apply IH.
Qed.

Lemma detectMacAddresses_silent s :
  Forall (λ ev, silent ev = true) (trace (exec h detectMacAddresses s)).
Proof.
  unfold detectMacAddresses. simpl.
  destruct (h _ (Glob "/sys/class/net/*") s) as [[paths [e|]] s1]; simpl.
  - by repeat constructor.
  - constructor; [done|].
    generalize (∅ : gmap string string). revert s1.
    induction paths as [|p ps IH]; intros s1 acc; [constructor|].
    simpl. destruct (h _ _ s1) as [[content [e|]] s2]; simpl.
    + by repeat constructor.
    + constructor; [done|]. apply IH.
Qed.

Lemma restartAll_logged s : failuresLogged (trace (exec h restartAll s)).
Proof.
  unfold restartAll, restartNetworkArguments, logger_Debug, logger_Error, call.
  unfold failuresLogged, logsOf.
  simpl. destruct (h CmdResult _ s) as [r1 s1]. simpl.
  destruct (cmdErr r1) as [e1|] eqn:H1; simpl.
  all: repeat match goal with
       | |- context [h unit ?e ?s] => destruct (h unit e s) as [[] ?]; simpl
       end.
  all: match goal with
       | |- context [h CmdResult ?e ?s] =>
           let H := fresh in destruct (h CmdResult e s) as [r2 ?]; simpl;
           destruct (cmdErr r2) as [e2|] eqn:H; simpl
       end.
  all: repeat match goal with
       | |- context [h unit ?e ?s] => destruct (h unit e s) as [[] ?]; simpl
       end.
  all: match goal with
       | |- context [h CmdResult ?e ?s] =>
           let H := fresh in destruct (h CmdResult e s) as [r3 ?]; simpl;
           destruct (cmdErr r3) as [e3|] eqn:H; simpl
       end.
  all: repeat match goal with
       | |- context [h unit ?e ?s] => destruct (h unit e s) as [[] ?]; simpl
       end.
  all: repeat match goal with H : cmdErr _ = _ |- _ => rewrite H end.
  all: reflexivity.
Qed.

Lemma restartNetworkingInterfaces_logged networks s :
  failuresLogged (trace (exec h (restartNetworkingInterfaces networks) s)).
Proof.
  revert s. induction networks as [|c networks IH]; intros s; [done|].
  cbn [restartNetworkingInterfaces]. unfold logger_Debug, logger_Error, call.
  simpl. destruct (h unit _ s) as [[] s0]. simpl.
  destruct (h CmdResult _ s0) as [r1 s1]. simpl.
  destruct (cmdErr r1) as [e1|] eqn:H1; simpl.
  all: repeat match goal with
       | |- context [h unit ?e ?s] => destruct (h unit e s) as [[] ?]; simpl
       end.
  all: match goal with
       | |- context [h CmdResult ?e ?s] =>
           let H := fresh in destruct (h CmdResult e s) as [r2 ?]; simpl;
           destruct (cmdErr r2) as [e2|] eqn:H; simpl
       end.
  all: repeat match goal with
       | |- context [h unit ?e ?s] => destruct (h unit e s) as [[] ?]; simpl
       end.
  all: unfold failuresLogged, logsOf in IH |- *; simpl.
  all: repeat match goal with H : cmdErr _ = _ |- _ => rewrite H end.
  all: simpl; by rewrite IH.
Qed.

End Logged.

(** X10. Every restart command that returns an error leaves one line in
    the error log, [Ignoring <what> failure: <error>], in the order of the
    commands, for both entry points; nothing else is ever logged at error
    level, and a command that only exits with a non-zero status is not
    logged. *)
Theorem ignored_failures_are_logged {ext : Externals} {S : Type}
    (h : Handler S) (networks : Networks) (errCh : option Chan) (s : S) :
  (let tr := trace (exec h (SetupDhcp networks errCh) s) in
   logsOf LevelError tr = omap ignoredFailure tr) ∧
  (let tr := trace (exec h (SetupManualNetworking networks errCh) s) in
   logsOf LevelError tr = omap ignoredFailure tr).
Proof.
  cbv zeta. change (?f LevelError ?tr = omap ignoredFailure ?tr)
    with (failuresLogged tr).
  split.
  - rewrite exec_SetupDhcp. cbv zeta.
    destruct (h _ (Log Debug _ _) s) as [[] s0]. cbn [snd].
    rewrite exec_writeDhcpNetworkInterfaces. cbv zeta.
    pose proof (detectNetworkInterfaces_logged h s0) as Hlog.
    destruct (exec h detectNetworkInterfaces s0) as [tr1 [ifs [e1|]] s1];
      cbn [fst snd result final trace] in *.
    { by apply failuresLogged_quiet_log. }
    destruct (h _ (ConvergeFileContents "/etc/network/interfaces" _) s1)
      as [[written1 [e1|]] s2]; cbn [fst snd result final trace].
    { apply failuresLogged_quiet_log; [done|].
      by apply failuresLogged_app. }
    destruct (h _ (ConvergeFileContents _ _) s2) as [[written [e|]] s3];
      cbn [result trace].
    { apply failuresLogged_quiet_log; [done|].
      by repeat apply failuresLogged_app. }
    apply failuresLogged_quiet_log; [done|].
    apply failuresLogged_app; [by apply failuresLogged_app|].
    apply failuresLogged_silent; [done|].
    apply failuresLogged_app; [|done].
    destruct written; [apply restartAll_logged|done].
  - rewrite exec_SetupManualNetworking. cbv zeta.
    destruct (h _ (Log Debug _ _) s) as [[] s0]. cbn [snd].
    rewrite exec_writeNetworkInterfaces. cbv zeta.
    pose proof (failuresLogged_Forall_silent _ (detectMacAddresses_silent h s0))
      as Hlog.
    destruct (exec h detectMacAddresses s0) as [tr1 [inv [e1|]] s1];
      cbn [fst snd result final trace] in *.
    { by apply failuresLogged_quiet_log. }
    destruct (writeNetworkInterfaces_range inv networks []) as [mods [e1|]];
      cbn [fst snd result final trace].
    { by apply failuresLogged_quiet_log. }
    destruct (h _ (ConvergeFileContents _ _) s1) as [[written [e|]] s2];
      cbn [result trace].
    { apply failuresLogged_quiet_log; [done|]. by apply failuresLogged_app. }
    apply failuresLogged_quiet_log; [done|].
    apply failuresLogged_app; [by apply failuresLogged_app|].
    apply failuresLogged_app; [|done].
    destruct written; [apply restartNetworkingInterfaces_logged|done].
Qed.

(** ** The files a call asks for, and a rejected network *)

Lemma fileCallsOf_app tr1 tr2 :
  fileCallsOf (tr1 ++ tr2) = fileCallsOf tr1 ++ fileCallsOf tr2.
Proof. apply omap_app. Qed.

Lemma detection_fileCallsOf tr :
  Forall (λ ev, detection ev = true) tr → fileCallsOf tr = [].
Proof. induction 1 as [|ev tr Hev _ IH]; [done|]. by destruct ev. Qed.

Lemma restartStep_fileCallsOf tr :
  Forall (λ ev, restartStep ev = true) tr → fileCallsOf tr = [].
Proof. induction 1 as [|ev tr Hev _ IH]; [done|]. by destruct ev. Qed.

(** X11. Each entry point asks the file system to write its own files
    only, in a fixed order: [SetupDhcp] the interfaces file and then the
    DHCP client directive file, [SetupManualNetworking] the interfaces
    file.  A call that returns nil asked for all of them, a failed call
    for a prefix; neither ever touches /etc/resolv.conf. *)
Theorem entry_points_write_their_own_files {ext : Externals} {S : Type}
    (h : Handler S) (networks : Networks) (errCh : option Chan) (s : S) :
  (let o := exec h (SetupDhcp networks errCh) s in
   fileCallsOf (trace o)
     `prefix_of` ["/etc/network/interfaces"; "/etc/dhcp/dhclient.conf"] ∧
   (result o = None →
    fileCallsOf (trace o)
    = ["/etc/network/interfaces"; "/etc/dhcp/dhclient.conf"])) ∧
  (let o := exec h (SetupManualNetworking networks errCh) s in
   fileCallsOf (trace o) `prefix_of` ["/etc/network/interfaces"] ∧
   (result o = None → fileCallsOf (trace o) = ["/etc/network/interfaces"])).
Proof.
  split; cbv zeta.
  - rewrite exec_SetupDhcp. cbv zeta.
    destruct (h _ (Log Debug _ _) s) as [[] s0]. cbn [snd].
    rewrite exec_writeDhcpNetworkInterfaces. cbv zeta.
    pose proof (detection_fileCallsOf _ (detectNetworkInterfaces_detection h s0))
      as Hdet.
    destruct (exec h detectNetworkInterfaces s0) as [tr1 [ifs [e1|]] s1];
      cbn [fst snd result final trace] in *.
    { change (fileCallsOf (?ev :: tr1)) with (fileCallsOf tr1).
      rewrite Hdet. split; [apply prefix_nil|done]. }
    destruct (h _ (ConvergeFileContents "/etc/network/interfaces" _) s1)
      as [[written1 [e1|]] s2]; cbn [fst snd result final trace].
    { change (fileCallsOf (?ev :: ?tr)) with (fileCallsOf tr).
      rewrite fileCallsOf_app, Hdet. split; [by eexists|done]. }
    destruct (h _ (ConvergeFileContents _ _) s2) as [[written [e|]] s3];
      cbn [result trace].
    { change (fileCallsOf (?ev :: ?tr)) with (fileCallsOf tr).
      rewrite !fileCallsOf_app, Hdet. split; [by exists []|done]. }
    change (fileCallsOf (EvLog ?l ?t ?m :: ?tr)) with (fileCallsOf tr).
    rewrite !fileCallsOf_app, Hdet.
    change (fileCallsOf (EvConvergeFileContents ?p ?c ?a :: ?tr))
      with (p :: fileCallsOf tr).
    rewrite fileCallsOf_app.
    rewrite (restartStep_fileCallsOf _ (restart_block_steps h written s3)).
    split; [by exists []|done].
  - rewrite exec_SetupManualNetworking. cbv zeta.
    destruct (h _ (Log Debug _ _) s) as [[] s0]. cbn [snd].
    rewrite exec_writeNetworkInterfaces. cbv zeta.
    pose proof (detection_fileCallsOf _ (detectMacAddresses_detection h s0))
      as Hdet.
    destruct (exec h detectMacAddresses s0) as [tr1 [inv [e1|]] s1];
      cbn [fst snd result final trace] in *.
    { change (fileCallsOf (?ev :: tr1)) with (fileCallsOf tr1).
      rewrite Hdet. split; [apply prefix_nil|done]. }
    destruct (writeNetworkInterfaces_range inv networks []) as [mods [e1|]];
      cbn [fst snd result final trace].
    { change (fileCallsOf (?ev :: tr1)) with (fileCallsOf tr1).
      rewrite Hdet. split; [apply prefix_nil|done]. }
    destruct (h _ (ConvergeFileContents _ _) s1) as [[written [e|]] s2];
      cbn [result trace final].
    { change (fileCallsOf (?ev :: ?tr)) with (fileCallsOf tr).
      rewrite fileCallsOf_app, Hdet. split; [by exists []|done]. }
    change (fileCallsOf (EvLog ?l ?t ?m :: ?tr)) with (fileCallsOf tr).
    rewrite !fileCallsOf_app, Hdet.
    rewrite (restartStep_fileCallsOf _
               (restart_interfaces_block_steps h written mods s2)).
    split; [by exists []|done].
Qed.

Section Rejected.
Context {ext : Externals}.

Lemma writeNetworkInterfaces_range_rejected macAddresses pre n post acc e :
  Forall (λ m : string * Network, calcOk m.2) pre →
  (CalculateNetworkAndBroadcast (IP n.2) (Netmask n.2)).2 = Some e →
  writeNetworkInterfaces_range macAddresses (pre ++ n :: post) acc
  = (acc ++ map (λ m, resolve macAddresses m.2) pre,
     Some (WrapError e "Calculating network and broadcast")).
Proof.
  intros Hpre Hn. revert acc.
  induction Hpre as [|[name aNet] pre Hm _ IH]; intros acc.
  - destruct n as [name aNet]. simpl in *.
    destruct (CalculateNetworkAndBroadcast (IP aNet) (Netmask aNet))
      as [[network broadcast] err]. simpl in Hn. subst err.
    by rewrite app_nil_r.
  - unfold calcOk in Hm. cbn [snd] in Hm.
    cbn [app map writeNetworkInterfaces_range snd].
    assert (∀ network broadcast err,
              CalculateNetworkAndBroadcast (IP aNet) (Netmask aNet)
              = (network, broadcast, err) →
              resolve macAddresses aNet
              = mkCustomNetwork aNet (default "" (macAddresses !! Mac aNet))
                  network broadcast true) as Hr.
    { intros network broadcast err Hcalc. unfold resolve. by rewrite Hcalc. }
    destruct (CalculateNetworkAndBroadcast (IP aNet) (Netmask aNet))
      as [[network broadcast] err]. simpl in Hm. subst err.
    rewrite IH, <- app_assoc. by rewrite (Hr _ _ _ eq_refl).
Qed.

End Rejected.

(** X12. When the inventory is read and [CalculateNetworkAndBroadcast]
    rejects a network, [writeNetworkInterfaces] reports the error of the
    first rejected network, wrapped with [Calculating network and
    broadcast]; it returns the networks resolved before that one beside
    the error, looks at no later network, and asks the file system to
    write nothing. *)
Theorem writeNetworkInterfaces_first_rejected_network {ext : Externals}
    {S : Type} (h : Handler S) (s : S) (pre post : Networks)
    (n : string * Network) (inventory : gmap string string) (e : error) :
  result (exec h detectMacAddresses s) = (inventory, None) →
  Forall (λ m : string * Network, calcOk m.2) pre →
  (CalculateNetworkAndBroadcast (IP n.2) (Netmask n.2)).2 = Some e →
  let o := exec h (writeNetworkInterfaces (pre ++ n :: post)) s in
  result o
  = (map (λ m, resolve inventory m.2) pre, false,
     Some (WrapError e "Calculating network and broadcast")) ∧
  trace o = trace (exec h detectMacAddresses s) ∧
  fileCallsOf (trace o) = [].
Proof.
  intros Hinv Hpre Hn. cbv zeta. rewrite exec_writeNetworkInterfaces. cbv zeta.
  pose proof (detection_fileCallsOf _ (detectMacAddresses_detection h s))
    as Hdet.
  destruct (exec h detectMacAddresses s) as [tr1 r s1].
  cbn [fst snd result final trace] in *. subst r. cbn [fst snd].
  by rewrite (writeNetworkInterfaces_range_rejected _ _ _ _ _ _ Hpre Hn).
Qed.

Lemma writeNetworkInterfaces_first_rejected_network_witness :
  let pre := [("default", staticNetwork)] in
  let n := ("broken", malformedNetwork) in
  let post := [("private", plainNetwork);
               ("worse", mkNetwork "nowhere" "" "" [] [] "")] in
  let inventory : gmap string string :=
    {[ "aa:bb:cc:dd:ee:ff" := "eth0"; "00:00:00:00:00:00" := "lo" ]} in
  let o := exec (memWorld sampleSys)
             (writeNetworkInterfaces (ext := sampleExternals)
                (pre ++ n :: post)) ∅ in
  result (exec (memWorld sampleSys)
            (detectMacAddresses (ext := sampleExternals)) ∅)
  = (inventory, None) ∧
  Forall (λ m : string * Network, calcOk (ext := sampleExternals) m.2) pre ∧
  (CalculateNetworkAndBroadcast (Externals := sampleExternals)
     (IP n.2) (Netmask n.2)).2 = Some (NewError "Invalid ip or netmask") ∧
  result o
  = ([mkCustomNetwork staticNetwork "eth0" "10.0.0.0" "10.0.0.255" true],
     false,
     Some (WrapError (NewError "Invalid ip or netmask")
             "Calculating network and broadcast")) ∧
  trace o
  = trace (exec (memWorld sampleSys)
             (detectMacAddresses (ext := sampleExternals)) ∅) ∧
  fileCallsOf (trace o) = [].
Proof.
  intros pre n post inventory o.
  assert (result (exec (memWorld sampleSys)
                    (detectMacAddresses (ext := sampleExternals)) ∅)
          = (inventory, None)) as Hinv by (vm_compute; reflexivity).
  assert (Forall (λ m : string * Network, calcOk (ext := sampleExternals) m.2)
            pre) as Hpre by (repeat constructor).
  assert ((CalculateNetworkAndBroadcast (Externals := sampleExternals)
             (IP n.2) (Netmask n.2)).2 = Some (NewError "Invalid ip or netmask"))
    as Hn by reflexivity.
  split; [exact Hinv|]. split; [exact Hpre|]. split; [exact Hn|].
  exact (writeNetworkInterfaces_first_rejected_network (ext := sampleExternals)
           (memWorld sampleSys) ∅ pre post n inventory _ Hinv Hpre Hn).
Defined.

(** ** File work comes first *)

Lemma detection_broadcastsOf tr :
  Forall (λ ev, detection ev = true) tr → broadcastsOf tr = [].
Proof. induction 1 as [|ev tr Hev _ IH]; [done|]. by destruct ev. Qed.

(** X13. Both entry points finish all their work on the file system
    before the first restart command: the trace of a call splits into a
    first part without any command or broadcast and a second part made of
    commands, log lines and the launch of the broadcast only, so that no
    enumeration, read, existence check or write follows a command. *)
Theorem restart_follows_all_file_work {ext : Externals} {S : Type}
    (h : Handler S) (networks : Networks) (errCh : option Chan) (s : S) :
  (let o := exec h (SetupDhcp networks errCh) s in
   ∃ pre post,
     trace o = pre ++ post ∧
     commandsOf pre = [] ∧ broadcastsOf pre = [] ∧
     Forall (λ ev, afterConvergence ev = true) post) ∧
  (let o := exec h (SetupManualNetworking networks errCh) s in
   ∃ pre post,
     trace o = pre ++ post ∧
     commandsOf pre = [] ∧ broadcastsOf pre = [] ∧
     Forall (λ ev, afterConvergence ev = true) post).
Proof.
  split; cbv zeta.
  - rewrite exec_SetupDhcp. cbv zeta.
    destruct (h _ (Log Debug _ _) s) as [[] s0]. cbn [snd].
    destruct (writeDhcpNetworkInterfaces_stops h s0) as (Hstop & _ & _).
    destruct (exec h writeDhcpNetworkInterfaces s0) as [tr1 [e|] s1];
      cbn [result final trace] in *.
    { apply stopsAtFailure_quiet in Hstop as [Hc Hb].
      eexists _, []. rewrite app_nil_r. split; [done|]. traces.
      by rewrite Hc, Hb. }
    pose proof (benign_commandsOf _ Hstop) as Hc.
    pose proof (benign_broadcastsOf _ Hstop) as Hb.
    destruct (h _ (ConvergeFileContents _ _) s1) as [[written [e|]] s2].
    { eexists _, []. rewrite app_nil_r. cbn [trace]. split; [done|]. traces.
      by rewrite Hc, Hb. }
    pose proof (restartStep_afterConvergence _
                  (restart_block_steps h written s2)) as Hsteps.
    cbv zeta. cbn [trace].
    eexists (_ :: tr1 ++ [_]), (_ ++ [_]). split_and!.
    + simpl. by rewrite <- app_assoc.
    + traces. by rewrite Hc.
    + traces. by rewrite Hb.
    + apply Forall_app. split; [done|]. by repeat constructor.
  - rewrite exec_SetupManualNetworking. cbv zeta.
    destruct (h _ (Log Debug _ _) s) as [[] s0]. cbn [snd].
    rewrite exec_writeNetworkInterfaces. cbv zeta.
    pose proof (detectMacAddresses_detection h s0) as Hdet.
    pose proof (detection_commandsOf _ Hdet) as Hc.
    pose proof (detection_broadcastsOf _ Hdet) as Hb.
    destruct (exec h detectMacAddresses s0) as [tr1 [inv [e1|]] s1];
      cbn [fst snd result final trace] in *.
    { eexists _, []. rewrite app_nil_r. split; [done|]. traces.
      by rewrite Hc, Hb. }
    destruct (writeNetworkInterfaces_range inv networks []) as [mods [e1|]];
      cbn [fst snd result final trace].
    { eexists _, []. rewrite app_nil_r. split; [done|]. traces.
      by rewrite Hc, Hb. }
    destruct (h _ (ConvergeFileContents _ _) s1) as [[written [e|]] s2];
      cbn [result trace final].
    { eexists _, []. rewrite app_nil_r. split; [done|]. traces.
      by rewrite Hc, Hb. }
    pose proof (restartStep_afterConvergence _
                  (restart_interfaces_block_steps h written mods s2))
      as Hsteps.
    eexists (_ :: tr1 ++ [_]), (_ ++ [_]). split_and!.
    + done.
    + traces. by rewrite Hc.
    + traces. by rewrite Hb.
    + apply Forall_app. split; [done|]. by repeat constructor.
Qed.
